(** * Stock ledger of the component warehouse API

    A shallow embedding of the stock-ledger core of [main.py]
    (FastAPI + SQLAlchemy + SQLite): the balance table [stocks], the audit
    journal [audit_logs], the helper [_stock_upsert], the manual adjustment,
    the receipt / issue workflows and the inventory act.

    Conventions of the embedding.
    - [Float] columns and [float] request fields hold binary64 numbers.  The
      embedding keeps the whole numbers among them ([Z]) and adds and
      subtracts them as integers.  binary64 holds every whole number of
      magnitude at most 2^53, and computes the sum or the difference of two
      of them without rounding when the result is in that range as well
      ([exact]); outside it the handlers round and the embedding does not.
      A statement about the value that a handler computes therefore carries
      [exact] hypotheses on the operands and on the result; statements about
      signs, comparisons and stored values need none.
    - [Integer] columns and [int] parameters are SQLite INTEGERs.  A key that
      is read from a table is in the signed 64-bit range; a request may carry
      any integer, and binding one outside that range to a statement fails
      in the driver (answered 500), which the embedding does not model.  A
      statement about the answer to a key that need not be in a table
      carries an [int64] hypothesis on it.
    - The [number] column of the three document tables is [unique=True]:
      the flush of a document whose number is taken raises
      [IntegrityError], answered 500 ([flush_document]).
    - A table is the list of its rows in primary-key order; [.first()] of a
      filtered query is [find].  An ORM object is a reference to its row, so
      an attribute assignment on an object rewrites, in place, the first row
      matching the filter or the primary key the object was obtained with
      ([update_first]).  The [items] relationship of a document is the
      filter of the item table on its foreign key.
    - The session is created with [autocommit=False, autoflush=False]: the
      handler works on the [pending] view, [db.commit()] makes it the
      [persisted] one, and [get_db] closes the session when the handler
      returns or raises, which discards whatever was not committed.
    - Server-side timestamps ([created_at], [updated_at], [started_at]) and
      the surrogate keys of item and journal rows are left out; the clock
      value used by a handler is a parameter [now]. *)

From Stdlib Require Import ZArith List Bool String Lia.
Import ListNotations.
Local Open Scope Z_scope.

(** ** models.py *)

Module ReceiptStatus.
Inductive t := draft | confirmed | cancelled.
End ReceiptStatus.

Module IssueStatus.
Inductive t := draft | confirmed | cancelled.
End IssueStatus.

Module InventoryStatus.
Inductive t := in_progress | completed | cancelled.
End InventoryStatus.

Module AuditActionType.
Inductive t := create | update | delete | receipt | issue | adjust | inventory.
End AuditActionType.

(** Texts stored in [AuditLog.description].  The f-strings of the handlers
    are kept as constructors holding the interpolated values. *)
Inductive Text :=
| Free (s : string)
    (* text supplied by the caller, e.g. StockAdjust.reason *)
| ReceiptNote (number : string)
    (* f"Приход по накладной {receipt.number}" *)
| IssueNote (number : string)
    (* f"Выдача по накладной {issue.number}" *)
| InventoryNote (number : string) (delta : Z).
    (* f"Инвентаризация {data.number}, расхождение: {delta:+.2f}" *)

Module Stock.
Record t := mk {
  id : Z;
  component_id : Z;
  location_id : Z;
  quantity : Z;
  reserved : Z
}.
(** [stock.quantity = q] *)
Definition set_quantity (q : Z) (s : t) : t :=
  mk (id s) (component_id s) (location_id s) q (reserved s).
End Stock.

Module Receipt.
Record t := mk {
  id : Z;
  number : string;
  supplier_id : Z;
  status : ReceiptStatus.t;
  received_at : option Z;
  invoice_number : option string;
  notes : option string;
  created_by : option string
}.
Definition set_status (st : ReceiptStatus.t) (r : t) : t :=
  mk (id r) (number r) (supplier_id r) st (received_at r)
     (invoice_number r) (notes r) (created_by r).
Definition set_received_at (ts : Z) (r : t) : t :=
  mk (id r) (number r) (supplier_id r) (status r) (Some ts)
     (invoice_number r) (notes r) (created_by r).
End Receipt.

Module ReceiptItem.
Record t := mk {
  receipt_id : Z;
  component_id : Z;
  location_id : option Z;
  quantity : Z;
  price_rub : option Z
}.
End ReceiptItem.

Module Issue.
Record t := mk {
  id : Z;
  number : string;
  department : option string;
  requester : option string;
  status : IssueStatus.t;
  issued_at : option Z;
  purpose : option string;
  notes : option string;
  created_by : option string
}.
Definition set_status (st : IssueStatus.t) (i : t) : t :=
  mk (id i) (number i) (department i) (requester i) st (issued_at i)
     (purpose i) (notes i) (created_by i).
Definition set_issued_at (ts : Z) (i : t) : t :=
  mk (id i) (number i) (department i) (requester i) (status i) (Some ts)
     (purpose i) (notes i) (created_by i).
End Issue.

Module IssueItem.
Record t := mk {
  issue_id : Z;
  component_id : Z;
  location_id : option Z;
  quantity : Z
}.
End IssueItem.

Module Inventory.
Record t := mk {
  id : Z;
  number : string;
  status : InventoryStatus.t;
  finished_at : option Z;
  notes : option string;
  created_by : option string
}.
Definition set_status (st : InventoryStatus.t) (i : t) : t :=
  mk (id i) (number i) st (finished_at i) (notes i) (created_by i).
Definition set_finished_at (ts : Z) (i : t) : t :=
  mk (id i) (number i) (status i) (Some ts) (notes i) (created_by i).
End Inventory.

Module InventoryItem.
Record t := mk {
  inventory_id : Z;
  component_id : Z;
  location_id : option Z;
  expected_quantity : Z;
  actual_quantity : Z;
  discrepancy : Z
}.
End InventoryItem.

Module AuditLog.
Record t := mk {
  action_type : AuditActionType.t;
  entity_type : string;
  entity_id : option Z;
  component_id : option Z;
  location_id : option Z;
  quantity_before : option Z;
  quantity_after : option Z;
  description : option Text;
  payload : option string;
  performed_by : option string
}.
End AuditLog.

(** ** schemas.py: request bodies and their [Field] constraints *)

Module StockAdjust.
Record t := mk {
  component_id : Z;
  location_id : Z;
  quantity : Z;
  reason : option string;
  performed_by : option string
}.
(** [quantity: float = Field(..., description=...)]: required, no bound. *)
Definition validate (_ : t) : bool := true.
End StockAdjust.

Module ReceiptItemCreate.
Record t := mk {
  component_id : Z;
  location_id : option Z;
  quantity : Z;
  price_rub : option Z
}.
(** [quantity: float = Field(..., gt=0)] *)
Definition validate (d : t) : bool := 0 <? quantity d.
End ReceiptItemCreate.

Module ReceiptCreate.
Record t := mk {
  number : string;
  supplier_id : Z;
  invoice_number : option string;
  notes : option string;
  created_by : option string;
  items : list ReceiptItemCreate.t
}.
Definition validate (d : t) : bool := forallb ReceiptItemCreate.validate (items d).
End ReceiptCreate.

Module ReceiptConfirm.
Record t := mk { performed_by : option string }.
End ReceiptConfirm.

Module IssueItemCreate.
Record t := mk {
  component_id : Z;
  location_id : option Z;
  quantity : Z
}.
(** [quantity: float = Field(..., gt=0)] *)
Definition validate (d : t) : bool := 0 <? quantity d.
End IssueItemCreate.

Module IssueCreate.
Record t := mk {
  number : string;
  department : option string;
  requester : option string;
  purpose : option string;
  notes : option string;
  created_by : option string;
  items : list IssueItemCreate.t
}.
Definition validate (d : t) : bool := forallb IssueItemCreate.validate (items d).
End IssueCreate.

Module InventoryItemCreate.
Record t := mk {
  component_id : Z;
  location_id : option Z;
  actual_quantity : Z
}.
(** [actual_quantity: float = Field(..., ge=0)] *)
Definition validate (d : t) : bool := 0 <=? actual_quantity d.
End InventoryItemCreate.

Module InventoryCreate.
Record t := mk {
  number : string;
  notes : option string;
  created_by : option string;
  items : list InventoryItemCreate.t
}.
Definition validate (d : t) : bool := forallb InventoryItemCreate.validate (items d).
End InventoryCreate.

(** ** database.py: the store and the request-scoped session *)

(** The tables.  Of the reference tables ([components], [storage_locations],
    [suppliers]) only the primary keys are read by the ledger core. *)
Record Store := mkStore {
  components : list Z;
  storage_locations : list Z;
  suppliers : list Z;
  stocks : list Stock.t;
  receipts : list Receipt.t;
  receipt_items : list ReceiptItem.t;
  issues : list Issue.t;
  issue_items : list IssueItem.t;
  inventories : list Inventory.t;
  inventory_items : list InventoryItem.t;
  audit_logs : list AuditLog.t
}.

Record Session := mkSession {
  persisted : Store;   (* what the database keeps once the session is closed *)
  pending : Store      (* what the handler sees and writes *)
}.

(** Detail messages of the [HTTPException]s raised by the handlers. *)
Inductive Detail :=
| NotFound (tablename : string) (obj_id : Z)
    (* f"{model.__tablename__} id={obj_id} не найден" *)
| InsufficientStock (available requested : Z)
    (* f"Недостаточно компонентов: доступно {before}, запрошено {abs(delta)}" *)
| AlreadyProcessed
    (* "Накладная уже обработана" *)
| ConfirmedNotCancellable
    (* "Нельзя отменить подтверждённую накладную" *)
| RequestValidation
    (* the 422 body produced by pydantic before the handler runs *)
| IntegrityError.
    (* sqlalchemy.exc.IntegrityError, which no handler catches: the server
       answers 500 "Internal Server Error" *)

Record HTTPException := mkHTTP { status_code : Z; detail : Detail }.

Inductive outcome (A : Type) :=
| Ok (a : A)
| Raise (e : HTTPException).
Arguments Ok {A} a.
Arguments Raise {A} e.

(** Handlers: session state passing with exceptions. *)
Definition M (A : Type) : Type := Session -> outcome A * Session.

Definition ret {A} (a : A) : M A := fun s => (Ok a, s).

Definition bind {A B} (m : M A) (k : A -> M B) : M B :=
  fun s => match m s with
           | (Ok a, s') => k a s'
           | (Raise e, s') => (Raise e, s')
           end.

Notation "x <- m ;; k" := (bind m (fun x => k))
  (at level 61, m at next level, right associativity).
Notation "m ;;; k" := (bind m (fun _ => k))
  (at level 61, right associativity).

Definition raise {A} (status : Z) (d : Detail) : M A :=
  fun s => (Raise (mkHTTP status d), s).

(** Read the handler's view of the database. *)
Definition query {A} (f : Store -> A) : M A := fun s => (Ok (f (pending s)), s).

(** Change the handler's view: an attribute assignment on a loaded object
    (the identity map hands the same object to later queries), or a
    [db.add].  A balance row is flushed as soon as it is added, so later
    queries find it; journal and item rows are read by no handler before the
    commit that flushes them, so they are appended at once as well. *)
Definition write (f : Store -> Store) : M unit :=
  fun s => (Ok tt, mkSession (persisted s) (f (pending s))).

(** [db.commit()] *)
Definition commit : M unit :=
  fun s => (Ok tt, mkSession (pending s) (pending s)).

(** [for x in xs: body(x)] *)
Fixpoint for_each {A} (body : A -> M unit) (xs : list A) : M unit :=
  match xs with
  | [] => ret tt
  | x :: xs' => body x ;;; for_each body xs'
  end.

(** [get_db]: one session per request, closed in the [finally] clause; only
    committed state survives. *)
Definition get_db {A} (handler : M A) (db : Store) : outcome A * Store :=
  let '(r, s) := handler (mkSession db db) in (r, persisted s).

(** A request whose body is validated by pydantic before the handler runs. *)
Definition request {D A} (validate : D -> bool) (handler : D -> M A)
    (data : D) (db : Store) : outcome A * Store :=
  if validate data then get_db (handler data) db
  else (Raise (mkHTTP 422 RequestValidation), db).

(** Primary key given by SQLite to a new row: one more than the largest. *)
Definition next_id (ids : list Z) : Z := 1 + fold_right Z.max 0 ids.
Arguments next_id : simpl never.

(** The whole numbers that binary64 holds and adds without rounding. *)
Definition exact (q : Z) : Prop := - 2 ^ 53 <= q <= 2 ^ 53.

(** The integers that SQLite stores and binds. *)
Definition int64 (k : Z) : Prop := - 2 ^ 63 <= k < 2 ^ 63.

(** [db.add(doc); db.flush()] for a document of the table [table]: the
    INSERT of a [number] that the table already holds violates the UNIQUE
    constraint of the column and raises [IntegrityError]. *)
Definition flush_document {A} (table : Store -> list A) (number : A -> string)
    (add : A -> Store -> Store) (doc : A) : M unit :=
  taken <- query (fun db =>
             existsb (fun o => String.eqb (number o) (number doc)) (table db)) ;;
  if taken then raise 500 IntegrityError
  else write (add doc).

(** The row reached by a query is rewritten in place. *)
Fixpoint update_first {A} (p : A -> bool) (f : A -> A) (l : list A) : list A :=
  match l with
  | [] => []
  | x :: l' => if p x then f x :: l' else x :: update_first p f l'
  end.

(** Functional updates of one table of the store. *)
Definition with_stocks (f : list Stock.t -> list Stock.t) (db : Store) : Store :=
  mkStore (components db) (storage_locations db) (suppliers db)
    (f (stocks db)) (receipts db) (receipt_items db) (issues db)
    (issue_items db) (inventories db) (inventory_items db) (audit_logs db).

Definition with_receipts (f : list Receipt.t -> list Receipt.t) (db : Store) : Store :=
  mkStore (components db) (storage_locations db) (suppliers db)
    (stocks db) (f (receipts db)) (receipt_items db) (issues db)
    (issue_items db) (inventories db) (inventory_items db) (audit_logs db).

Definition with_receipt_items (f : list ReceiptItem.t -> list ReceiptItem.t)
    (db : Store) : Store :=
  mkStore (components db) (storage_locations db) (suppliers db)
    (stocks db) (receipts db) (f (receipt_items db)) (issues db)
    (issue_items db) (inventories db) (inventory_items db) (audit_logs db).

Definition with_issues (f : list Issue.t -> list Issue.t) (db : Store) : Store :=
  mkStore (components db) (storage_locations db) (suppliers db)
    (stocks db) (receipts db) (receipt_items db) (f (issues db))
    (issue_items db) (inventories db) (inventory_items db) (audit_logs db).

Definition with_issue_items (f : list IssueItem.t -> list IssueItem.t)
    (db : Store) : Store :=
  mkStore (components db) (storage_locations db) (suppliers db)
    (stocks db) (receipts db) (receipt_items db) (issues db)
    (f (issue_items db)) (inventories db) (inventory_items db) (audit_logs db).

Definition with_inventories (f : list Inventory.t -> list Inventory.t)
    (db : Store) : Store :=
  mkStore (components db) (storage_locations db) (suppliers db)
    (stocks db) (receipts db) (receipt_items db) (issues db)
    (issue_items db) (f (inventories db)) (inventory_items db) (audit_logs db).

Definition with_inventory_items (f : list InventoryItem.t -> list InventoryItem.t)
    (db : Store) : Store :=
  mkStore (components db) (storage_locations db) (suppliers db)
    (stocks db) (receipts db) (receipt_items db) (issues db)
    (issue_items db) (inventories db) (f (inventory_items db)) (audit_logs db).

Definition with_audit_logs (f : list AuditLog.t -> list AuditLog.t)
    (db : Store) : Store :=
  mkStore (components db) (storage_locations db) (suppliers db)
    (stocks db) (receipts db) (receipt_items db) (issues db)
    (issue_items db) (inventories db) (inventory_items db) (f (audit_logs db)).

(** ** main.py: helpers *)

(** [_write_audit]: [db.add(AuditLog(...))].  The payload is only passed by
    the catalogue handlers; it is stored as given. *)
Definition _write_audit (action_type : AuditActionType.t) (entity_type : string)
    (entity_id component_id location_id : option Z)
    (quantity_before quantity_after : option Z)
    (description : option Text) (payload : option string)
    (performed_by : option string) : M unit :=
  write (with_audit_logs (fun logs =>
    logs ++ [AuditLog.mk action_type entity_type entity_id component_id
               location_id quantity_before quantity_after description
               payload performed_by])).

(** [_get_or_404(db, model, obj_id)] on a table with primary key [pk]. *)
Definition _get_or_404 {A} (tablename : string) (table : Store -> list A)
    (pk : A -> Z) (obj_id : Z) : M A :=
  found <- query (fun db => find (fun o => pk o =? obj_id) (table db)) ;;
  match found with
  | Some obj => ret obj
  | None => raise 404 (NotFound tablename obj_id)
  end.

(** The filter [Stock.component_id == c, Stock.location_id == l]. *)
Definition at_cell (c l : Z) (s : Stock.t) : bool :=
  (Stock.component_id s =? c) && (Stock.location_id s =? l).

(** [db.query(Stock).filter(...).first()] *)
Definition stock_at (db : Store) (c l : Z) : option Stock.t :=
  find (at_cell c l) (stocks db).

(** [stock.quantity if stock else 0] *)
Definition quantity_at (db : Store) (c l : Z) : Z :=
  match stock_at db c l with
  | Some s => Stock.quantity s
  | None => 0
  end.

(** [stock = Stock(component_id=c, location_id=l, quantity=q); db.add(stock);
    db.flush()]: the row gets its key and the column default [reserved=0]. *)
Definition add_stock (c l q : Z) : M Stock.t :=
  new_id <- query (fun db => next_id (map Stock.id (stocks db))) ;;
  let stock := Stock.mk new_id c l q 0 in
  write (with_stocks (fun rows => rows ++ [stock])) ;;;
  ret stock.

(** [stock.quantity = q] on the object returned by the query for [(c, l)]. *)
Definition assign_quantity (c l q : Z) : M unit :=
  write (with_stocks (update_first (at_cell c l) (Stock.set_quantity q))).

Definition _stock_upsert (component_id location_id delta : Z)
    (performed_by : option string) (action_type : AuditActionType.t)
    (description : option Text) : M Stock.t :=
  found <- query (fun db => stock_at db component_id location_id) ;;
  stock <- match found with
           | Some stock => ret stock
           | None => add_stock component_id location_id 0
           end ;;
  let before := Stock.quantity stock in
  let after := before + delta in
  if after <? 0 then
    raise 400 (InsufficientStock before (Z.abs delta))
  else
    assign_quantity component_id location_id after ;;;
    _write_audit action_type "stock" (Some (Stock.id stock))
      (Some component_id) (Some location_id) (Some before) (Some after)
      description None performed_by ;;;
    ret (Stock.set_quantity after stock).

(** [item.location_id or 1] *)
Definition or_1 (location_id : option Z) : Z :=
  match location_id with
  | Some l => if l =? 0 then 1 else l
  | None => 1
  end.

(** ** main.py: stocks *)

Definition adjust_stock (data : StockAdjust.t) : M Stock.t :=
  let c := StockAdjust.component_id data in
  let l := StockAdjust.location_id data in
  let q := StockAdjust.quantity data in
  _get_or_404 "components" components (fun k => k) c ;;;
  _get_or_404 "storage_locations" storage_locations (fun k => k) l ;;;
  found <- query (fun db => stock_at db c l) ;;
  let before := match found with Some s => Stock.quantity s | None => 0 end in
  stock <- match found with
           | None => add_stock c l q
           | Some s => assign_quantity c l q ;;; ret (Stock.set_quantity q s)
           end ;;
  _write_audit AuditActionType.adjust "stock" (Some (Stock.id stock))
    (Some c) (Some l) (Some before) (Some q)
    (option_map Free (StockAdjust.reason data)) None
    (StockAdjust.performed_by data) ;;;
  commit ;;;
  ret stock.

(** ** main.py: receipts *)

Definition create_receipt (data : ReceiptCreate.t) : M Receipt.t :=
  _get_or_404 "suppliers" suppliers (fun k => k) (ReceiptCreate.supplier_id data) ;;;
  new_id <- query (fun db => next_id (map Receipt.id (receipts db))) ;;
  let receipt := Receipt.mk new_id (ReceiptCreate.number data)
                   (ReceiptCreate.supplier_id data) ReceiptStatus.draft None
                   (ReceiptCreate.invoice_number data) (ReceiptCreate.notes data)
                   (ReceiptCreate.created_by data) in
  flush_document receipts Receipt.number
    (fun r => with_receipts (fun rows => rows ++ [r])) receipt ;;;
  for_each (fun item_data =>
      _get_or_404 "components" components (fun k => k)
        (ReceiptItemCreate.component_id item_data) ;;;
      write (with_receipt_items (fun rows => rows ++
        [ReceiptItem.mk new_id (ReceiptItemCreate.component_id item_data)
           (ReceiptItemCreate.location_id item_data)
           (ReceiptItemCreate.quantity item_data)
           (ReceiptItemCreate.price_rub item_data)])))
    (ReceiptCreate.items data) ;;;
  commit ;;;
  ret receipt.

(** [receipt.items] *)
Definition items_of_receipt (db : Store) (rec_id : Z) : list ReceiptItem.t :=
  filter (fun it => ReceiptItem.receipt_id it =? rec_id) (receipt_items db).

(** The body of the loop of [confirm_receipt] for one position. *)
Definition receipt_line (receipt : Receipt.t) (data : ReceiptConfirm.t)
    (item : ReceiptItem.t) : M unit :=
  let loc_id := or_1 (ReceiptItem.location_id item) in
  _stock_upsert (ReceiptItem.component_id item) loc_id
    (ReceiptItem.quantity item) (ReceiptConfirm.performed_by data)
    AuditActionType.receipt
    (Some (ReceiptNote (Receipt.number receipt))) ;;;
  ret tt.

Definition confirm_receipt (now : Z) (rec_id : Z) (data : ReceiptConfirm.t)
    : M Receipt.t :=
  receipt <- _get_or_404 "receipts" receipts Receipt.id rec_id ;;
  match Receipt.status receipt with
  | ReceiptStatus.draft =>
      items <- query (fun db => items_of_receipt db (Receipt.id receipt)) ;;
      for_each (receipt_line receipt data) items ;;;
      let upd r := Receipt.set_received_at now
                     (Receipt.set_status ReceiptStatus.confirmed r) in
      write (with_receipts (update_first (fun r => Receipt.id r =? rec_id) upd)) ;;;
      commit ;;;
      ret (upd receipt)
  | _ => raise 400 AlreadyProcessed
  end.

Definition cancel_receipt (rec_id : Z) : M Receipt.t :=
  receipt <- _get_or_404 "receipts" receipts Receipt.id rec_id ;;
  match Receipt.status receipt with
  | ReceiptStatus.confirmed => raise 400 ConfirmedNotCancellable
  | _ =>
      let upd := Receipt.set_status ReceiptStatus.cancelled in
      write (with_receipts (update_first (fun r => Receipt.id r =? rec_id) upd)) ;;;
      commit ;;;
      ret (upd receipt)
  end.

(** ** main.py: issues *)

Definition create_issue (data : IssueCreate.t) : M Issue.t :=
  new_id <- query (fun db => next_id (map Issue.id (issues db))) ;;
  let issue := Issue.mk new_id (IssueCreate.number data)
                 (IssueCreate.department data) (IssueCreate.requester data)
                 IssueStatus.draft None (IssueCreate.purpose data)
                 (IssueCreate.notes data) (IssueCreate.created_by data) in
  flush_document issues Issue.number
    (fun i => with_issues (fun rows => rows ++ [i])) issue ;;;
  for_each (fun item_data =>
      _get_or_404 "components" components (fun k => k)
        (IssueItemCreate.component_id item_data) ;;;
      write (with_issue_items (fun rows => rows ++
        [IssueItem.mk new_id (IssueItemCreate.component_id item_data)
           (IssueItemCreate.location_id item_data)
           (IssueItemCreate.quantity item_data)])))
    (IssueCreate.items data) ;;;
  commit ;;;
  ret issue.

(** [issue.items] *)
Definition items_of_issue (db : Store) (iss_id : Z) : list IssueItem.t :=
  filter (fun it => IssueItem.issue_id it =? iss_id) (issue_items db).

(** The body of the loop of [confirm_issue] for one position. *)
Definition issue_line (issue : Issue.t) (performed_by : option string)
    (item : IssueItem.t) : M unit :=
  let loc_id := or_1 (IssueItem.location_id item) in
  _stock_upsert (IssueItem.component_id item) loc_id
    (- IssueItem.quantity item) performed_by
    AuditActionType.issue
    (Some (IssueNote (Issue.number issue))) ;;;
  ret tt.

Definition confirm_issue (now : Z) (iss_id : Z) (performed_by : option string)
    : M Issue.t :=
  issue <- _get_or_404 "issues" issues Issue.id iss_id ;;
  match Issue.status issue with
  | IssueStatus.draft =>
      items <- query (fun db => items_of_issue db (Issue.id issue)) ;;
      for_each (issue_line issue performed_by) items ;;;
      let upd i := Issue.set_issued_at now
                     (Issue.set_status IssueStatus.confirmed i) in
      write (with_issues (update_first (fun i => Issue.id i =? iss_id) upd)) ;;;
      commit ;;;
      ret (upd issue)
  | _ => raise 400 AlreadyProcessed
  end.

Definition cancel_issue (iss_id : Z) : M Issue.t :=
  issue <- _get_or_404 "issues" issues Issue.id iss_id ;;
  match Issue.status issue with
  | IssueStatus.confirmed => raise 400 ConfirmedNotCancellable
  | _ =>
      let upd := Issue.set_status IssueStatus.cancelled in
      write (with_issues (update_first (fun i => Issue.id i =? iss_id) upd)) ;;;
      commit ;;;
      ret (upd issue)
  end.

(** ** main.py: inventory *)

(** The body of the loop of [create_inventory] for one position. *)
Definition inventory_line (inventory_id : Z) (number : string)
    (created_by : option string) (item_data : InventoryItemCreate.t) : M unit :=
  let c := InventoryItemCreate.component_id item_data in
  _get_or_404 "components" components (fun k => k) c ;;;
  let loc_id := or_1 (InventoryItemCreate.location_id item_data) in
  found <- query (fun db => stock_at db c loc_id) ;;
  let expected := match found with Some s => Stock.quantity s | None => 0 end in
  let actual := InventoryItemCreate.actual_quantity item_data in
  let delta := actual - expected in
  write (with_inventory_items (fun rows => rows ++
    [InventoryItem.mk inventory_id c (Some loc_id) expected actual delta])) ;;;
  if delta =? 0 then ret tt
  else
    stock <- match found with
             | None => add_stock c loc_id actual
             | Some s => assign_quantity c loc_id actual ;;;
                         ret (Stock.set_quantity actual s)
             end ;;
    _write_audit AuditActionType.inventory "stock" (Some (Stock.id stock))
      (Some c) (Some loc_id) (Some expected) (Some actual)
      (Some (InventoryNote number delta)) None created_by.

Definition create_inventory (now : Z) (data : InventoryCreate.t) : M Inventory.t :=
  new_id <- query (fun db => next_id (map Inventory.id (inventories db))) ;;
  let inventory := Inventory.mk new_id (InventoryCreate.number data)
                     InventoryStatus.in_progress None
                     (InventoryCreate.notes data)
                     (InventoryCreate.created_by data) in
  flush_document inventories Inventory.number
    (fun i => with_inventories (fun rows => rows ++ [i])) inventory ;;;
  for_each (inventory_line new_id (InventoryCreate.number data)
              (InventoryCreate.created_by data))
    (InventoryCreate.items data) ;;;
  let upd i := Inventory.set_finished_at now
                 (Inventory.set_status InventoryStatus.completed i) in
  write (with_inventories (update_first (fun i => Inventory.id i =? new_id) upd)) ;;;
  commit ;;;
  ret (upd inventory).

(** ** The routes, with body validation and session handling *)

Definition post_stocks_adjust := request StockAdjust.validate adjust_stock.
Definition post_receipts := request ReceiptCreate.validate create_receipt.
Definition post_receipts_confirm (now rec_id : Z) (data : ReceiptConfirm.t) :=
  get_db (confirm_receipt now rec_id data).
Definition post_receipts_cancel (rec_id : Z) := get_db (cancel_receipt rec_id).
Definition post_issues := request IssueCreate.validate create_issue.
Definition post_issues_confirm (now iss_id : Z) (performed_by : option string) :=
  get_db (confirm_issue now iss_id performed_by).
Definition post_issues_cancel (iss_id : Z) := get_db (cancel_issue iss_id).
Definition post_inventories (now : Z) :=
  request InventoryCreate.validate (create_inventory now).

(** ** Definitions used by the statements *)

(** The journal row written by [_stock_upsert]. *)
Definition upsert_entry (stock_id c l before after : Z) (pb : option string)
    (act : AuditActionType.t) (desc : option Text) : AuditLog.t :=
  AuditLog.mk act "stock" (Some stock_id) (Some c) (Some l)
    (Some before) (Some after) desc None pb.

(** ** Sample databases *)

(** One component, one storage cell, one supplier, nothing in stock. *)
Definition db_empty : Store :=
  mkStore [1] [1] [1] [] [] [] [] [] [] [] [].

(** The same with [q] pieces of component 1 in cell 1. *)
Definition db_with (q : Z) : Store :=
  with_stocks (fun _ => [Stock.mk 1 1 1 q 0]) db_empty.

(** What [POST /stocks/adjust] with [quantity = -10] leaves behind. *)
Definition db_overdrawn : Store :=
  snd (post_stocks_adjust (StockAdjust.mk 1 1 (-10) None None) db_empty).

(** The arguments of one call of [_stock_upsert] on a given cell. *)
Record Mutation := mkMutation {
  delta_of : Z;
  operator_of : option string;
  action_of : AuditActionType.t;
  description_of : option Text
}.

(** A sequence of calls on the cell [(c, l)], each in a session opened on
    the database left by the previous ones.  An accepted call is kept; for a
    rejected one [rollback] tells whether its session is discarded (what
    [get_db] does when the handler raises) or kept as the helper left it.
    The result is the final database together with the verdict on every
    call, in order. *)
Fixpoint apply_mutations (rollback : bool) (c l : Z) (calls : list Mutation)
    (db : Store) : Store * list (Z * bool) :=
  match calls with
  | [] => (db, [])
  | m :: rest =>
      let '(r, s) := _stock_upsert c l (delta_of m) (operator_of m)
                       (action_of m) (description_of m) (mkSession db db) in
      match r with
      | Ok _ =>
          let '(db', verdicts) := apply_mutations rollback c l rest (pending s) in
          (db', (delta_of m, true) :: verdicts)
      | Raise _ =>
          let '(db', verdicts) :=
            apply_mutations rollback c l rest (if rollback then db else pending s) in
          (db', (delta_of m, false) :: verdicts)
      end
  end.

(** Sum of the deltas of the accepted calls. *)
Fixpoint accepted_sum (verdicts : list (Z * bool)) : Z :=
  match verdicts with
  | [] => 0
  | (delta, accepted) :: rest =>
      (if accepted then delta else 0) + accepted_sum rest
  end.

(** Sum of the deltas that add to a balance: an upper bound of every
    balance that a sequence of calls on a fresh cell goes through. *)
Definition added_sum (deltas : list Z) : Z :=
  fold_right (fun delta acc => Z.max 0 delta + acc) 0 deltas.

(** Ten pieces in stock and a draft issue of fifteen (document 1). *)
Definition db_issue_15 : Store :=
  snd (post_issues
         (IssueCreate.mk "I-1" None None None None None
            [IssueItemCreate.mk 1 None 15])
         (db_with 10)).

(** A stock overdrawn by ten and a draft receipt of three (document 1). *)
Definition db_receipt_3 : Store :=
  snd (post_receipts
         (ReceiptCreate.mk "R-1" 1 None None None
            [ReceiptItemCreate.mk 1 None 3 None])
         db_overdrawn).

(** A draft receipt of ten pieces (document 1) on an empty stock, and the
    same document once cancelled. *)
Definition db_receipt_draft : Store :=
  snd (post_receipts
         (ReceiptCreate.mk "R-2" 1 None None None
            [ReceiptItemCreate.mk 1 None 10 None])
         db_empty).

Definition db_receipt_cancelled : Store :=
  snd (post_receipts_cancel 1 db_receipt_draft).

(** The draft receipt once confirmed. *)
Definition db_receipt_confirmed : Store :=
  snd (post_receipts_confirm 0 1 (ReceiptConfirm.mk None) db_receipt_draft).

(** A cancelled issue (document 1). *)
Definition db_issue_cancelled : Store :=
  snd (post_issues_cancel 1 db_issue_15).

(** A handler keeps a relation [R] between databases when, started in a
    session whose two views are [R]-related to some database [db0], it
    leaves both views [R]-related to [db0], whatever its outcome. *)
Definition preserves (R : Store -> Store -> Prop) {A} (m : M A) : Prop :=
  forall db0 s,
    R db0 (pending s) ->
    R db0 (pending (snd (m s)))
    /\ (R db0 (persisted s) -> R db0 (persisted (snd (m s)))).

(** Two balance rows that differ at most in [quantity]. *)
Definition same_but_quantity (s s' : Stock.t) : Prop :=
  s' = Stock.set_quantity (Stock.quantity s') s.

(** The balance table [after] has the rows of [before], in the same order
    and changed at most in [quantity], followed by new rows whose
    [reserved] is 0. *)
Definition keeps_reserved (before after : list Stock.t) : Prop :=
  exists kept fresh,
    after = kept ++ fresh
    /\ Forall2 same_but_quantity before kept
    /\ Forall (fun s => Stock.reserved s = 0) fresh.

Definition reserved_frame (db db' : Store) : Prop :=
  keeps_reserved (stocks db) (stocks db').

(** ** main.py: read-only handlers *)

(** [get_receipt], [get_issue], [get_inventory]: [_get_or_404] on the
    document table. *)
Definition get_receipt (rec_id : Z) : M Receipt.t :=
  _get_or_404 "receipts" receipts Receipt.id rec_id.

Definition get_issue (iss_id : Z) : M Issue.t :=
  _get_or_404 "issues" issues Issue.id iss_id.

Definition get_inventory (inv_id : Z) : M Inventory.t :=
  _get_or_404 "inventories" inventories Inventory.id inv_id.

(** [if component_id:] on an [Optional[int]] query parameter: [None] and [0]
    are both falsy. *)
Definition given (param : option Z) : option Z :=
  match param with
  | Some v => if v =? 0 then None else Some v
  | None => None
  end.

(** [list_stocks]: the filters are added one after the other. *)
Definition list_stocks (component_id location_id : option Z) : M (list Stock.t) :=
  query (fun db =>
    let q := stocks db in
    let q := match given component_id with
             | Some c => filter (fun s => Stock.component_id s =? c) q
             | None => q
             end in
    let q := match given location_id with
             | Some l => filter (fun s => Stock.location_id s =? l) q
             | None => q
             end in
    q).

Definition get_receipts_id (rec_id : Z) := get_db (get_receipt rec_id).
Definition get_issues_id (iss_id : Z) := get_db (get_issue iss_id).
Definition get_inventories_id (inv_id : Z) := get_db (get_inventory inv_id).
Definition get_stocks (component_id location_id : option Z) :=
  get_db (list_stocks component_id location_id).

(** ** Notions used by the properties of the ledger *)

(** The cell of a balance row. *)
Definition cell_of (s : Stock.t) : Z * Z :=
  (Stock.component_id s, Stock.location_id s).

(** No two balance rows for the same (component, location). *)
Definition cells_unique (db : Store) : Prop := NoDup (map cell_of (stocks db)).

(** No balance below zero. *)
Definition balances_nonneg (db : Store) : Prop :=
  Forall (fun s => 0 <= Stock.quantity s) (stocks db).

(** The journal entries that refer to the cell [(c, l)]. *)
Definition entry_at (c l : Z) (e : AuditLog.t) : bool :=
  match AuditLog.component_id e, AuditLog.location_id e with
  | Some c', Some l' => (c' =? c) && (l' =? l)
  | _, _ => false
  end.

Definition cell_history (db : Store) (c l : Z) : list AuditLog.t :=
  filter (entry_at c l) (audit_logs db).

(** A history is linked and ends at [final]: every entry starts from the
    quantity the previous one left, and the last one leaves [final]. *)
Fixpoint replays (history : list AuditLog.t) (final : Z) : Prop :=
  match history with
  | [] => True
  | e :: rest =>
      match rest with
      | [] => AuditLog.quantity_after e = Some final
      | next :: _ =>
          AuditLog.quantity_after e = AuditLog.quantity_before next
          /\ replays rest final
      end
  end.

(** For every cell the journal explains the current balance. *)
Definition journal_replays (db : Store) : Prop :=
  forall c l, replays (cell_history db c l) (quantity_at db c l).

(** One step of the ledger, as seen on the balance table and the journal;
    [ok] bounds the quantities that are written.
    - [step_other]: neither is touched;
    - [step_rewrite]: the row of a cell gets a new quantity and the journal
      an entry for that cell, from the old quantity to the new one;
    - [step_insert]: a cell without row gets one, and the journal an entry
      for that cell, from 0 to its quantity;
    - [step_materialize]: a cell without row gets an empty one. *)
Inductive cell_step (ok : Z -> Prop) (db db' : Store) : Prop :=
| step_other :
    stocks db' = stocks db -> audit_logs db' = audit_logs db ->
    cell_step ok db db'
| step_rewrite (c l : Z) (st : Stock.t) (q : Z) (e : AuditLog.t) :
    stock_at db c l = Some st -> ok q ->
    stocks db' = update_first (at_cell c l) (Stock.set_quantity q) (stocks db) ->
    audit_logs db' = audit_logs db ++ [e] ->
    AuditLog.component_id e = Some c -> AuditLog.location_id e = Some l ->
    AuditLog.quantity_before e = Some (Stock.quantity st) ->
    AuditLog.quantity_after e = Some q ->
    cell_step ok db db'
| step_insert (c l i q : Z) (e : AuditLog.t) :
    stock_at db c l = None -> ok q ->
    stocks db' = stocks db ++ [Stock.mk i c l q 0] ->
    audit_logs db' = audit_logs db ++ [e] ->
    AuditLog.component_id e = Some c -> AuditLog.location_id e = Some l ->
    AuditLog.quantity_before e = Some 0 ->
    AuditLog.quantity_after e = Some q ->
    cell_step ok db db'
| step_materialize (c l i : Z) :
    stock_at db c l = None -> ok 0 ->
    stocks db' = stocks db ++ [Stock.mk i c l 0 0] ->
    audit_logs db' = audit_logs db ->
    cell_step ok db db'.

Inductive ledger_steps (ok : Z -> Prop) (db : Store) : Store -> Prop :=
| steps_none : ledger_steps ok db db
| steps_then (db1 db2 : Store) :
    ledger_steps ok db db1 -> cell_step ok db1 db2 -> ledger_steps ok db db2.

(** A handler that never commits. *)
Definition never_commits {A} (m : M A) : Prop :=
  forall s, persisted (snd (m s)) = persisted s.

(** A handler that has committed nothing when it raises. *)
Definition raises_uncommitted {A} (m : M A) : Prop :=
  forall s, match fst (m s) with
            | Raise _ => persisted (snd (m s)) = persisted s
            | Ok _ => True
            end.

(** The balance table and the journal are the same in both databases. *)
Definition same_ledger (db db' : Store) : Prop :=
  stocks db' = stocks db /\ audit_logs db' = audit_logs db.

(** The documents and their lines are the same in both databases. *)
Definition same_documents (db db' : Store) : Prop :=
  receipts db' = receipts db /\ receipt_items db' = receipt_items db
  /\ issues db' = issues db /\ issue_items db' = issue_items db
  /\ inventories db' = inventories db.

(** Sum of the quantities of the lines of a receipt that go to cell
    [(c, l)], with the fallback of [confirm_receipt] for the location. *)
Fixpoint received_at_cell (items : list ReceiptItem.t) (c l : Z) : Z :=
  match items with
  | [] => 0
  | it :: rest =>
      (if (ReceiptItem.component_id it =? c)
          && (or_1 (ReceiptItem.location_id it) =? l)
       then ReceiptItem.quantity it else 0)
      + received_at_cell rest c l
  end.

(** The same for the lines of an issue. *)
Fixpoint issued_at_cell (items : list IssueItem.t) (c l : Z) : Z :=
  match items with
  | [] => 0
  | it :: rest =>
      (if (IssueItem.component_id it =? c)
          && (or_1 (IssueItem.location_id it) =? l)
       then IssueItem.quantity it else 0)
      + issued_at_cell rest c l
  end.

(** The answer of a route and the database it leaves: on an error, the
    database the request started from. *)
Definition unchanged_on_error {A} (r : outcome A * Store) (db : Store) : Prop :=
  match fst r with
  | Raise _ => snd r = db
  | Ok _ => True
  end.

(** Component 1 exists, component 2 does not: an act that counts both. *)
Definition inventory_with_unknown_component : InventoryCreate.t :=
  InventoryCreate.mk "INV-9" None None
    [InventoryItemCreate.mk 1 None 7; InventoryItemCreate.mk 2 None 3].

(** Two cells in stock: 10 pieces of component 1 in cell 1, 4 in cell 2. *)
Definition db_two_cells : Store :=
  with_stocks (fun _ => [Stock.mk 1 1 1 10 0; Stock.mk 2 1 2 4 0])
    (mkStore [1] [1; 2] [1] [] [] [] [] [] [] [] []).

(** Ten pieces in stock and a draft issue of four (document 1). *)
Definition db_issue_4 : Store :=
  snd (post_issues
         (IssueCreate.mk "I-2" None None None None None
            [IssueItemCreate.mk 1 None 4])
         (db_with 10)).

(** ** main.py: the journal route *)

Definition action_type_eqb (a b : AuditActionType.t) : bool :=
  match a, b with
  | AuditActionType.create, AuditActionType.create
  | AuditActionType.update, AuditActionType.update
  | AuditActionType.delete, AuditActionType.delete
  | AuditActionType.receipt, AuditActionType.receipt
  | AuditActionType.issue, AuditActionType.issue
  | AuditActionType.adjust, AuditActionType.adjust
  | AuditActionType.inventory, AuditActionType.inventory => true
  | _, _ => false
  end.

(** [.offset(offset).limit(limit)] as SQLite evaluates them: a negative
    offset counts as 0 and a negative limit as no limit. *)
Definition page {A} (offset limit : Z) (rows : list A) : list A :=
  let rest := skipn (Z.to_nat offset) rows in
  if limit <? 0 then rest else firstn (Z.to_nat limit) rest.

(** [get_audit_log].  The journal rows carry no [created_at] here, so
    [.order_by(AuditLog.created_at.desc())] is the parameter
    [newest_first]. *)
Definition get_audit_log (newest_first : list AuditLog.t -> list AuditLog.t)
    (component_id : option Z) (action_type : option AuditActionType.t)
    (limit offset : Z) : M (list AuditLog.t) :=
  query (fun db =>
    let q := audit_logs db in
    let q := match given component_id with
             | Some c =>
                 filter (fun e => match AuditLog.component_id e with
                                  | Some c' => c' =? c
                                  | None => false
                                  end) q
             | None => q
             end in
    let q := match action_type with
             | Some a => filter (fun e => action_type_eqb (AuditLog.action_type e) a) q
             | None => q
             end in
    page offset limit (newest_first q)).

(** [GET /audit]: [limit: int = Query(100, le=1000)]. *)
Definition get_audit (newest_first : list AuditLog.t -> list AuditLog.t)
    (component_id : option Z) (action_type : option AuditActionType.t)
    (limit offset : Z) (db : Store) : outcome (list AuditLog.t) * Store :=
  request (fun limit => limit <=? 1000)
    (fun limit => get_audit_log newest_first component_id action_type limit offset)
    limit db.

(** What the filters of [get_audit_log] ask of an entry. *)
Definition audit_filter (component_id : option Z)
    (action_type : option AuditActionType.t) (e : AuditLog.t) : Prop :=
  (forall c, given component_id = Some c -> AuditLog.component_id e = Some c)
  /\ (forall a, action_type = Some a -> AuditLog.action_type e = a).

(** The journal after an adjustment 10 -> 7 and an inventory 7 -> 3. *)
Definition db_adjusted_then_counted : Store :=
  snd (post_inventories 0
         (InventoryCreate.mk "INV-1" None None [InventoryItemCreate.mk 1 None 3])
         (snd (post_stocks_adjust (StockAdjust.mk 1 1 7 None None) (db_with 10)))).

(** ** Totals of a component *)

(** The sum of the balances of component [c] over all its cells: an exact
    sum of the stored quantities. *)
Definition component_total (db : Store) (c : Z) : Z :=
  fold_right Z.add 0
    (map Stock.quantity (filter (fun s => Stock.component_id s =? c) (stocks db))).

(** The sum of the magnitudes of [qs]: a bound of the magnitude of every sum
    of some of them, in whatever order the sum is taken. *)
Definition magnitude (qs : list Z) : Z :=
  fold_right (fun q acc => Z.abs q + acc) 0 qs.

(** The quantities that the tables hold and that a request can bring to a
    balance: the balances themselves and the lines of the receipts and of
    the issues. *)
Definition stored_quantities (db : Store) : list Z :=
  map Stock.quantity (stocks db)
  ++ map ReceiptItem.quantity (receipt_items db)
  ++ map IssueItem.quantity (issue_items db).

(** The movement that the journal entries [entries] record for component
    [c]: the exact sum of [quantity_after - quantity_before] over those of
    them that are about [c]. *)
Fixpoint net_movement (c : Z) (entries : list AuditLog.t) : Z :=
  match entries with
  | [] => 0
  | e :: rest =>
      match AuditLog.component_id e, AuditLog.quantity_before e,
            AuditLog.quantity_after e with
      | Some c', Some before, Some after =>
          if c' =? c then after - before else 0
      | _, _, _ => 0
      end
      + net_movement c rest
  end.

(** ** The lines of a document as calls of [_stock_upsert] *)

(** The calls of [_stock_upsert] that the lines of a receipt stand for, one
    after the other: the quantity of the line is added to the cell of the
    line. *)
Definition receipt_upserts (receipt : Receipt.t) (data : ReceiptConfirm.t)
    (items : list ReceiptItem.t) : M unit :=
  for_each (fun item =>
      _stock_upsert (ReceiptItem.component_id item)
        (or_1 (ReceiptItem.location_id item)) (ReceiptItem.quantity item)
        (ReceiptConfirm.performed_by data) AuditActionType.receipt
        (Some (ReceiptNote (Receipt.number receipt))) ;;;
      ret tt)
    items.

(** The same for the lines of an issue: the quantity is taken. *)
Definition issue_upserts (issue : Issue.t) (performed_by : option string)
    (items : list IssueItem.t) : M unit :=
  for_each (fun item =>
      _stock_upsert (IssueItem.component_id item)
        (or_1 (IssueItem.location_id item)) (- IssueItem.quantity item)
        performed_by AuditActionType.issue
        (Some (IssueNote (Issue.number issue))) ;;;
      ret tt)
    items.

(** ** The positions of an inventory act *)

(** The position counts the cell [(c, l)]. *)
Definition counts_cell (c l : Z) (it : InventoryItemCreate.t) : bool :=
  (InventoryItemCreate.component_id it =? c)
  && (or_1 (InventoryItemCreate.location_id it) =? l).

(** The balance of the cell [(c, l)] once the positions [counted] have been
    processed on [db]: what the last of them that counts this cell has
    counted, and the balance of [db] when none does. *)
Definition balance_after_counts (db : Store)
    (counted : list InventoryItemCreate.t) (c l : Z) : Z :=
  fold_left (fun q it =>
               if counts_cell c l it
               then InventoryItemCreate.actual_quantity it else q)
    counted (quantity_at db c l).

(** The stored line has a discrepancy. *)
Definition has_discrepancy (line : InventoryItem.t) : bool :=
  negb (InventoryItem.discrepancy line =? 0).

(** The journal entry [e] records the correction of the stored [line] of
    the act [number] created by [created_by]. *)
Definition journals (number : string) (created_by : option string)
    (e : AuditLog.t) (line : InventoryItem.t) : Prop :=
  AuditLog.action_type e = AuditActionType.inventory
  /\ AuditLog.entity_type e = "stock"%string
  /\ AuditLog.component_id e = Some (InventoryItem.component_id line)
  /\ AuditLog.location_id e = InventoryItem.location_id line
  /\ AuditLog.quantity_before e = Some (InventoryItem.expected_quantity line)
  /\ AuditLog.quantity_after e = Some (InventoryItem.actual_quantity line)
  /\ AuditLog.description e
     = Some (InventoryNote number (InventoryItem.discrepancy line))
  /\ AuditLog.performed_by e = created_by.

(** ** Numbers of the documents *)

(** In each table of documents no two rows have the same number. *)
Definition numbers_unique (db : Store) : Prop :=
  NoDup (map Receipt.number (receipts db))
  /\ NoDup (map Issue.number (issues db))
  /\ NoDup (map Inventory.number (inventories db)).

(** A table [table] whose column [number] has no duplicate in [a] has none
    in [b]. *)
Definition keeps_numbers {A} (table : Store -> list A) (number : A -> string)
    (a b : Store) : Prop :=
  NoDup (map number (table a)) -> NoDup (map number (table b)).

(** ** Requests, one after the other *)

(** The receipt [r] found under the key [k] in [a] is found there in [b],
    and likewise for an issue. *)
Definition keeps_receipt (k : Z) (r : Receipt.t) (a b : Store) : Prop :=
  find (fun x => Receipt.id x =? k) (receipts a) = Some r ->
  find (fun x => Receipt.id x =? k) (receipts b) = Some r.

Definition keeps_issue (k : Z) (i : Issue.t) (a b : Store) : Prop :=
  find (fun x => Issue.id x =? k) (issues a) = Some i ->
  find (fun x => Issue.id x =? k) (issues b) = Some i.

(** The requests that write to the ledger: the POST routes of the balances
    and of the documents.  The routes of the reference data (categories,
    manufacturers, suppliers, locations, components) write to none of the
    tables of balances and documents, and are not among them. *)
Inductive Request :=
| PostStocksAdjust (data : StockAdjust.t)
| PostReceipts (data : ReceiptCreate.t)
| PostReceiptsConfirm (now rec_id : Z) (data : ReceiptConfirm.t)
| PostReceiptsCancel (rec_id : Z)
| PostIssues (data : IssueCreate.t)
| PostIssuesConfirm (now iss_id : Z) (performed_by : option string)
| PostIssuesCancel (iss_id : Z)
| PostInventories (now : Z) (data : InventoryCreate.t).

(** The database that a request leaves. *)
Definition serve (req : Request) (db : Store) : Store :=
  match req with
  | PostStocksAdjust data => snd (post_stocks_adjust data db)
  | PostReceipts data => snd (post_receipts data db)
  | PostReceiptsConfirm now rec_id data =>
      snd (post_receipts_confirm now rec_id data db)
  | PostReceiptsCancel rec_id => snd (post_receipts_cancel rec_id db)
  | PostIssues data => snd (post_issues data db)
  | PostIssuesConfirm now iss_id performed_by =>
      snd (post_issues_confirm now iss_id performed_by db)
  | PostIssuesCancel iss_id => snd (post_issues_cancel iss_id db)
  | PostInventories now data => snd (post_inventories now data db)
  end.

(** The database left by a sequence of requests, each answered on the
    database that the previous one left. *)
Definition serve_all (reqs : list Request) (db : Store) : Store :=
  fold_left (fun db req => serve req db) reqs db.

(** * Properties *)

(** Closed comparisons of numerals, as in [exact 10] or [int64 1]. *)
Ltac numerals := vm_compute; repeat split; first [discriminate | reflexivity].

(** ** Lists of rows *)

Section Rows.
Context {A : Type}.
Variables (p : A -> bool) (f : A -> A).

Lemma update_first_absent (l : list A) :
  find p l = None -> update_first p f l = l.
Proof.
  induction l as [|x l IH]; simpl; [reflexivity|].
  destruct (p x); [discriminate|]. intros H. now rewrite IH.
Qed.

Lemma find_update_first (l : list A) (x : A) :
  find p l = Some x -> p (f x) = true ->
  find p (update_first p f l) = Some (f x).
Proof.
  induction l as [|y l IH]; simpl; [discriminate|].
  destruct (p y) eqn:Hy.
  - intros [= ->] Hf. simpl. now rewrite Hf.
  - intros Hx Hf. simpl. rewrite Hy. now apply IH.
Qed.

Lemma find_update_first_other (q : A -> bool) (l : list A) :
  (forall x, p x = true -> q x = false /\ q (f x) = false) ->
  find q (update_first p f l) = find q l.
Proof.
  intros Hpq. induction l as [|y l IH]; simpl; [reflexivity|].
  destruct (p y) eqn:Hy; simpl.
  - destruct (Hpq y Hy) as [-> ->]. reflexivity.
  - now rewrite IH.
Qed.

Lemma update_first_id (l : list A) :
  (forall x, find p l = Some x -> f x = x) -> update_first p f l = l.
Proof.
  induction l as [|y l IH]; simpl; [reflexivity|].
  destruct (p y); intros H.
  - now rewrite H.
  - now rewrite IH.
Qed.

Lemma update_first_length (l : list A) :
  List.length (update_first p f l) = List.length l.
Proof.
  induction l as [|y l IH]; simpl; [reflexivity|].
  destruct (p y); simpl; [reflexivity | now rewrite IH].
Qed.

Lemma find_app_absent (l : list A) (x : A) :
  find p l = None -> find p (l ++ [x]) = if p x then Some x else None.
Proof.
  induction l as [|y l IH]; simpl; [reflexivity|].
  destruct (p y); [discriminate | exact IH].
Qed.

Lemma find_app_present (l l' : list A) (x : A) :
  find p l = Some x -> find p (l ++ l') = Some x.
Proof.
  induction l as [|y l IH]; simpl; [discriminate|].
  destruct (p y); [trivial | exact IH].
Qed.

Lemma update_first_app_absent (l : list A) (x : A) :
  find p l = None ->
  update_first p f (l ++ [x]) = l ++ [if p x then f x else x].
Proof.
  induction l as [|y l IH]; simpl.
  - intros _. now destruct (p x).
  - destruct (p y); [discriminate|]. intros H. now rewrite IH.
Qed.

Lemma find_holds (l : list A) (x : A) : find p l = Some x -> p x = true.
Proof. intros H. now destruct (find_some _ _ H). Qed.

End Rows.

Lemma next_id_above (ids : list Z) (x : Z) : In x ids -> x < next_id ids.
Proof.
  unfold next_id. induction ids as [|y ids IH]; cbn [fold_right In]; [tauto|].
  intros [-> | H]; [lia | specialize (IH H); lia].
Qed.

Lemma find_next_id_absent {A} (pk : A -> Z) (rows : list A) :
  find (fun x => pk x =? next_id (map pk rows)) rows = None.
Proof.
  destruct (find _ rows) as [x|] eqn:F; [|reflexivity].
  apply find_some in F. destruct F as [Hin Heq]. apply Z.eqb_eq in Heq.
  pose proof (next_id_above (map pk rows) (pk x) (in_map pk _ _ Hin)). lia.
Qed.

(** ** Steps of a handler *)

Lemma bind_ok {A B} (m : M A) (k : A -> M B) (s s1 : Session) (a : A) :
  m s = (Ok a, s1) -> bind m k s = k a s1.
Proof. unfold bind. now intros ->. Qed.

Lemma bind_raise {A B} (m : M A) (k : A -> M B) (s s1 : Session) e :
  m s = (Raise e, s1) -> bind m k s = (Raise e, s1).
Proof. unfold bind. now intros ->. Qed.

Lemma find_key (k : Z) (keys : list Z) :
  In k keys -> find (fun x => x =? k) keys = Some k.
Proof.
  induction keys as [|y keys IH]; cbn [In find]; [tauto|].
  destruct (Z.eqb_spec y k) as [->|N]; [reflexivity|].
  intros [E|H]; [congruence | now apply IH].
Qed.

Lemma find_key_absent (k : Z) (keys : list Z) :
  ~ In k keys -> find (fun x => x =? k) keys = None.
Proof.
  induction keys as [|y keys IH]; cbn [In find]; [reflexivity|].
  destruct (Z.eqb_spec y k) as [->|N]; [tauto|].
  intros H. apply IH. tauto.
Qed.

Lemma get_or_404_key tablename (table : Store -> list Z) (k : Z) (s : Session) :
  In k (table (pending s)) ->
  _get_or_404 tablename table (fun x => x) k s = (Ok k, s).
Proof.
  intros H. unfold _get_or_404, bind, query. now rewrite (find_key _ _ H).
Qed.

Lemma get_or_404_missing tablename (table : Store -> list Z) (k : Z) (s : Session) :
  ~ In k (table (pending s)) ->
  _get_or_404 tablename table (fun x => x) k s
  = (Raise (mkHTTP 404 (NotFound tablename k)), s).
Proof.
  intros H. unfold _get_or_404, bind, query. now rewrite (find_key_absent _ _ H).
Qed.

Lemma get_or_404_unknown {A} tablename (table : Store -> list A) pk obj_id
    (s : Session) :
  find (fun o => pk o =? obj_id) (table (pending s)) = None ->
  _get_or_404 tablename table pk obj_id s
  = (Raise (mkHTTP 404 (NotFound tablename obj_id)), s).
Proof. intros H. unfold _get_or_404, bind, query. now rewrite H. Qed.

Lemma get_or_404_ok_session {A} tablename (table : Store -> list A) pk obj_id
    (s s' : Session) (a : A) :
  _get_or_404 tablename table pk obj_id s = (Ok a, s') -> s' = s.
Proof.
  unfold _get_or_404, bind, query.
  destruct (find _ _); cbn; [now intros [= _ <-] | discriminate].
Qed.

(** The flush of a document whose number is free, and of one whose number
    is taken. *)
Lemma number_free {A} (number : A -> string) (rows : list A) (n : string) :
  ~ In n (map number rows) ->
  existsb (fun o => String.eqb (number o) n) rows = false.
Proof.
  induction rows as [|x rows IH]; cbn [map In existsb]; [reflexivity|].
  intros H. destruct (String.eqb_spec (number x) n) as [E|_]; [tauto|].
  apply IH. tauto.
Qed.

Lemma number_taken {A} (number : A -> string) (rows : list A) (n : string) :
  In n (map number rows) ->
  existsb (fun o => String.eqb (number o) n) rows = true.
Proof.
  induction rows as [|x rows IH]; cbn [map In existsb]; [tauto|].
  intros [E|H].
  - rewrite E, String.eqb_refl. reflexivity.
  - rewrite (IH H). apply orb_true_r.
Qed.

Lemma flush_document_free {A} (table : Store -> list A) number add (doc : A)
    (s : Session) :
  ~ In (number doc) (map number (table (pending s))) ->
  flush_document table number add doc s
  = (Ok tt, mkSession (persisted s) (add doc (pending s))).
Proof.
  intros H. unfold flush_document, bind, query. now rewrite (number_free _ _ _ H).
Qed.

Lemma flush_document_taken {A} (table : Store -> list A) number add (doc : A)
    (s : Session) :
  In (number doc) (map number (table (pending s))) ->
  flush_document table number add doc s
  = (Raise (mkHTTP 500 IntegrityError), s).
Proof.
  intros H. unfold flush_document, bind, query. now rewrite (number_taken _ _ _ H).
Qed.

Lemma flush_document_ok {A} (table : Store -> list A) number add (doc : A)
    (s s' : Session) (u : unit) :
  flush_document table number add doc s = (Ok u, s') ->
  s' = mkSession (persisted s) (add doc (pending s)).
Proof.
  unfold flush_document, bind, query. destruct (existsb _ _); cbn;
    [discriminate | now intros [= _ <-]].
Qed.

(** ** Cells of the balance table *)

Lemma at_cell_spec (c l : Z) (s : Stock.t) :
  at_cell c l s = true <-> Stock.component_id s = c /\ Stock.location_id s = l.
Proof. unfold at_cell. rewrite andb_true_iff, !Z.eqb_eq. tauto. Qed.

Lemma at_cell_set_quantity (c l q : Z) (s : Stock.t) :
  at_cell c l (Stock.set_quantity q s) = at_cell c l s.
Proof. reflexivity. Qed.

Lemma at_cell_other (c l c' l' : Z) (s : Stock.t) :
  (c', l') <> (c, l) -> at_cell c l s = true -> at_cell c' l' s = false.
Proof.
  intros Hne H%at_cell_spec. destruct H as [H1 H2].
  destruct (at_cell c' l' s) eqn:E; [|reflexivity].
  apply at_cell_spec in E. destruct E as [E1 E2].
  exfalso. apply Hne. congruence.
Qed.

Lemma cell_eq_dec (c l c' l' : Z) : {(c', l') = (c, l)} + {(c', l') <> (c, l)}.
Proof.
  destruct (Z.eq_dec c' c) as [->|], (Z.eq_dec l' l) as [->|];
    [left; reflexivity | right; congruence ..].
Qed.

(** The balance table after [stock.quantity = q] on the row of [(c, l)]. *)
Lemma quantity_at_assigned (db : Store) (c l q : Z) (c' l' : Z) :
  stock_at db c l <> None ->
  quantity_at (with_stocks (update_first (at_cell c l) (Stock.set_quantity q)) db) c' l'
  = if cell_eq_dec c l c' l' then q else quantity_at db c' l'.
Proof.
  unfold quantity_at, stock_at. simpl. intros Hex.
  destruct (cell_eq_dec c l c' l') as [E|N].
  - injection E as -> ->.
    destruct (find (at_cell c l) (stocks db)) as [s|] eqn:F; [|congruence].
    rewrite (find_update_first _ _ _ _ F); [reflexivity|].
    rewrite at_cell_set_quantity. exact (find_holds _ _ _ F).
  - rewrite find_update_first_other; [reflexivity|].
    intros x Hx. rewrite at_cell_set_quantity. split; exact (at_cell_other _ _ _ _ _ N Hx).
Qed.

(** The balance table after a new row for an absent cell [(c, l)]. *)
Lemma quantity_at_added (db : Store) (c l q : Z) (i r : Z) (c' l' : Z) :
  stock_at db c l = None ->
  quantity_at (with_stocks (fun rows => rows ++ [Stock.mk i c l q r]) db) c' l'
  = if cell_eq_dec c l c' l' then q else quantity_at db c' l'.
Proof.
  unfold quantity_at, stock_at. simpl. intros Hab.
  destruct (cell_eq_dec c l c' l') as [E|N].
  - injection E as -> ->. rewrite find_app_absent by exact Hab.
    unfold at_cell at 1. simpl. now rewrite !Z.eqb_refl.
  - destruct (find (at_cell c' l') (stocks db)) as [s|] eqn:F.
    + now rewrite (find_app_present _ _ _ _ F).
    + rewrite find_app_absent by exact F.
      destruct (at_cell c' l' (Stock.mk i c l q r)) eqn:E; [|reflexivity].
      apply at_cell_spec in E. simpl in E. destruct E as [E1 E2].
      exfalso. apply N. congruence.
Qed.

(** ** [_stock_upsert], case by case *)

Lemma _stock_upsert_present c l delta pb act desc (s : Session) (st : Stock.t) :
  stock_at (pending s) c l = Some st ->
  _stock_upsert c l delta pb act desc s =
  let before := Stock.quantity st in
  if before + delta <? 0 then
    (Raise (mkHTTP 400 (InsufficientStock before (Z.abs delta))), s)
  else
    (Ok (Stock.set_quantity (before + delta) st),
     mkSession (persisted s)
       (with_audit_logs
          (fun logs => logs ++
             [upsert_entry (Stock.id st) c l before (before + delta) pb act desc])
          (with_stocks
             (update_first (at_cell c l) (Stock.set_quantity (before + delta)))
             (pending s)))).
Proof.
  intros H. unfold _stock_upsert, bind, query. rewrite H.
  cbv zeta. unfold ret.
  destruct (Stock.quantity st + delta <? 0); [reflexivity|].
  reflexivity.
Qed.

Lemma _stock_upsert_absent c l delta pb act desc (s : Session) :
  stock_at (pending s) c l = None ->
  _stock_upsert c l delta pb act desc s =
  let st := Stock.mk (next_id (map Stock.id (stocks (pending s)))) c l 0 0 in
  let db1 := with_stocks (fun rows => rows ++ [st]) (pending s) in
  if 0 + delta <? 0 then
    (Raise (mkHTTP 400 (InsufficientStock 0 (Z.abs delta))),
     mkSession (persisted s) db1)
  else
    (Ok (Stock.set_quantity (0 + delta) st),
     mkSession (persisted s)
       (with_audit_logs
          (fun logs => logs ++
             [upsert_entry (Stock.id st) c l 0 (0 + delta) pb act desc])
          (with_stocks
             (update_first (at_cell c l) (Stock.set_quantity (0 + delta)))
             db1))).
Proof.
  intros H. unfold _stock_upsert, bind, query, add_stock, bind, query.
  rewrite H. cbv zeta. unfold write, ret. cbn [pending persisted Stock.quantity].
  destruct (0 + delta <? 0); reflexivity.
Qed.

(** A session never loses what is already persisted while [_stock_upsert]
    runs: the helper does not commit. *)
Lemma _stock_upsert_persisted c l delta pb act desc (s : Session) :
  persisted (snd (_stock_upsert c l delta pb act desc s)) = persisted s.
Proof.
  destruct (stock_at (pending s) c l) as [st|] eqn:F.
  - rewrite (_stock_upsert_present _ _ _ _ _ _ _ _ F). cbn.
    destruct (_ <? 0); reflexivity.
  - rewrite (_stock_upsert_absent _ _ _ _ _ _ _ F). cbn.
    destruct (_ <? 0); reflexivity.
Qed.

(** The balance of every cell after a call of [_stock_upsert], whatever its
    outcome. *)
Lemma _stock_upsert_quantity_at c l delta pb act desc (s : Session) c' l' :
  let before := quantity_at (pending s) c l in
  quantity_at (pending (snd (_stock_upsert c l delta pb act desc s))) c' l' =
  if cell_eq_dec c l c' l' then
    if before + delta <? 0 then before else before + delta
  else quantity_at (pending s) c' l'.
Proof.
  cbn zeta. unfold quantity_at at 2 3 4.
  destruct (stock_at (pending s) c l) as [st|] eqn:F.
  - rewrite (_stock_upsert_present _ _ _ _ _ _ _ _ F). cbn zeta.
    destruct (Stock.quantity st + delta <? 0); cbn [snd pending].
    + destruct (cell_eq_dec c l c' l') as [E|N]; [|reflexivity].
      injection E as -> ->. unfold quantity_at. now rewrite F.
    + change (quantity_at (with_audit_logs ?f ?db) c' l')
        with (quantity_at db c' l').
      rewrite quantity_at_assigned by congruence. reflexivity.
  - rewrite (_stock_upsert_absent _ _ _ _ _ _ _ F). cbn zeta.
    destruct (0 + delta <? 0); cbn [snd pending].
    + rewrite quantity_at_added by exact F. reflexivity.
    + change (quantity_at (with_audit_logs ?f ?db) c' l')
        with (quantity_at db c' l').
      rewrite quantity_at_assigned.
      * destruct (cell_eq_dec c l c' l'); [reflexivity|].
        rewrite quantity_at_added by exact F.
        destruct (cell_eq_dec c l c' l'); [contradiction | reflexivity].
      * unfold stock_at. cbn. rewrite find_app_absent by exact F.
        unfold at_cell at 1. cbn. now rewrite !Z.eqb_refl.
Qed.

(** ** C1: rejection of a mutation that would go below zero *)

(** C1, as stated, fails on a cell whose balance is already negative (the
    manual adjustment can write one): with [before = -10] and [delta = 3]
    the call is rejected, but the error carries [requested = abs(delta) = 3]
    and not [-delta = -3], and the balance it leaves is below zero. *)
Lemma stock_upsert_requested_is_abs_counterexample :
  let s := mkSession db_overdrawn db_overdrawn in
  let before := quantity_at db_overdrawn 1 1 in
  let r := _stock_upsert 1 1 3 None AuditActionType.receipt None s in
  before = -10 /\ before + 3 < 0 /\
  fst r = Raise (mkHTTP 400 (InsufficientStock (-10) 3)) /\
  fst r <> Raise (mkHTTP 400 (InsufficientStock before (- 3))) /\
  quantity_at (pending (snd r)) 1 1 < 0.
Proof.
  cbv zeta. vm_compute.
  repeat split; try reflexivity; discriminate.
Qed.

(** C1 (amended): a call of [_stock_upsert] with [before + delta < 0] raises
    the 400 error carrying [available = before] and
    [requested = abs(delta)], which is [-delta] whenever [before >= 0]; it
    appends nothing to the journal, changes the balance of no cell, commits
    nothing, and changes nothing at all when the row exists (for an absent
    cell the zero row it has flushed stays in the session until the request
    is closed).  A balance that is not negative before a call is not
    negative after it. *)
Theorem stock_upsert_insufficient c l delta pb act desc (s : Session) :
  let before := quantity_at (pending s) c l in
  let r := _stock_upsert c l delta pb act desc s in
  (before + delta < 0 ->
     fst r = Raise (mkHTTP 400 (InsufficientStock before (Z.abs delta)))
     /\ (0 <= before -> Z.abs delta = - delta)
     /\ audit_logs (pending (snd r)) = audit_logs (pending s)
     /\ (forall c' l',
           quantity_at (pending (snd r)) c' l' = quantity_at (pending s) c' l')
     /\ (stock_at (pending s) c l <> None -> snd r = s)
     /\ (stock_at (pending s) c l = None ->
           stocks (pending (snd r)) = stocks (pending s) ++
             [Stock.mk (next_id (map Stock.id (stocks (pending s)))) c l 0 0])
     /\ persisted (snd r) = persisted s)
  /\ (0 <= before -> 0 <= quantity_at (pending (snd r)) c l).
Proof.
  cbv zeta. split.
  - intros Hneg. split; [|split; [|split; [|split; [|split; [|split]]]]].
    + unfold quantity_at in *.
      destruct (stock_at (pending s) c l) as [st|] eqn:F.
      * rewrite (_stock_upsert_present _ _ _ _ _ _ _ _ F). cbv zeta.
        apply Z.ltb_lt in Hneg. now rewrite Hneg.
      * rewrite (_stock_upsert_absent _ _ _ _ _ _ _ F). cbv zeta.
        apply Z.ltb_lt in Hneg. now rewrite Hneg.
    + lia.
    + unfold quantity_at in Hneg.
      destruct (stock_at (pending s) c l) as [st|] eqn:F.
      * rewrite (_stock_upsert_present _ _ _ _ _ _ _ _ F). cbv zeta.
        apply Z.ltb_lt in Hneg. now rewrite Hneg.
      * rewrite (_stock_upsert_absent _ _ _ _ _ _ _ F). cbv zeta.
        apply Z.ltb_lt in Hneg. now rewrite Hneg.
    + intros c' l'. rewrite _stock_upsert_quantity_at.
      apply Z.ltb_lt in Hneg. rewrite Hneg.
      destruct (cell_eq_dec c l c' l') as [E|N]; [|reflexivity].
      now injection E as -> ->.
    + intros Hex. unfold quantity_at in Hneg.
      destruct (stock_at (pending s) c l) as [st|] eqn:F; [|congruence].
      rewrite (_stock_upsert_present _ _ _ _ _ _ _ _ F). cbv zeta.
      apply Z.ltb_lt in Hneg. now rewrite Hneg.
    + intros F. unfold quantity_at in Hneg. rewrite F in Hneg.
      rewrite (_stock_upsert_absent _ _ _ _ _ _ _ F). cbv zeta.
      apply Z.ltb_lt in Hneg. now rewrite Hneg.
    + apply _stock_upsert_persisted.
  - intros Hpos. rewrite _stock_upsert_quantity_at.
    destruct (cell_eq_dec c l c l) as [_|N]; [|congruence].
    destruct (_ <? 0) eqn:E; [exact Hpos | now apply Z.ltb_ge in E].
Qed.

Lemma stock_upsert_insufficient_witness :
  let s := mkSession (db_with 10) (db_with 10) in
  let r := _stock_upsert 1 1 (-15) None AuditActionType.issue None s in
  (fst r = Raise (mkHTTP 400 (InsufficientStock 10 15)) /\ snd r = s)
  /\ 0 <= quantity_at (pending (snd r)) 1 1.
Proof.
  cbv zeta.
  destruct (stock_upsert_insufficient 1 1 (-15) None AuditActionType.issue None
              (mkSession (db_with 10) (db_with 10))) as [Hfail Hkeep].
  split.
  - destruct Hfail as (Hr & _ & _ & _ & Hs & _); [vm_compute; reflexivity|].
    split; [exact Hr | apply Hs; vm_compute; discriminate].
  - apply Hkeep. vm_compute. discriminate.
Defined.

(** ** C2: effect of an accepted mutation *)

(** C2: when [before + delta >= 0] (an absent row counting as [before = 0]),
    [_stock_upsert] returns the balance row with [quantity = before + delta];
    an absent row is created (with [reserved = 0]) and an existing one is
    rewritten in place; the journal gets exactly one new entry, last, with
    [quantity_before = before], [quantity_after = before + delta] and the
    supplied action type, description and operator; so the entry's
    [quantity_after] is the balance just after the call.  No other cell
    changes and nothing is committed by the helper.  The quantities are
    whole numbers that binary64 adds without rounding ([before], [delta]
    and their sum are [exact]) and the keys of the cell are SQLite
    integers. *)
Theorem stock_upsert_accepted c l delta pb act desc (s : Session) :
  let db := pending s in
  let before := quantity_at db c l in
  int64 c -> int64 l ->
  exact before -> exact delta -> exact (before + delta) ->
  0 <= before + delta ->
  exists (stock : Stock.t) (s' : Session) (entry : AuditLog.t),
    _stock_upsert c l delta pb act desc s = (Ok stock, s')
    /\ stock_at (pending s') c l = Some stock
    /\ Stock.quantity stock = before + delta
    /\ (stock_at db c l = None ->
          before = 0 /\
          stocks (pending s') = stocks db ++
            [Stock.mk (next_id (map Stock.id (stocks db))) c l (0 + delta) 0])
    /\ (stock_at db c l <> None ->
          stocks (pending s') =
            update_first (at_cell c l) (Stock.set_quantity (before + delta))
              (stocks db))
    /\ audit_logs (pending s') = audit_logs db ++ [entry]
    /\ entry = AuditLog.mk act "stock" (Some (Stock.id stock)) (Some c) (Some l)
                 (Some before) (Some (before + delta)) desc None pb
    /\ AuditLog.quantity_after entry = Some (quantity_at (pending s') c l)
    /\ (forall c' l', (c', l') <> (c, l) ->
          quantity_at (pending s') c' l' = quantity_at db c' l')
    /\ persisted s' = persisted s.
Proof.
  cbv zeta. intros _ _ _ _ _ Hok.
  assert (Hq := _stock_upsert_quantity_at c l delta pb act desc s).
  assert (Hp := _stock_upsert_persisted c l delta pb act desc s).
  cbv zeta in Hq. apply Z.ltb_ge in Hok.
  destruct (stock_at (pending s) c l) as [st|] eqn:F.
  - assert (Hb : quantity_at (pending s) c l = Stock.quantity st)
      by (unfold quantity_at; now rewrite F).
    rewrite Hb in *. clear Hb.
    rewrite (_stock_upsert_present _ _ _ _ _ _ _ _ F) in Hq, Hp |- *.
    cbv zeta in Hq, Hp |- *. rewrite Hok in Hq, Hp |- *.
    eexists _, _, _. split; [reflexivity|]. cbn [snd pending] in Hq, Hp |- *.
    split; [|split; [|split; [|split; [|split; [|split; [|split; [|split]]]]]]].
    + unfold stock_at. cbn. apply (find_update_first _ _ _ _ F).
      rewrite at_cell_set_quantity. exact (find_holds _ _ _ F).
    + reflexivity.
    + discriminate.
    + intros _. reflexivity.
    + reflexivity.
    + reflexivity.
    + cbn [AuditLog.quantity_after upsert_entry]. rewrite Hq.
      destruct (cell_eq_dec c l c l); [reflexivity | congruence].
    + intros c' l' N. rewrite Hq.
      destruct (cell_eq_dec c l c' l') as [E|_]; [|reflexivity].
      injection E as -> ->. congruence.
    + exact Hp.
  - assert (Hb : quantity_at (pending s) c l = 0)
      by (unfold quantity_at; now rewrite F).
    rewrite Hb in *. clear Hb.
    rewrite (_stock_upsert_absent _ _ _ _ _ _ _ F) in Hq, Hp |- *.
    cbv zeta in Hq, Hp |- *. rewrite Hok in Hq, Hp |- *.
    eexists _, _, _. split; [reflexivity|]. cbn [snd pending] in Hq, Hp |- *.
    assert (Hnew : update_first (at_cell c l) (Stock.set_quantity (0 + delta))
               (stocks (pending s) ++
                  [Stock.mk (next_id (map Stock.id (stocks (pending s)))) c l 0 0])
             = stocks (pending s) ++
                  [Stock.mk (next_id (map Stock.id (stocks (pending s)))) c l
                     (0 + delta) 0]).
    { rewrite update_first_app_absent by exact F.
      unfold at_cell. cbn [Stock.component_id Stock.location_id].
      now rewrite !Z.eqb_refl. }
    split; [|split; [|split; [|split; [|split; [|split; [|split; [|split]]]]]]].
    + unfold stock_at. cbn [stocks with_stocks with_audit_logs]. rewrite Hnew.
      rewrite find_app_absent by exact F. unfold at_cell at 1. cbn.
      now rewrite !Z.eqb_refl.
    + reflexivity.
    + intros _. split; [reflexivity|]. cbn [stocks with_stocks with_audit_logs].
      exact Hnew.
    + congruence.
    + reflexivity.
    + reflexivity.
    + cbn [AuditLog.quantity_after upsert_entry]. rewrite Hq.
      destruct (cell_eq_dec c l c l); [reflexivity | congruence].
    + intros c' l' N. rewrite Hq.
      destruct (cell_eq_dec c l c' l') as [E|_]; [|reflexivity].
      injection E as -> ->. congruence.
    + exact Hp.
Qed.

Lemma stock_upsert_accepted_witness :
  exists (stock : Stock.t) (s' : Session),
    _stock_upsert 1 1 10 (Some "op"%string) AuditActionType.receipt
      (Some (ReceiptNote "R-1")) (mkSession db_empty db_empty) = (Ok stock, s')
    /\ Stock.quantity stock = 10
    /\ List.length (audit_logs (pending s')) = 1%nat.
Proof.
  destruct (stock_upsert_accepted 1 1 10 (Some "op"%string)
              AuditActionType.receipt (Some (ReceiptNote "R-1"))
              (mkSession db_empty db_empty))
    as (stock & s' & entry & Hr & _ & Hq & _ & _ & Hlog & _);
    [numerals .. |].
  exists stock, s'. split; [exact Hr|]. split; [exact Hq|].
  rewrite Hlog. reflexivity.
Defined.

(** ** C8: the balance of a fresh cell is the sum of the accepted deltas *)

(** The outcome of [_stock_upsert] is decided by the sign of
    [before + delta] alone. *)
Lemma _stock_upsert_outcome c l delta pb act desc (s : Session) :
  match fst (_stock_upsert c l delta pb act desc s) with
  | Ok _ => 0 <= quantity_at (pending s) c l + delta
  | Raise _ => quantity_at (pending s) c l + delta < 0
  end.
Proof.
  unfold quantity_at. destruct (stock_at (pending s) c l) as [st|] eqn:F.
  - rewrite (_stock_upsert_present _ _ _ _ _ _ _ _ F). cbv zeta.
    destruct (_ <? 0) eqn:E; cbn [fst];
      [now apply Z.ltb_lt in E | now apply Z.ltb_ge in E].
  - rewrite (_stock_upsert_absent _ _ _ _ _ _ _ F). cbv zeta.
    destruct (_ <? 0) eqn:E; cbn [fst];
      [now apply Z.ltb_lt in E | now apply Z.ltb_ge in E].
Qed.

Lemma apply_mutations_quantity rollback c l calls : forall db,
  quantity_at (fst (apply_mutations rollback c l calls db)) c l
  = quantity_at db c l + accepted_sum (snd (apply_mutations rollback c l calls db))
  /\ map fst (snd (apply_mutations rollback c l calls db)) = map delta_of calls.
Proof.
  induction calls as [|m rest IH]; intros db; cbn [apply_mutations].
  - cbn. split; [lia | reflexivity].
  - pose proof (_stock_upsert_outcome c l (delta_of m) (operator_of m)
                  (action_of m) (description_of m) (mkSession db db)) as Ho.
    pose proof (_stock_upsert_quantity_at c l (delta_of m) (operator_of m)
                  (action_of m) (description_of m) (mkSession db db) c l) as Hq.
    cbv zeta in Hq. cbn [pending] in Ho, Hq.
    destruct (cell_eq_dec c l c l) as [_|N]; [|congruence].
    destruct (_stock_upsert c l (delta_of m) (operator_of m) (action_of m)
                (description_of m) (mkSession db db)) as [r s].
    cbn [fst snd] in Ho, Hq. destruct r as [st|e].
    + apply Z.ltb_ge in Ho. rewrite Ho in Hq.
      destruct (IH (pending s)) as [IHq IHm].
      destruct (apply_mutations rollback c l rest (pending s)) as [db' v].
      cbn [fst snd accepted_sum map] in *. split; [lia | now rewrite IHm].
    + apply Z.ltb_lt in Ho. rewrite Ho in Hq.
      destruct (IH (if rollback then db else pending s)) as [IHq IHm].
      destruct (apply_mutations rollback c l rest
                  (if rollback then db else pending s)) as [db' v].
      cbn [fst snd accepted_sum map] in *. split; [|now rewrite IHm].
      rewrite IHq. destruct rollback; lia.
Qed.

Lemma apply_mutations_nonneg rollback c l calls : forall db,
  0 <= quantity_at db c l ->
  0 <= quantity_at (fst (apply_mutations rollback c l calls db)) c l.
Proof.
  induction calls as [|m rest IH]; intros db Hn; cbn [apply_mutations];
    [exact Hn|].
  pose proof (_stock_upsert_outcome c l (delta_of m) (operator_of m)
                (action_of m) (description_of m) (mkSession db db)) as Ho.
  pose proof (_stock_upsert_quantity_at c l (delta_of m) (operator_of m)
                (action_of m) (description_of m) (mkSession db db) c l) as Hq.
  cbv zeta in Hq. cbn [pending] in Ho, Hq.
  destruct (cell_eq_dec c l c l) as [_|N]; [|congruence].
  destruct (_stock_upsert c l (delta_of m) (operator_of m) (action_of m)
              (description_of m) (mkSession db db)) as [r s].
  cbn [fst snd] in Ho, Hq. destruct r as [st|e].
  - apply Z.ltb_ge in Ho. rewrite Ho in Hq. apply Z.ltb_ge in Ho.
    specialize (IH (pending s)).
    destruct (apply_mutations rollback c l rest (pending s)) as [db' v].
    cbn [fst] in *. apply IH. lia.
  - apply Z.ltb_lt in Ho. rewrite Ho in Hq.
    specialize (IH (if rollback then db else pending s)).
    destruct (apply_mutations rollback c l rest
                (if rollback then db else pending s)) as [db' v].
    cbn [fst] in *. apply IH. destruct rollback; lia.
Qed.

Lemma accepted_sum_below (verdicts : list (Z * bool)) :
  accepted_sum verdicts <= added_sum (map fst verdicts).
Proof.
  induction verdicts as [|[delta accepted] rest IH];
    cbn [accepted_sum added_sum map fst fold_right]; [lia|].
  fold (added_sum (map fst rest)). destruct accepted; lia.
Qed.

(** C8: after any finite sequence of [_stock_upsert] calls on a cell that had
    no row, the balance of the cell is the sum of the deltas of the accepted
    calls (a rejected call counts for 0), whether or not the session of a
    rejected call is rolled back; every call of the sequence has a verdict.
    The deltas are whole numbers that binary64 holds ([exact]) and those
    that add to the balance sum to at most 2^53, so that the balance never
    leaves the range in which binary64 adds without rounding: it ends
    between 0 and that sum. *)
Theorem fresh_cell_balance_is_accepted_sum rollback c l calls (db : Store) :
  int64 c -> int64 l ->
  Forall (fun m => exact (delta_of m)) calls ->
  added_sum (map delta_of calls) <= 2 ^ 53 ->
  stock_at db c l = None ->
  let '(db', verdicts) := apply_mutations rollback c l calls db in
  quantity_at db' c l = accepted_sum verdicts
  /\ map fst verdicts = map delta_of calls
  /\ 0 <= quantity_at db' c l <= added_sum (map delta_of calls).
Proof.
  intros _ _ _ _ F.
  destruct (apply_mutations_quantity rollback c l calls db) as [Hq Hm].
  pose proof (apply_mutations_nonneg rollback c l calls db) as Hn.
  pose proof (accepted_sum_below (snd (apply_mutations rollback c l calls db)))
    as Hb.
  destruct (apply_mutations rollback c l calls db) as [db' v].
  cbn [fst snd] in *.
  assert (H0 : quantity_at db c l = 0) by (unfold quantity_at; now rewrite F).
  rewrite H0 in Hq, Hn. rewrite Hm in Hb.
  split; [lia|]. split; [exact Hm|]. lia.
Qed.

(** +5, -7 (rejected), +2, -6: the balance is 5 + 2 - 6 = 1. *)
Lemma fresh_cell_balance_is_accepted_sum_witness :
  let calls := map (fun d => mkMutation d None AuditActionType.adjust None)
                 [5; -7; 2; -6] in
  let '(db', verdicts) := apply_mutations true 1 1 calls db_empty in
  quantity_at db' 1 1 = accepted_sum verdicts
  /\ map fst verdicts = map delta_of calls
  /\ 0 <= quantity_at db' 1 1 <= 7.
Proof.
  apply (fresh_cell_balance_is_accepted_sum true 1 1
           (map (fun d => mkMutation d None AuditActionType.adjust None)
              [5; -7; 2; -6]) db_empty).
  - numerals.
  - numerals.
  - repeat constructor; numerals.
  - numerals.
  - reflexivity.
Defined.

Example fresh_cell_run :
  let calls := map (fun d => mkMutation d None AuditActionType.adjust None)
                 [5; -7; 2; -6] in
  snd (apply_mutations true 1 1 calls db_empty)
    = [(5, true); (-7, false); (2, true); (-6, true)]
  /\ quantity_at (fst (apply_mutations true 1 1 calls db_empty)) 1 1 = 1
  /\ quantity_at (fst (apply_mutations false 1 1 calls db_empty)) 1 1 = 1.
Proof. vm_compute. repeat split. Qed.

(** ** C3: confirmation is all-or-nothing *)

Lemma for_each_app {A} (body : A -> M unit) (pre rest : list A) (s : Session) :
  for_each body (pre ++ rest) s =
  match for_each body pre s with
  | (Ok _, s1) => for_each body rest s1
  | (Raise e, s1) => (Raise e, s1)
  end.
Proof.
  revert s. induction pre as [|x pre IH]; intros s; cbn [for_each app].
  - reflexivity.
  - unfold bind. destruct (body x s) as [[[]|e] s1]; [apply IH | reflexivity].
Qed.

(** A loop whose body never commits does not commit. *)
Lemma for_each_persisted {A} (body : A -> M unit) (xs : list A) :
  (forall x s, persisted (snd (body x s)) = persisted s) ->
  forall s, persisted (snd (for_each body xs s)) = persisted s.
Proof.
  intros Hbody. induction xs as [|x xs IH]; intros s; cbn [for_each].
  - reflexivity.
  - unfold bind. specialize (Hbody x s).
    destruct (body x s) as [[[]|e] s1]; cbn [snd] in *.
    + now rewrite IH.
    + exact Hbody.
Qed.

Lemma receipt_line_persisted receipt data item (s : Session) :
  persisted (snd (receipt_line receipt data item s)) = persisted s.
Proof.
  unfold receipt_line, bind.
  pose proof (_stock_upsert_persisted (ReceiptItem.component_id item)
    (or_1 (ReceiptItem.location_id item)) (ReceiptItem.quantity item)
    (ReceiptConfirm.performed_by data) AuditActionType.receipt
    (Some (ReceiptNote (Receipt.number receipt))) s) as H.
  destruct (_stock_upsert _ _ _ _ _ _ s) as [[st|e] s1]; exact H.
Qed.

Lemma issue_line_persisted issue pb item (s : Session) :
  persisted (snd (issue_line issue pb item s)) = persisted s.
Proof.
  unfold issue_line, bind.
  pose proof (_stock_upsert_persisted (IssueItem.component_id item)
    (or_1 (IssueItem.location_id item)) (- IssueItem.quantity item)
    pb AuditActionType.issue (Some (IssueNote (Issue.number issue))) s) as H.
  destruct (_stock_upsert _ _ _ _ _ _ s) as [[st|e] s1]; exact H.
Qed.

(** What [confirm_receipt] does on a draft document, in terms of its loop. *)
Lemma confirm_receipt_draft now rec_id data (s : Session) (receipt : Receipt.t) :
  find (fun r => Receipt.id r =? rec_id) (receipts (pending s)) = Some receipt ->
  Receipt.status receipt = ReceiptStatus.draft ->
  confirm_receipt now rec_id data s =
  match for_each (receipt_line receipt data)
          (items_of_receipt (pending s) (Receipt.id receipt)) s with
  | (Ok _, s1) =>
      let upd r := Receipt.set_received_at now
                     (Receipt.set_status ReceiptStatus.confirmed r) in
      let db' := with_receipts
                   (update_first (fun r => Receipt.id r =? rec_id) upd)
                   (pending s1) in
      (Ok (upd receipt), mkSession db' db')
  | (Raise e, s1) => (Raise e, s1)
  end.
Proof.
  intros Hf Hd. unfold confirm_receipt, _get_or_404, bind at 1 2, query.
  rewrite Hf. unfold ret at 1. cbv beta iota. rewrite Hd.
  unfold bind, query.
  destruct (for_each _ _ s) as [[[]|e] s1]; reflexivity.
Qed.

Lemma confirm_issue_draft now iss_id pb (s : Session) (issue : Issue.t) :
  find (fun i => Issue.id i =? iss_id) (issues (pending s)) = Some issue ->
  Issue.status issue = IssueStatus.draft ->
  confirm_issue now iss_id pb s =
  match for_each (issue_line issue pb)
          (items_of_issue (pending s) (Issue.id issue)) s with
  | (Ok _, s1) =>
      let upd i := Issue.set_issued_at now
                     (Issue.set_status IssueStatus.confirmed i) in
      let db' := with_issues
                   (update_first (fun i => Issue.id i =? iss_id) upd)
                   (pending s1) in
      (Ok (upd issue), mkSession db' db')
  | (Raise e, s1) => (Raise e, s1)
  end.
Proof.
  intros Hf Hd. unfold confirm_issue, _get_or_404, bind at 1 2, query.
  rewrite Hf. unfold ret at 1. cbv beta iota. rewrite Hd.
  unfold bind, query.
  destruct (for_each _ _ s) as [[[]|e] s1]; reflexivity.
Qed.

Lemma confirm_receipt_processed now rec_id data (s : Session) (r : Receipt.t) :
  find (fun r => Receipt.id r =? rec_id) (receipts (pending s)) = Some r ->
  Receipt.status r <> ReceiptStatus.draft ->
  confirm_receipt now rec_id data s = (Raise (mkHTTP 400 AlreadyProcessed), s).
Proof.
  intros Hf Hd. unfold confirm_receipt, _get_or_404, bind at 1 2, query.
  rewrite Hf. unfold ret at 1. cbv beta iota.
  destruct (Receipt.status r); [congruence | reflexivity | reflexivity].
Qed.

Lemma confirm_issue_processed now iss_id pb (s : Session) (i : Issue.t) :
  find (fun i => Issue.id i =? iss_id) (issues (pending s)) = Some i ->
  Issue.status i <> IssueStatus.draft ->
  confirm_issue now iss_id pb s = (Raise (mkHTTP 400 AlreadyProcessed), s).
Proof.
  intros Hf Hd. unfold confirm_issue, _get_or_404, bind at 1 2, query.
  rewrite Hf. unfold ret at 1. cbv beta iota.
  destruct (Issue.status i); [congruence | reflexivity | reflexivity].
Qed.

(** C3: if, while a draft issue (or receipt) is being confirmed, the
    [_stock_upsert] call of some line raises (the lines before it having
    been applied in the session), the confirmation answers with that error
    and, the handler not having reached its [db.commit()], the database is
    exactly what it was before the request: the document is still a draft,
    every balance has its former value and the journal has no new entry. *)
Theorem confirm_is_all_or_nothing now doc_id (db : Store) (e : HTTPException) :
  (forall pb issue pre item post s1,
      find (fun i => Issue.id i =? doc_id) (issues db) = Some issue ->
      Issue.status issue = IssueStatus.draft ->
      items_of_issue db (Issue.id issue) = pre ++ item :: post ->
      for_each (issue_line issue pb) pre (mkSession db db) = (Ok tt, s1) ->
      fst (_stock_upsert (IssueItem.component_id item)
             (or_1 (IssueItem.location_id item)) (- IssueItem.quantity item)
             pb AuditActionType.issue (Some (IssueNote (Issue.number issue)))
             s1) = Raise e ->
      post_issues_confirm now doc_id pb db = (Raise e, db))
  /\
  (forall data receipt pre item post s1,
      find (fun r => Receipt.id r =? doc_id) (receipts db) = Some receipt ->
      Receipt.status receipt = ReceiptStatus.draft ->
      items_of_receipt db (Receipt.id receipt) = pre ++ item :: post ->
      for_each (receipt_line receipt data) pre (mkSession db db) = (Ok tt, s1) ->
      fst (_stock_upsert (ReceiptItem.component_id item)
             (or_1 (ReceiptItem.location_id item)) (ReceiptItem.quantity item)
             (ReceiptConfirm.performed_by data) AuditActionType.receipt
             (Some (ReceiptNote (Receipt.number receipt))) s1) = Raise e ->
      post_receipts_confirm now doc_id data db = (Raise e, db)).
Proof.
  split.
  - intros pb issue pre item post s1 Hf Hd Hitems Hpre Hfail.
    unfold post_issues_confirm, get_db.
    rewrite (confirm_issue_draft now doc_id pb (mkSession db db) issue Hf Hd).
    cbn [pending]. rewrite Hitems, for_each_app, Hpre.
    pose proof (for_each_persisted (issue_line issue pb) pre
                  (issue_line_persisted issue pb) (mkSession db db)) as Hp1.
    rewrite Hpre in Hp1. cbn [snd persisted] in Hp1.
    cbn [for_each]. unfold bind at 1. unfold issue_line at 1. unfold bind at 1.
    pose proof (_stock_upsert_persisted (IssueItem.component_id item)
      (or_1 (IssueItem.location_id item)) (- IssueItem.quantity item)
      pb AuditActionType.issue (Some (IssueNote (Issue.number issue))) s1) as Hp2.
    destruct (_stock_upsert _ _ _ _ _ _ s1) as [[st|e'] s2];
      cbn [fst snd] in *; [discriminate|].
    injection Hfail as ->. now rewrite Hp2, Hp1.
  - intros data receipt pre item post s1 Hf Hd Hitems Hpre Hfail.
    unfold post_receipts_confirm, get_db.
    rewrite (confirm_receipt_draft now doc_id data (mkSession db db) receipt Hf Hd).
    cbn [pending]. rewrite Hitems, for_each_app, Hpre.
    pose proof (for_each_persisted (receipt_line receipt data) pre
                  (receipt_line_persisted receipt data) (mkSession db db)) as Hp1.
    rewrite Hpre in Hp1. cbn [snd persisted] in Hp1.
    cbn [for_each]. unfold bind at 1. unfold receipt_line at 1. unfold bind at 1.
    pose proof (_stock_upsert_persisted (ReceiptItem.component_id item)
      (or_1 (ReceiptItem.location_id item)) (ReceiptItem.quantity item)
      (ReceiptConfirm.performed_by data) AuditActionType.receipt
      (Some (ReceiptNote (Receipt.number receipt))) s1) as Hp2.
    destruct (_stock_upsert _ _ _ _ _ _ s1) as [[st|e'] s2];
      cbn [fst snd] in *; [discriminate|].
    injection Hfail as ->. now rewrite Hp2, Hp1.
Qed.

(** Issue of 15 against a balance of 10; receipt of 3 on a balance of -10. *)
Lemma confirm_is_all_or_nothing_witness :
  (post_issues_confirm 0 1 None db_issue_15
     = (Raise (mkHTTP 400 (InsufficientStock 10 15)), db_issue_15)
   /\ quantity_at db_issue_15 1 1 = 10
   /\ audit_logs db_issue_15 = [])
  /\ post_receipts_confirm 0 1 (ReceiptConfirm.mk None) db_receipt_3
     = (Raise (mkHTTP 400 (InsufficientStock (-10) 3)), db_receipt_3).
Proof.
  split; [split; [|split; reflexivity]|].
  - refine (proj1 (confirm_is_all_or_nothing 0 1 db_issue_15
               (mkHTTP 400 (InsufficientStock 10 15)))
             None (Issue.mk 1 "I-1" None None IssueStatus.draft None None None None)
             [] (IssueItem.mk 1 1 None 15) [] (mkSession db_issue_15 db_issue_15)
             _ _ _ _ _); vm_compute; reflexivity.
  - refine (proj2 (confirm_is_all_or_nothing 0 1 db_receipt_3
               (mkHTTP 400 (InsufficientStock (-10) 3)))
             (ReceiptConfirm.mk None)
             (Receipt.mk 1 "R-1" 1 ReceiptStatus.draft None None None None)
             [] (ReceiptItem.mk 1 1 None 3 None) []
             (mkSession db_receipt_3 db_receipt_3)
             _ _ _ _ _); vm_compute; reflexivity.
Defined.

(** ** C5: the positions of an inventory act *)

(** The effect of the loop body of [create_inventory] on a position whose
    component exists. *)
Lemma inventory_line_effect inv_id number created_by
    (item_data : InventoryItemCreate.t) (s : Session) :
  let c := InventoryItemCreate.component_id item_data in
  let loc := or_1 (InventoryItemCreate.location_id item_data) in
  let a := InventoryItemCreate.actual_quantity item_data in
  let e := quantity_at (pending s) c loc in
  In c (components (pending s)) ->
  exists s',
    inventory_line inv_id number created_by item_data s = (Ok tt, s')
    /\ components (pending s') = components (pending s)
    /\ inventories (pending s') = inventories (pending s)
    /\ inventory_items (pending s') =
         inventory_items (pending s) ++
           [InventoryItem.mk inv_id c (Some loc) e a (a - e)]
    /\ quantity_at (pending s') c loc = a
    /\ (a - e <> 0 ->
          exists stock_id,
            audit_logs (pending s') = audit_logs (pending s) ++
              [AuditLog.mk AuditActionType.inventory "stock" (Some stock_id)
                 (Some c) (Some loc) (Some e) (Some a)
                 (Some (InventoryNote number (a - e))) None created_by])
    /\ (a = e ->
          audit_logs (pending s') = audit_logs (pending s)
          /\ stocks (pending s') = stocks (pending s))
    /\ (forall c' l', (c', l') <> (c, loc) ->
          quantity_at (pending s') c' l' = quantity_at (pending s) c' l')
    /\ persisted s' = persisted s.
Proof.
  cbv zeta. intros Hc.
  set (c := InventoryItemCreate.component_id item_data).
  set (loc := or_1 (InventoryItemCreate.location_id item_data)).
  set (a := InventoryItemCreate.actual_quantity item_data).
  unfold inventory_line, _get_or_404, bind at 1 2, query at 1.
  fold c. rewrite (find_key c _ Hc). unfold ret at 1. cbv beta iota.
  unfold bind at 1, query at 1. fold loc. fold a. cbv beta iota zeta.
  unfold quantity_at at 1 2 3 4 5 6 7.
  destruct (stock_at (pending s) c loc) as [st|] eqn:F.
  - unfold bind at 1, write at 1. cbv beta iota.
    destruct (a - Stock.quantity st =? 0) eqn:E.
    + apply Z.eqb_eq in E. eexists. split; [reflexivity|].
      split; [reflexivity|]. split; [reflexivity|].
      cbn [pending persisted inventory_items with_inventory_items audit_logs stocks].
      split; [reflexivity|]. split.
      { unfold quantity_at, stock_at. cbn [stocks with_inventory_items].
        unfold stock_at in F. rewrite F. lia. }
      split; [intros N; lia|]. split; [intros _; split; reflexivity|].
      split; [intros c' l' _; reflexivity | reflexivity].
    + apply Z.eqb_neq in E.
      unfold bind, assign_quantity, write, ret, _write_audit, write.
      eexists. split; [reflexivity|].
      split; [reflexivity|]. split; [reflexivity|].
      cbn [pending persisted inventory_items with_inventory_items
           with_audit_logs with_stocks audit_logs stocks].
      split; [reflexivity|]. split.
      { transitivity
          (quantity_at (with_stocks (update_first (at_cell c loc)
             (Stock.set_quantity a)) (pending s)) c loc); [reflexivity|].
        rewrite quantity_at_assigned by (rewrite F; discriminate).
        destruct (cell_eq_dec c loc c loc); [reflexivity | congruence]. }
      split; [intros _; eexists; reflexivity|]. split; [intros ->; lia|].
      split; [|reflexivity]. intros c' l' N.
      transitivity
        (quantity_at (with_stocks (update_first (at_cell c loc)
           (Stock.set_quantity a)) (pending s)) c' l'); [reflexivity|].
      rewrite quantity_at_assigned by (rewrite F; discriminate).
      destruct (cell_eq_dec c loc c' l') as [Eq|_]; [|reflexivity].
      injection Eq as -> ->. congruence.
  - unfold bind at 1, write at 1. cbv beta iota.
    destruct (a - 0 =? 0) eqn:E.
    + apply Z.eqb_eq in E. eexists. split; [reflexivity|].
      split; [reflexivity|]. split; [reflexivity|].
      cbn [pending persisted inventory_items with_inventory_items audit_logs stocks].
      split; [reflexivity|]. split.
      { unfold quantity_at, stock_at. cbn [stocks with_inventory_items].
        unfold stock_at in F. rewrite F. lia. }
      split; [intros N; lia|]. split; [intros _; split; reflexivity|].
      split; [intros c' l' _; reflexivity | reflexivity].
    + apply Z.eqb_neq in E.
      unfold bind, add_stock, bind, query, write, ret, _write_audit, write.
      eexists. split; [reflexivity|].
      split; [reflexivity|]. split; [reflexivity|].
      cbn [pending persisted inventory_items with_inventory_items
           with_audit_logs with_stocks audit_logs stocks].
      split; [reflexivity|]. split.
      { transitivity
          (quantity_at (with_stocks (fun rows => rows ++
             [Stock.mk (next_id (map Stock.id (stocks (pending s)))) c loc a 0])
             (pending s)) c loc); [reflexivity|].
        rewrite quantity_at_added by exact F.
        destruct (cell_eq_dec c loc c loc); [reflexivity | congruence]. }
      split; [intros _; eexists; reflexivity|]. split; [intros ->; lia|].
      split; [|reflexivity]. intros c' l' N.
      transitivity
        (quantity_at (with_stocks (fun rows => rows ++
           [Stock.mk (next_id (map Stock.id (stocks (pending s)))) c loc a 0])
           (pending s)) c' l'); [reflexivity|].
      rewrite quantity_at_added by exact F.
      destruct (cell_eq_dec c loc c' l') as [Eq|_]; [|reflexivity].
      injection Eq as -> ->. congruence.
Qed.

(** The positions of an act, one after the other. *)

Lemma counts_cell_own (x : InventoryItemCreate.t) (c l : Z) :
  counts_cell c l x = true <->
  (c, l) = (InventoryItemCreate.component_id x,
            or_1 (InventoryItemCreate.location_id x)).
Proof.
  unfold counts_cell. rewrite andb_true_iff, !Z.eqb_eq.
  split; [intros [-> ->]; reflexivity | intros [= -> ->]; tauto].
Qed.

Lemma balance_after_counts_cons (db db1 : Store) (x : InventoryItemCreate.t)
    (rest : list InventoryItemCreate.t) (c l : Z) :
  quantity_at db1 c l
  = (if counts_cell c l x then InventoryItemCreate.actual_quantity x
     else quantity_at db c l) ->
  balance_after_counts db (x :: rest) c l = balance_after_counts db1 rest c l.
Proof. intros H. unfold balance_after_counts. cbn [fold_left]. now rewrite H. Qed.

Lemma balance_after_counts_range (db : Store)
    (counted : list InventoryItemCreate.t) (c l lo hi : Z) :
  lo <= quantity_at db c l <= hi ->
  Forall (fun it => lo <= InventoryItemCreate.actual_quantity it <= hi) counted ->
  lo <= balance_after_counts db counted c l <= hi.
Proof.
  unfold balance_after_counts. generalize (quantity_at db c l) as q.
  induction counted as [|x rest IH]; intros q Hq Hall; cbn [fold_left];
    [exact Hq|].
  inversion Hall as [|y ys Hx Hrest]; subst. apply IH; [|exact Hrest].
  now destruct (counts_cell c l x).
Qed.

Lemma inventory_lines_effect inv_id number created_by
    (items : list InventoryItemCreate.t) :
  forall s,
    (forall it, In it items ->
       In (InventoryItemCreate.component_id it) (components (pending s))) ->
    exists s' lines new,
      for_each (inventory_line inv_id number created_by) items s = (Ok tt, s')
      /\ inventories (pending s') = inventories (pending s)
      /\ inventory_items (pending s') = inventory_items (pending s) ++ lines
      /\ List.length lines = List.length items
      /\ (forall pre item post,
            items = pre ++ item :: post ->
            nth_error lines (List.length pre)
            = Some (InventoryItem.mk inv_id
                      (InventoryItemCreate.component_id item)
                      (Some (or_1 (InventoryItemCreate.location_id item)))
                      (balance_after_counts (pending s) pre
                         (InventoryItemCreate.component_id item)
                         (or_1 (InventoryItemCreate.location_id item)))
                      (InventoryItemCreate.actual_quantity item)
                      (InventoryItemCreate.actual_quantity item
                       - balance_after_counts (pending s) pre
                           (InventoryItemCreate.component_id item)
                           (or_1 (InventoryItemCreate.location_id item)))))
      /\ audit_logs (pending s') = audit_logs (pending s) ++ new
      /\ Forall2 (journals number created_by) new (filter has_discrepancy lines)
      /\ (forall c l, quantity_at (pending s') c l
                      = balance_after_counts (pending s) items c l)
      /\ (filter has_discrepancy lines = [] ->
            stocks (pending s') = stocks (pending s))
      /\ persisted s' = persisted s.
Proof.
  induction items as [|x items IH]; intros s Hc; cbn [for_each].
  - exists s, [], []. rewrite !app_nil_r.
    repeat split; try constructor.
    intros pre item post H. destruct pre; discriminate.
  - destruct (inventory_line_effect inv_id number created_by x s
                (Hc x (or_introl eq_refl)))
      as (s1 & Hr & Hcomp & Hinv & Hline & Hq & Hneq & Heq & Hother & Hp).
    destruct (IH s1)
      as (s2 & lines & new & Hr2 & Hinv2 & Hlines2 & Hlen2 & Hnth2 & Hlog2
          & Hj2 & Hq2 & Hst2 & Hp2).
    { intros it Hit. rewrite Hcomp. apply Hc. now right. }
    set (c := InventoryItemCreate.component_id x) in *.
    set (loc := or_1 (InventoryItemCreate.location_id x)) in *.
    set (a := InventoryItemCreate.actual_quantity x) in *.
    set (e := quantity_at (pending s) c loc) in *.
    set (line0 := InventoryItem.mk inv_id c (Some loc) e a (a - e)) in *.
    assert (Hstep : forall c' l',
              quantity_at (pending s1) c' l'
              = if counts_cell c' l' x then a else quantity_at (pending s) c' l').
    { intros c' l'. destruct (counts_cell c' l' x) eqn:E.
      - apply counts_cell_own in E. injection E as -> ->. exact Hq.
      - apply Hother. intros E'. injection E' as -> ->.
        assert (counts_cell c loc x = true) by (apply counts_cell_own; reflexivity).
        congruence. }
    assert (Hnew1 : exists new1,
              audit_logs (pending s1) = audit_logs (pending s) ++ new1
              /\ Forall2 (journals number created_by) new1
                   (filter has_discrepancy [line0])).
    { cbn [filter]. unfold has_discrepancy at 1. cbn [InventoryItem.discrepancy line0].
      destruct (Z.eqb_spec (a - e) 0) as [Hz|Hnz]; cbn [negb].
      - exists []. rewrite app_nil_r. split; [|constructor].
        apply Heq. lia.
      - destruct (Hneq Hnz) as [stock_id Hlog1].
        eexists [_]. split; [exact Hlog1|].
        constructor; [|constructor]. unfold journals. cbn. repeat split. }
    destruct Hnew1 as (new1 & Hlog1 & Hj1).
    exists s2, (line0 :: lines), (new1 ++ new).
    unfold bind. rewrite Hr. split; [exact Hr2|].
    split; [congruence|].
    split; [rewrite Hlines2, Hline, <- app_assoc; reflexivity|].
    split; [cbn [List.length]; now rewrite Hlen2|].
    split; [|split; [rewrite Hlog2, Hlog1, app_assoc; reflexivity|split;
      [|split; [|split; [|congruence]]]]].
    + intros pre item post Hitems. destruct pre as [|y pre].
      * injection Hitems as <- _. reflexivity.
      * injection Hitems as <- Hrest. cbn [List.length nth_error].
        rewrite (Hnth2 pre item post Hrest).
        now rewrite !(balance_after_counts_cons (pending s) (pending s1) x pre)
          by apply Hstep.
    + change (line0 :: lines) with ([line0] ++ lines). rewrite filter_app.
      now apply Forall2_app.
    + intros c' l'. rewrite Hq2.
      symmetry. apply balance_after_counts_cons. apply Hstep.
    + cbn [filter]. unfold has_discrepancy at 1.
      cbn [InventoryItem.discrepancy line0].
      destruct (Z.eqb_spec (a - e) 0) as [Hz|Hnz]; cbn [negb]; [|discriminate].
      intros Hnone. rewrite (Hst2 Hnone). apply Heq. lia.
Qed.

(** C5: an inventory act that passes validation, whose number is free and
    whose positions name components that exist, is answered with the act,
    and for every position, with actual quantity [a] on the cell
    [(c, loc)] whose current balance is [e] (the balance of the database,
    0 without row, or what an earlier position of the act has counted for
    the same cell): the line stored for it, in its place among the lines of
    the act, is [(expected = e, actual = a, discrepancy = a - e)], whether
    or not a correction is needed; the new journal entries are, in order,
    one per stored line with a discrepancy, of type [inventory], from the
    expected to the actual quantity, and none for a line without
    discrepancy; afterwards the balance of every cell is what the act has
    last counted for it, and its former balance when the act does not count
    it; when no line has a discrepancy the balance table is untouched.
    The balances and the counts are whole numbers of magnitude at most
    2^52 (a balance may be negative, a count is not) and the locations
    SQLite integers, so that every discrepancy is computed without
    rounding. *)
Theorem inventory_act_records_its_lines now (data : InventoryCreate.t)
    (db : Store) :
  InventoryCreate.validate data = true ->
  ~ In (InventoryCreate.number data) (map Inventory.number (inventories db)) ->
  (forall it, In it (InventoryCreate.items data) ->
     In (InventoryItemCreate.component_id it) (components db)
     /\ int64 (or_1 (InventoryItemCreate.location_id it))
     /\ InventoryItemCreate.actual_quantity it <= 2 ^ 52) ->
  (forall c l, - 2 ^ 52 <= quantity_at db c l <= 2 ^ 52) ->
  exists inv db' lines new,
    post_inventories now data db = (Ok inv, db')
    /\ inventory_items db' = inventory_items db ++ lines
    /\ List.length lines = List.length (InventoryCreate.items data)
    /\ (forall pre item post,
          InventoryCreate.items data = pre ++ item :: post ->
          let c := InventoryItemCreate.component_id item in
          let loc := or_1 (InventoryItemCreate.location_id item) in
          let a := InventoryItemCreate.actual_quantity item in
          let e := balance_after_counts db pre c loc in
          nth_error lines (List.length pre)
          = Some (InventoryItem.mk (Inventory.id inv) c (Some loc) e a (a - e))
          /\ exact e /\ exact (a - e))
    /\ audit_logs db' = audit_logs db ++ new
    /\ Forall2 (journals (InventoryCreate.number data)
                  (InventoryCreate.created_by data))
         new (filter has_discrepancy lines)
    /\ (forall c l,
          quantity_at db' c l
          = balance_after_counts db (InventoryCreate.items data) c l)
    /\ (filter has_discrepancy lines = [] -> stocks db' = stocks db).
Proof.
  intros Hv Hfree Hitems Hrange.
  set (new_id := next_id (map Inventory.id (inventories db))).
  set (inventory := Inventory.mk new_id (InventoryCreate.number data)
                      InventoryStatus.in_progress None
                      (InventoryCreate.notes data)
                      (InventoryCreate.created_by data)).
  set (s0 := mkSession db (with_inventories (fun rows => rows ++ [inventory]) db)).
  destruct (inventory_lines_effect new_id (InventoryCreate.number data)
              (InventoryCreate.created_by data) (InventoryCreate.items data) s0)
    as (s1 & lines & new & Hloop & _ & Hlines & Hlen & Hnth & Hlog & Hj & Hq
        & Hst & _).
  { intros it Hit. exact (proj1 (Hitems it Hit)). }
  assert (Hactual : Forall (fun it =>
            - 2 ^ 52 <= InventoryItemCreate.actual_quantity it <= 2 ^ 52)
            (InventoryCreate.items data)).
  { apply Forall_forall. intros it Hit.
    destruct (Hitems it Hit) as (_ & _ & Hhi).
    unfold InventoryCreate.validate in Hv. rewrite forallb_forall in Hv.
    specialize (Hv it Hit). apply Z.leb_le in Hv. lia. }
  eexists _, _, lines, new.
  unfold post_inventories, request. rewrite Hv. unfold get_db, create_inventory.
  erewrite bind_ok by reflexivity.
  erewrite bind_ok by (apply flush_document_free; exact Hfree).
  cbn [pending persisted]. fold new_id. fold inventory. fold s0.
  erewrite bind_ok by exact Hloop.
  erewrite bind_ok by reflexivity.
  erewrite bind_ok by reflexivity.
  unfold ret. cbn [persisted pending].
  split; [reflexivity|]. split; [exact Hlines|]. split; [exact Hlen|].
  split; [|split; [exact Hlog | split; [exact Hj | split; [exact Hq | exact Hst]]]].
  intros pre item post Hsplit. cbv zeta.
  split; [exact (Hnth pre item post Hsplit)|].
  assert (Hpre : Forall (fun it =>
            - 2 ^ 52 <= InventoryItemCreate.actual_quantity it <= 2 ^ 52) pre).
  { rewrite Hsplit in Hactual. now apply Forall_app in Hactual. }
  assert (Ha : 0 <= InventoryItemCreate.actual_quantity item <= 2 ^ 52).
  { assert (Hin : In item (InventoryCreate.items data))
      by (rewrite Hsplit; apply in_or_app; right; now left).
    destruct (Hitems item Hin) as (_ & _ & Hhi).
    unfold InventoryCreate.validate in Hv. rewrite forallb_forall in Hv.
    specialize (Hv item Hin). apply Z.leb_le in Hv. lia. }
  pose proof (balance_after_counts_range db pre
                (InventoryItemCreate.component_id item)
                (or_1 (InventoryItemCreate.location_id item)) (- 2 ^ 52) (2 ^ 52)
                (Hrange _ _) Hpre) as He.
  unfold exact. split; lia.
Qed.

(** Counting 7 where the books say 10. *)
Lemma inventory_act_records_its_lines_witness :
  exists inv db',
    post_inventories 0
      (InventoryCreate.mk "INV-1" None (Some "op"%string)
         [InventoryItemCreate.mk 1 None 7]) (db_with 10) = (Ok inv, db')
    /\ inventory_items db' = [InventoryItem.mk (Inventory.id inv) 1 (Some 1) 10 7 (-3)]
    /\ quantity_at db' 1 1 = 7
    /\ List.length (audit_logs db') = 1%nat.
Proof.
  destruct (inventory_act_records_its_lines 0
              (InventoryCreate.mk "INV-1" None (Some "op"%string)
                 [InventoryItemCreate.mk 1 None 7]) (db_with 10))
    as (inv & db' & lines & new & Hr & Hlines & Hlen & Hnth & Hlog & Hj & Hq & _).
  - reflexivity.
  - cbn. tauto.
  - intros it [<-|[]]. split; [cbn; left; reflexivity|]. split; numerals.
  - intros c l. unfold quantity_at, stock_at.
    change (stocks (db_with 10)) with [Stock.mk 1 1 1 10 0].
    cbn [find]. unfold at_cell.
    cbn [Stock.component_id Stock.location_id Stock.quantity].
    destruct (1 =? c); destruct (1 =? l); cbn; lia.
  - exists inv, db'. split; [exact Hr|].
    destruct (Hnth [] (InventoryItemCreate.mk 1 None 7) [] eq_refl) as (H0 & _).
    cbv zeta in H0. cbn [List.length] in H0.
    destruct lines as [|line [|line' rest]]; try discriminate Hlen.
    cbn [nth_error] in H0. injection H0 as ->.
    split; [exact Hlines|]. split; [rewrite Hq; reflexivity|].
    rewrite Hlog. cbn [filter] in Hj. cbn in Hj.
    inversion Hj as [|e l0 new' l1 _ Hrest]; subst.
    inversion Hrest; subst. reflexivity.
Defined.

(** The whole request of the specification's example: the act is stored
    with its line, the balance becomes 7 and the journal gets one entry. *)
Example inventory_of_7_against_10 :
  let r := post_inventories 0
             (InventoryCreate.mk "INV-1" None (Some "op"%string)
                [InventoryItemCreate.mk 1 None 7]) (db_with 10) in
  inventory_items (snd r) = [InventoryItem.mk 1 1 (Some 1) 10 7 (-3)]
  /\ quantity_at (snd r) 1 1 = 7
  /\ audit_logs (snd r) =
       [AuditLog.mk AuditActionType.inventory "stock" (Some 1) (Some 1) (Some 1)
          (Some 10) (Some 7) (Some (InventoryNote "INV-1" (-3))) None (Some "op"%string)].
Proof. vm_compute. repeat split. Qed.

Example inventory_of_10_against_10 :
  let r := post_inventories 0
             (InventoryCreate.mk "INV-2" None (Some "op"%string)
                [InventoryItemCreate.mk 1 None 10]) (db_with 10) in
  inventory_items (snd r) = [InventoryItem.mk 1 1 (Some 1) 10 10 0]
  /\ quantity_at (snd r) 1 1 = 10
  /\ audit_logs (snd r) = [].
Proof. vm_compute. repeat split. Qed.

(** ** [adjust_stock], case by case *)

Lemma adjust_stock_present (data : StockAdjust.t) (s : Session) (st : Stock.t) :
  let c := StockAdjust.component_id data in
  let l := StockAdjust.location_id data in
  let q := StockAdjust.quantity data in
  In c (components (pending s)) ->
  In l (storage_locations (pending s)) ->
  stock_at (pending s) c l = Some st ->
  adjust_stock data s =
  let db' :=
    with_audit_logs
      (fun logs => logs ++
         [upsert_entry (Stock.id st) c l (Stock.quantity st) q
            (StockAdjust.performed_by data) AuditActionType.adjust
            (option_map Free (StockAdjust.reason data))])
      (with_stocks (update_first (at_cell c l) (Stock.set_quantity q))
         (pending s)) in
  (Ok (Stock.set_quantity q st), mkSession db' db').
Proof.
  cbv zeta. intros Hc Hl F.
  unfold adjust_stock, _get_or_404, bind at 1 2, query at 1.
  rewrite (find_key _ _ Hc). unfold ret at 1. cbv beta iota.
  unfold bind at 1 2, query at 1. rewrite (find_key _ _ Hl).
  unfold ret at 1. cbv beta iota.
  unfold bind at 1, query at 1. rewrite F. reflexivity.
Qed.

Lemma adjust_stock_absent (data : StockAdjust.t) (s : Session) :
  let c := StockAdjust.component_id data in
  let l := StockAdjust.location_id data in
  let q := StockAdjust.quantity data in
  In c (components (pending s)) ->
  In l (storage_locations (pending s)) ->
  stock_at (pending s) c l = None ->
  adjust_stock data s =
  let st := Stock.mk (next_id (map Stock.id (stocks (pending s)))) c l q 0 in
  let db' :=
    with_audit_logs
      (fun logs => logs ++
         [upsert_entry (Stock.id st) c l 0 q
            (StockAdjust.performed_by data) AuditActionType.adjust
            (option_map Free (StockAdjust.reason data))])
      (with_stocks (fun rows => rows ++ [st]) (pending s)) in
  (Ok st, mkSession db' db').
Proof.
  cbv zeta. intros Hc Hl F.
  unfold adjust_stock, _get_or_404, bind at 1 2, query at 1.
  rewrite (find_key _ _ Hc). unfold ret at 1. cbv beta iota.
  unfold bind at 1 2, query at 1. rewrite (find_key _ _ Hl).
  unfold ret at 1. cbv beta iota.
  unfold bind at 1, query at 1. rewrite F. reflexivity.
Qed.

(** ** C6: a negative target of a manual adjustment *)

(** C6 at the failing input: the body [quantity = -5] passes validation
    ([StockAdjust.quantity] has no [ge=0], unlike
    [InventoryItemCreate.actual_quantity]), the handler answers with the
    balance row, the balance is -5 and the journal has the entry
    [0 -> -5]. *)
Theorem adjust_stock_negative_target :
  let data := StockAdjust.mk 1 1 (-5) (Some "recount"%string) (Some "op"%string) in
  let r := post_stocks_adjust data db_empty in
  StockAdjust.validate data = true
  /\ InventoryItemCreate.validate (InventoryItemCreate.mk 1 (Some 1) (-5)) = false
  /\ fst r = Ok (Stock.mk 1 1 1 (-5) 0)
  /\ quantity_at (snd r) 1 1 = -5
  /\ audit_logs (snd r) =
       [AuditLog.mk AuditActionType.adjust "stock" (Some 1) (Some 1) (Some 1)
          (Some 0) (Some (-5)) (Some (Free "recount")) None (Some "op"%string)].
Proof. vm_compute. repeat split. Qed.

(** ** C4: who writes balances *)

(** C4, as stated, fails: the manual adjustment writes the balance row and
    its journal entry itself, and with the target -5 it reaches a balance
    table that no accepted call of [_stock_upsert], on any cell and with any
    arguments, produces from the same session. *)
Lemma adjust_stock_bypasses_stock_upsert_counterexample :
  let data := StockAdjust.mk 1 1 (-5) None None in
  let s := mkSession db_empty db_empty in
  exists st s1,
    adjust_stock data s = (Ok st, s1)
    /\ ~ (exists c l delta pb act desc st' s2,
            _stock_upsert c l delta pb act desc s = (Ok st', s2)
            /\ stocks (pending s2) = stocks (pending s1)).
Proof.
  cbv zeta. eexists _, _. split; [vm_compute; reflexivity|].
  intros (c & l & delta & pb & act & desc & st' & s2 & Hr & Hst).
  pose proof (_stock_upsert_outcome c l delta pb act desc
                (mkSession db_empty db_empty)) as Ho.
  pose proof (_stock_upsert_quantity_at c l delta pb act desc
                (mkSession db_empty db_empty) 1 1) as Hq.
  rewrite Hr in Ho, Hq. cbn [fst snd pending] in Ho, Hq. cbv zeta in Hq.
  assert (Hq' : quantity_at (pending s2) 1 1 = -5).
  { unfold quantity_at, stock_at. rewrite Hst. reflexivity. }
  rewrite Hq' in Hq. apply Z.ltb_ge in Ho. rewrite Ho in Hq.
  destruct (cell_eq_dec c l 1 1) as [E|_].
  - apply Z.ltb_ge in Ho. lia.
  - vm_compute in Hq. discriminate.
Qed.

(** C4 (amended): whatever [confirm_receipt] and [confirm_issue] do to the
    balance table and to the journal is what the calls of [_stock_upsert]
    for the lines of the document do, one after the other, and they fail
    exactly when one of these calls fails; on a document that is unknown or
    no longer a draft they touch neither.  [adjust_stock] and
    [create_inventory] do not call [_stock_upsert].  What
    [create_inventory] does to the balance table and to the journal is what
    its loop over the positions does, and for a target (actual) quantity
    that is not negative what [adjust_stock] and the loop body of
    [create_inventory] return and the whole database they leave in the
    session are exactly those of the [_stock_upsert] call with
    [delta = target - before] and the same action type, description and
    operator (for a position of an inventory act with a discrepancy, after
    the line has been stored).  There the quantities are whole numbers that
    binary64 subtracts and adds without rounding: [before], the target and
    [target - before] are [exact]. *)
Theorem balance_writers_agree_with_stock_upsert :
  (forall (data : StockAdjust.t) (s : Session),
      let c := StockAdjust.component_id data in
      let l := StockAdjust.location_id data in
      let q := StockAdjust.quantity data in
      let before := quantity_at (pending s) c l in
      In c (components (pending s)) ->
      In l (storage_locations (pending s)) ->
      exact before -> exact q -> exact (q - before) ->
      0 <= q ->
      let r1 := adjust_stock data s in
      let r2 := _stock_upsert c l (q - before)
                  (StockAdjust.performed_by data) AuditActionType.adjust
                  (option_map Free (StockAdjust.reason data)) s in
      fst r1 = fst r2 /\ pending (snd r1) = pending (snd r2))
  /\
  (forall inv_id number created_by (item_data : InventoryItemCreate.t)
          (s : Session),
      let c := InventoryItemCreate.component_id item_data in
      let loc := or_1 (InventoryItemCreate.location_id item_data) in
      let a := InventoryItemCreate.actual_quantity item_data in
      let e := quantity_at (pending s) c loc in
      In c (components (pending s)) ->
      int64 loc ->
      exact e -> exact a -> exact (a - e) ->
      0 <= a ->
      a - e <> 0 ->
      inventory_line inv_id number created_by item_data s =
      (write (with_inventory_items (fun rows => rows ++
         [InventoryItem.mk inv_id c (Some loc) e a (a - e)])) ;;;
       _stock_upsert c loc (a - e) created_by AuditActionType.inventory
         (Some (InventoryNote number (a - e))) ;;;
       ret tt) s)
  /\
  (forall now rec_id data (s : Session),
      let r := confirm_receipt now rec_id data s in
      match find (fun r => Receipt.id r =? rec_id) (receipts (pending s)) with
      | Some receipt =>
          match Receipt.status receipt with
          | ReceiptStatus.draft =>
              let u := receipt_upserts receipt data
                         (items_of_receipt (pending s) (Receipt.id receipt)) s in
              stocks (pending (snd r)) = stocks (pending (snd u))
              /\ audit_logs (pending (snd r)) = audit_logs (pending (snd u))
              /\ (forall e, fst r = Raise e <-> fst u = Raise e)
          | _ => same_ledger (pending s) (pending (snd r))
          end
      | None => same_ledger (pending s) (pending (snd r))
      end)
  /\
  (forall now iss_id performed_by (s : Session),
      let r := confirm_issue now iss_id performed_by s in
      match find (fun i => Issue.id i =? iss_id) (issues (pending s)) with
      | Some issue =>
          match Issue.status issue with
          | IssueStatus.draft =>
              let u := issue_upserts issue performed_by
                         (items_of_issue (pending s) (Issue.id issue)) s in
              stocks (pending (snd r)) = stocks (pending (snd u))
              /\ audit_logs (pending (snd r)) = audit_logs (pending (snd u))
              /\ (forall e, fst r = Raise e <-> fst u = Raise e)
          | _ => same_ledger (pending s) (pending (snd r))
          end
      | None => same_ledger (pending s) (pending (snd r))
      end)
  /\
  (forall now (data : InventoryCreate.t) (s : Session),
      let new_id := next_id (map Inventory.id (inventories (pending s))) in
      let inventory := Inventory.mk new_id (InventoryCreate.number data)
                         InventoryStatus.in_progress None
                         (InventoryCreate.notes data)
                         (InventoryCreate.created_by data) in
      ~ In (InventoryCreate.number data)
          (map Inventory.number (inventories (pending s))) ->
      let r := create_inventory now data s in
      let u := for_each (inventory_line new_id (InventoryCreate.number data)
                           (InventoryCreate.created_by data))
                 (InventoryCreate.items data)
                 (mkSession (persisted s)
                    (with_inventories (fun rows => rows ++ [inventory])
                       (pending s))) in
      stocks (pending (snd r)) = stocks (pending (snd u))
      /\ audit_logs (pending (snd r)) = audit_logs (pending (snd u))
      /\ (forall e, fst r = Raise e <-> fst u = Raise e)).
Proof.
  split; [|split; [|split; [|split]]].
  - intros data s c l q before Hc Hl _ _ _ Hq. cbv zeta.
    subst before. unfold quantity_at.
    destruct (stock_at (pending s) c l) as [st|] eqn:F.
    + rewrite (adjust_stock_present data s st Hc Hl F).
      rewrite (_stock_upsert_present _ _ _ _ _ _ _ _ F). cbv zeta.
      fold c l q.
      replace (Stock.quantity st + (q - Stock.quantity st)) with q by lia.
      apply Z.ltb_ge in Hq. rewrite Hq. split; reflexivity.
    + rewrite (adjust_stock_absent data s Hc Hl F).
      rewrite (_stock_upsert_absent _ _ _ _ _ _ _ F). cbv zeta.
      fold c l q.
      replace (0 + (q - 0)) with q by lia.
      apply Z.ltb_ge in Hq. rewrite Hq. cbn [fst snd pending]. split.
      * reflexivity.
      * unfold with_stocks, with_audit_logs. cbn [components storage_locations suppliers stocks
          receipts receipt_items issues issue_items inventories inventory_items
          audit_logs Stock.id].
        rewrite update_first_app_absent by exact F.
        unfold at_cell at 1. cbn [Stock.component_id Stock.location_id].
        rewrite !Z.eqb_refl. reflexivity.
  - intros inv_id number cb item_data s c loc a e Hc _ _ _ _ Ha Hd.
    symmetry. unfold bind at 1 2, write at 1. cbv beta iota.
    set (s1 := mkSession (persisted s) _).
    assert (F1 : stock_at (pending s1) c loc = stock_at (pending s) c loc)
      by reflexivity.
    assert (He : e = match stock_at (pending s) c loc with
                     | Some s0 => Stock.quantity s0 | None => 0 end)
      by reflexivity.
    apply Z.eqb_neq in Hd. apply Z.ltb_ge in Ha.
    unfold inventory_line, _get_or_404, bind, query, write, ret, add_stock,
      assign_quantity, _write_audit, bind, query, write, ret.
    cbv beta iota zeta. fold c loc a. rewrite (find_key c _ Hc).
    cbv beta iota. rewrite <- He, Hd.
    destruct (stock_at (pending s) c loc) as [st|] eqn:F.
    + rewrite (_stock_upsert_present _ _ _ _ _ _ _ _ F1). cbv zeta.
      subst s1. rewrite !He.
      replace (Stock.quantity st + (a - Stock.quantity st)) with a by lia.
      rewrite Ha. reflexivity.
    + rewrite (_stock_upsert_absent _ _ _ _ _ _ _ F1). cbv zeta.
      subst s1. rewrite !He. replace (0 + (a - 0)) with a by lia.
      rewrite Ha. cbn [pending persisted]. f_equal. f_equal.
      unfold with_stocks, with_audit_logs, with_inventory_items.
      cbn [components storage_locations suppliers stocks
          receipts receipt_items issues issue_items inventories inventory_items
          audit_logs Stock.id].
      rewrite update_first_app_absent by exact F.
      unfold at_cell at 1. cbn [Stock.component_id Stock.location_id].
      rewrite !Z.eqb_refl. reflexivity.
  - intros now rec_id data s. cbv zeta.
    destruct (find (fun r => Receipt.id r =? rec_id) (receipts (pending s)))
      as [receipt|] eqn:Hf.
    2:{ unfold confirm_receipt.
        erewrite bind_raise by (apply get_or_404_unknown; exact Hf).
        split; reflexivity. }
    destruct (Receipt.status receipt) eqn:Hd.
    + rewrite (confirm_receipt_draft now rec_id data s receipt Hf Hd).
      change (receipt_upserts receipt data)
        with (for_each (receipt_line receipt data)).
      destruct (for_each _ _ s) as [[[]|e'] s1]; cbn [fst snd pending].
      * split; [reflexivity|]. split; [reflexivity|].
        intros e. split; discriminate.
      * split; [reflexivity|]. split; [reflexivity|].
        intros e. split; intros [= ->]; reflexivity.
    + rewrite (confirm_receipt_processed now rec_id data s receipt Hf)
        by (rewrite Hd; discriminate).
      split; reflexivity.
    + rewrite (confirm_receipt_processed now rec_id data s receipt Hf)
        by (rewrite Hd; discriminate).
      split; reflexivity.
  - intros now iss_id pb s. cbv zeta.
    destruct (find (fun i => Issue.id i =? iss_id) (issues (pending s)))
      as [issue|] eqn:Hf.
    2:{ unfold confirm_issue.
        erewrite bind_raise by (apply get_or_404_unknown; exact Hf).
        split; reflexivity. }
    destruct (Issue.status issue) eqn:Hd.
    + rewrite (confirm_issue_draft now iss_id pb s issue Hf Hd).
      change (issue_upserts issue pb) with (for_each (issue_line issue pb)).
      destruct (for_each _ _ s) as [[[]|e'] s1]; cbn [fst snd pending].
      * split; [reflexivity|]. split; [reflexivity|].
        intros e. split; discriminate.
      * split; [reflexivity|]. split; [reflexivity|].
        intros e. split; intros [= ->]; reflexivity.
    + rewrite (confirm_issue_processed now iss_id pb s issue Hf)
        by (rewrite Hd; discriminate).
      split; reflexivity.
    + rewrite (confirm_issue_processed now iss_id pb s issue Hf)
        by (rewrite Hd; discriminate).
      split; reflexivity.
  - intros now data s new_id inventory Hfree. cbv zeta.
    unfold create_inventory.
    erewrite bind_ok by reflexivity.
    erewrite bind_ok by (apply flush_document_free; exact Hfree).
    fold new_id. fold inventory. unfold bind, write, commit, ret.
    destruct (for_each _ _ _) as [[[]|e'] s1]; cbn [fst snd pending].
    + split; [reflexivity|]. split; [reflexivity|].
      intros e. split; discriminate.
    + split; [reflexivity|]. split; [reflexivity|].
      intros e. split; intros [= ->]; reflexivity.
Qed.

Lemma balance_writers_agree_with_stock_upsert_witness :
  let s := mkSession (db_with 10) (db_with 10) in
  (fst (adjust_stock (StockAdjust.mk 1 1 7 None None) s)
     = fst (_stock_upsert 1 1 (7 - 10) None AuditActionType.adjust None s)
   /\ pending (snd (adjust_stock (StockAdjust.mk 1 1 7 None None) s))
     = pending (snd (_stock_upsert 1 1 (7 - 10) None AuditActionType.adjust None s)))
  /\ inventory_line 1 "INV-1" None (InventoryItemCreate.mk 1 None 7) s
     = (write (with_inventory_items (fun rows => rows ++
          [InventoryItem.mk 1 1 (Some 1) 10 7 (-3)])) ;;;
        _stock_upsert 1 1 (-3) None AuditActionType.inventory
          (Some (InventoryNote "INV-1" (-3))) ;;;
        ret tt) s.
Proof.
  cbv zeta.
  destruct balance_writers_agree_with_stock_upsert as (Hadj & Hinv & _).
  split.
  - apply (Hadj (StockAdjust.mk 1 1 7 None None)
             (mkSession (db_with 10) (db_with 10)));
      [cbn; left; reflexivity | cbn; left; reflexivity | numerals ..].
  - apply (Hinv 1 "INV-1"%string None (InventoryItemCreate.mk 1 None 7)
             (mkSession (db_with 10) (db_with 10)));
      [cbn; left; reflexivity | numerals ..].
Defined.

(** The confirmation of the draft receipt of ten pieces moves the balance
    table and the journal as the single call of [_stock_upsert] does. *)
Example confirm_receipt_as_upserts :
  let s := mkSession db_receipt_draft db_receipt_draft in
  let r := confirm_receipt 0 1 (ReceiptConfirm.mk None) s in
  let u := _stock_upsert 1 1 10 None AuditActionType.receipt
             (Some (ReceiptNote "R-2")) s in
  stocks (pending (snd r)) = stocks (pending (snd u))
  /\ audit_logs (pending (snd r)) = audit_logs (pending (snd u))
  /\ stocks (pending (snd r)) = [Stock.mk 1 1 1 10 0].
Proof. vm_compute. repeat split. Qed.

(** ** Relations kept by every step of a handler *)

Section Preservation.
Variable R : Store -> Store -> Prop.
Hypothesis R_trans : forall a b c, R a b -> R b c -> R a c.

Lemma preserves_ret {A} (a : A) : preserves R (ret a).
Proof. intros db0 s H. cbn. tauto. Qed.

Lemma preserves_raise {A} status d : preserves R (@raise A status d).
Proof. intros db0 s H. cbn. tauto. Qed.

Lemma preserves_query {A} (f : Store -> A) : preserves R (query f).
Proof. intros db0 s H. cbn. tauto. Qed.

Lemma preserves_write (f : Store -> Store) :
  (forall db, R db (f db)) -> preserves R (write f).
Proof.
  intros Hf db0 s H. cbn. split; [|tauto].
  exact (R_trans _ _ _ H (Hf _)).
Qed.

Lemma preserves_commit : preserves R commit.
Proof. intros db0 s H. cbn. tauto. Qed.

Lemma preserves_bind {A B} (m : M A) (k : A -> M B) :
  preserves R m -> (forall a, preserves R (k a)) -> preserves R (bind m k).
Proof.
  intros Hm Hk db0 s H. unfold bind.
  destruct (Hm db0 s H) as [H1 H2].
  destruct (m s) as [[a|e] s1]; cbn [snd] in *.
  - destruct (Hk a db0 s1 H1) as [H3 H4]. split; [exact H3 | tauto].
  - tauto.
Qed.

Lemma preserves_for_each {A} (body : A -> M unit) (xs : list A) :
  (forall x, preserves R (body x)) -> preserves R (for_each body xs).
Proof.
  intros Hb. induction xs as [|x xs IH]; cbn [for_each].
  - apply preserves_ret.
  - apply preserves_bind; [apply Hb | intros _; exact IH].
Qed.

Lemma preserves_get_or_404 {A} tablename (table : Store -> list A) pk obj_id :
  preserves R (_get_or_404 tablename table pk obj_id).
Proof.
  unfold _get_or_404. apply preserves_bind; [apply preserves_query|].
  intros [obj|]; [apply preserves_ret | apply preserves_raise].
Qed.

Lemma preserves_flush_document {A} (table : Store -> list A) number add
    (doc : A) :
  (forall db, R db (add doc db)) ->
  preserves R (flush_document table number add doc).
Proof.
  intros Hf. unfold flush_document. apply preserves_bind; [apply preserves_query|].
  intros [|]; [apply preserves_raise | now apply preserves_write].
Qed.

(** What survives the request is related to what it started from. *)
Lemma preserves_get_db {A} (m : M A) (db : Store) :
  R db db -> preserves R m -> R db (snd (get_db m db)).
Proof.
  intros Hr Hm. unfold get_db.
  destruct (Hm db (mkSession db db) Hr) as [_ H].
  destruct (m (mkSession db db)) as [r s]. cbn [snd] in *. now apply H.
Qed.

Lemma preserves_request {D A} (validate : D -> bool) (handler : D -> M A)
    (data : D) (db : Store) :
  R db db -> preserves R (handler data) ->
  R db (snd (request validate handler data db)).
Proof.
  intros Hr Hm. unfold request. destruct (validate data); [|exact Hr].
  now apply preserves_get_db.
Qed.

End Preservation.

(** ** C10: the [reserved] column is never written *)

Lemma same_but_quantity_refl (s : Stock.t) : same_but_quantity s s.
Proof. destruct s. reflexivity. Qed.

Lemma same_but_quantity_trans (a b c : Stock.t) :
  same_but_quantity a b -> same_but_quantity b c -> same_but_quantity a c.
Proof. unfold same_but_quantity. intros -> ->. reflexivity. Qed.

Lemma same_but_quantity_reserved (s s' : Stock.t) :
  same_but_quantity s s' -> Stock.reserved s' = Stock.reserved s.
Proof. unfold same_but_quantity. intros ->. reflexivity. Qed.

Lemma Forall2_same_but_quantity_refl (rows : list Stock.t) :
  Forall2 same_but_quantity rows rows.
Proof.
  induction rows; constructor; [apply same_but_quantity_refl | assumption].
Qed.

Lemma keeps_reserved_refl (rows : list Stock.t) : keeps_reserved rows rows.
Proof.
  exists rows, []. rewrite app_nil_r. split; [reflexivity|]. split; [|constructor].
  apply Forall2_same_but_quantity_refl.
Qed.

Lemma Forall2_same_but_quantity_trans (a b c : list Stock.t) :
  Forall2 same_but_quantity a b -> Forall2 same_but_quantity b c ->
  Forall2 same_but_quantity a c.
Proof.
  intros Hab. revert c. induction Hab as [|x y a b Hxy _ IH]; intros c Hbc.
  - inversion Hbc. constructor.
  - inversion Hbc as [|y' z b' c' Hyz Hrest]; subst. constructor.
    + exact (same_but_quantity_trans _ _ _ Hxy Hyz).
    + now apply IH.
Qed.

Lemma Forall2_same_but_quantity_fresh (a b : list Stock.t) :
  Forall2 same_but_quantity a b ->
  Forall (fun s => Stock.reserved s = 0) a ->
  Forall (fun s => Stock.reserved s = 0) b.
Proof.
  induction 1 as [|x y a b Hxy _ IH]; intros Ha; [constructor|].
  inversion Ha; subst. constructor; [|now apply IH].
  rewrite (same_but_quantity_reserved _ _ Hxy). assumption.
Qed.

Lemma keeps_reserved_trans (a b c : list Stock.t) :
  keeps_reserved a b -> keeps_reserved b c -> keeps_reserved a c.
Proof.
  intros (k1 & f1 & -> & Hk1 & Hf1) (k2 & f2 & -> & Hk2 & Hf2).
  apply Forall2_app_inv_l in Hk2 as (k2a & k2b & Ha & Hb & ->).
  exists k2a, (k2b ++ f2). split; [now rewrite app_assoc|]. split.
  - exact (Forall2_same_but_quantity_trans _ _ _ Hk1 Ha).
  - apply Forall_app. split; [|exact Hf2].
    exact (Forall2_same_but_quantity_fresh _ _ Hb Hf1).
Qed.

Lemma keeps_reserved_assign (p : Stock.t -> bool) (q : Z) (rows : list Stock.t) :
  keeps_reserved rows (update_first p (Stock.set_quantity q) rows).
Proof.
  exists (update_first p (Stock.set_quantity q) rows), [].
  rewrite app_nil_r. split; [reflexivity|]. split; [|constructor].
  induction rows as [|x rows IH]; cbn [update_first]; [constructor|].
  destruct (p x); constructor.
  - reflexivity.
  - apply Forall2_same_but_quantity_refl.
  - apply same_but_quantity_refl.
  - exact IH.
Qed.

Lemma keeps_reserved_add (i c l q : Z) (rows : list Stock.t) :
  keeps_reserved rows (rows ++ [Stock.mk i c l q 0]).
Proof.
  exists rows, [Stock.mk i c l q 0]. split; [reflexivity|]. split.
  - apply Forall2_same_but_quantity_refl.
  - repeat constructor.
Qed.

Lemma reserved_frame_refl (db : Store) : reserved_frame db db.
Proof. apply keeps_reserved_refl. Qed.

Lemma reserved_frame_trans (a b c : Store) :
  reserved_frame a b -> reserved_frame b c -> reserved_frame a c.
Proof. apply keeps_reserved_trans. Qed.

Lemma reserved_frame_same_stocks (db db' : Store) :
  stocks db' = stocks db -> reserved_frame db db'.
Proof. unfold reserved_frame. intros ->. apply keeps_reserved_refl. Qed.

(** Goals [preserves R m] for a handler [m] built from the primitives are
    reduced to the writes of [m]; [Rt] is the transitivity of [R]. *)
Ltac preserving Rt :=
  cbv zeta;
  repeat match goal with
    | |- preserves _ (ret _) => apply preserves_ret
    | |- preserves _ (raise _ _) => apply preserves_raise
    | |- preserves _ (query _) => apply preserves_query
    | |- preserves _ commit => apply preserves_commit
    | |- preserves _ (_get_or_404 _ _ _ _) => apply preserves_get_or_404
    | |- preserves _ (bind _ _) => apply preserves_bind
    | |- preserves _ (for_each _ _) => apply preserves_for_each
    | |- preserves _ (write _) => apply (preserves_write _ Rt)
    | |- preserves _ (flush_document _ _ _ _) =>
        apply (preserves_flush_document _ Rt)
    | |- preserves _ (match ?x with _ => _ end) => destruct x
    | |- forall _, _ => intro
    end.

Lemma _stock_upsert_reserved c l delta pb act desc :
  preserves reserved_frame (_stock_upsert c l delta pb act desc).
Proof.
  unfold _stock_upsert, add_stock, assign_quantity, _write_audit.
  preserving reserved_frame_trans;
    first [ apply keeps_reserved_add
          | apply keeps_reserved_assign
          | apply reserved_frame_same_stocks; reflexivity ].
Qed.

Lemma adjust_stock_reserved data : preserves reserved_frame (adjust_stock data).
Proof.
  unfold adjust_stock, add_stock, assign_quantity, _write_audit.
  preserving reserved_frame_trans;
    first [ apply keeps_reserved_add
          | apply keeps_reserved_assign
          | apply reserved_frame_same_stocks; reflexivity ].
Qed.

Lemma confirm_receipt_reserved now rec_id data :
  preserves reserved_frame (confirm_receipt now rec_id data).
Proof.
  unfold confirm_receipt, receipt_line.
  preserving reserved_frame_trans;
    first [ apply _stock_upsert_reserved
          | apply reserved_frame_same_stocks; reflexivity ].
Qed.

Lemma confirm_issue_reserved now iss_id pb :
  preserves reserved_frame (confirm_issue now iss_id pb).
Proof.
  unfold confirm_issue, issue_line.
  preserving reserved_frame_trans;
    first [ apply _stock_upsert_reserved
          | apply reserved_frame_same_stocks; reflexivity ].
Qed.

Lemma create_inventory_reserved now data :
  preserves reserved_frame (create_inventory now data).
Proof.
  unfold create_inventory, inventory_line, add_stock, assign_quantity,
    _write_audit.
  preserving reserved_frame_trans;
    first [ apply keeps_reserved_add
          | apply keeps_reserved_assign
          | apply reserved_frame_same_stocks; reflexivity ].
Qed.

(** C10: [_stock_upsert] (whatever the state of the session and whatever its
    outcome), the manual adjustment, the confirmation of a receipt or an
    issue and the inventory act leave in the balance table the rows that
    were there, in the same order, with the same [id], [component_id],
    [location_id] and [reserved]; a row they add has [reserved = 0]. *)
Theorem reserved_is_never_written :
  (forall c l delta pb act desc (s : Session),
      keeps_reserved (stocks (pending s))
        (stocks (pending (snd (_stock_upsert c l delta pb act desc s)))))
  /\ (forall data db,
        keeps_reserved (stocks db) (stocks (snd (post_stocks_adjust data db))))
  /\ (forall now rec_id data db,
        keeps_reserved (stocks db)
          (stocks (snd (post_receipts_confirm now rec_id data db))))
  /\ (forall now iss_id pb db,
        keeps_reserved (stocks db)
          (stocks (snd (post_issues_confirm now iss_id pb db))))
  /\ (forall now data db,
        keeps_reserved (stocks db) (stocks (snd (post_inventories now data db)))).
Proof.
  split; [|split; [|split; [|split]]].
  - intros c l delta pb act desc s.
    exact (proj1 (_stock_upsert_reserved c l delta pb act desc (pending s) s
                    (reserved_frame_refl _))).
  - intros data db.
    exact (preserves_request reserved_frame _ _ data db
             (reserved_frame_refl db) (adjust_stock_reserved data)).
  - intros now rec_id data db.
    exact (preserves_get_db reserved_frame _ db (reserved_frame_refl db)
             (confirm_receipt_reserved now rec_id data)).
  - intros now iss_id pb db.
    exact (preserves_get_db reserved_frame _ db (reserved_frame_refl db)
             (confirm_issue_reserved now iss_id pb)).
  - intros now data db.
    exact (preserves_request reserved_frame _ _ data db
             (reserved_frame_refl db) (create_inventory_reserved now data)).
Qed.

Example reserved_kept_by_issue :
  let db := with_stocks (fun _ => [Stock.mk 1 1 1 10 4]) db_issue_15 in
  let r := post_issues_confirm 0 1 None
             (snd (post_stocks_adjust (StockAdjust.mk 1 1 20 None None) db)) in
  stocks (snd r) = [Stock.mk 1 1 1 5 4].
Proof. vm_compute. reflexivity. Qed.

(** ** C7: documents that are no longer drafts *)

(** C7, as stated, fails for a cancelled document: cancelling it again is
    answered with the document, not with an error. *)
Lemma cancel_of_cancelled_counterexample :
  (exists r,
      find (fun r => Receipt.id r =? 1) (receipts db_receipt_cancelled) = Some r
      /\ Receipt.status r = ReceiptStatus.cancelled
      /\ post_receipts_cancel 1 db_receipt_cancelled = (Ok r, db_receipt_cancelled))
  /\
  (exists i,
      find (fun i => Issue.id i =? 1) (issues db_issue_cancelled) = Some i
      /\ Issue.status i = IssueStatus.cancelled
      /\ post_issues_cancel 1 db_issue_cancelled = (Ok i, db_issue_cancelled)).
Proof.
  split; eexists; vm_compute; repeat split.
Qed.

Lemma with_receipts_same (db : Store) (f : list Receipt.t -> list Receipt.t) :
  f (receipts db) = receipts db -> with_receipts f db = db.
Proof. destruct db. unfold with_receipts. cbn. now intros ->. Qed.

Lemma with_issues_same (db : Store) (f : list Issue.t -> list Issue.t) :
  f (issues db) = issues db -> with_issues f db = db.
Proof. destruct db. unfold with_issues. cbn. now intros ->. Qed.

Lemma receipt_set_status_same (r : Receipt.t) :
  Receipt.set_status (Receipt.status r) r = r.
Proof. destruct r. reflexivity. Qed.

Lemma issue_set_status_same (i : Issue.t) :
  Issue.set_status (Issue.status i) i = i.
Proof. destruct i. reflexivity. Qed.

(** C7 (amended): for a receipt or an issue that exists,
    - if it is confirmed, confirming it fails with 400 "already processed"
      and cancelling it fails with 400 "a confirmed document cannot be
      cancelled"; the database is unchanged;
    - if it is cancelled, confirming it fails with 400 "already processed";
      cancelling it again succeeds, answers with the document and leaves the
      database unchanged (the status stays cancelled);
    - if it is a draft, cancelling it succeeds and only sets its status to
      cancelled. *)
Theorem processed_documents now doc_id (db : Store) :
  (forall data r,
      find (fun r => Receipt.id r =? doc_id) (receipts db) = Some r ->
      match Receipt.status r with
      | ReceiptStatus.confirmed =>
          post_receipts_confirm now doc_id data db
            = (Raise (mkHTTP 400 AlreadyProcessed), db)
          /\ post_receipts_cancel doc_id db
            = (Raise (mkHTTP 400 ConfirmedNotCancellable), db)
      | ReceiptStatus.cancelled =>
          post_receipts_confirm now doc_id data db
            = (Raise (mkHTTP 400 AlreadyProcessed), db)
          /\ post_receipts_cancel doc_id db = (Ok r, db)
      | ReceiptStatus.draft =>
          post_receipts_cancel doc_id db
            = (Ok (Receipt.set_status ReceiptStatus.cancelled r),
               with_receipts
                 (update_first (fun r => Receipt.id r =? doc_id)
                    (Receipt.set_status ReceiptStatus.cancelled)) db)
      end)
  /\
  (forall performed_by i,
      find (fun i => Issue.id i =? doc_id) (issues db) = Some i ->
      match Issue.status i with
      | IssueStatus.confirmed =>
          post_issues_confirm now doc_id performed_by db
            = (Raise (mkHTTP 400 AlreadyProcessed), db)
          /\ post_issues_cancel doc_id db
            = (Raise (mkHTTP 400 ConfirmedNotCancellable), db)
      | IssueStatus.cancelled =>
          post_issues_confirm now doc_id performed_by db
            = (Raise (mkHTTP 400 AlreadyProcessed), db)
          /\ post_issues_cancel doc_id db = (Ok i, db)
      | IssueStatus.draft =>
          post_issues_cancel doc_id db
            = (Ok (Issue.set_status IssueStatus.cancelled i),
               with_issues
                 (update_first (fun i => Issue.id i =? doc_id)
                    (Issue.set_status IssueStatus.cancelled)) db)
      end).
Proof.
  split.
  - intros data r Hf.
    unfold post_receipts_confirm, post_receipts_cancel, get_db,
      confirm_receipt, cancel_receipt, _get_or_404, bind, query.
    cbn [pending]. rewrite Hf. unfold ret, raise, write, commit. cbv beta iota.
    destruct (Receipt.status r) eqn:Hs; cbn [pending persisted].
    + reflexivity.
    + split; reflexivity.
    + split; [reflexivity|].
      rewrite <- Hs, receipt_set_status_same. f_equal.
      apply with_receipts_same, update_first_id.
      intros x Hx. rewrite Hf in Hx. injection Hx as <-.
      apply receipt_set_status_same.
  - intros pb i Hf.
    unfold post_issues_confirm, post_issues_cancel, get_db,
      confirm_issue, cancel_issue, _get_or_404, bind, query.
    cbn [pending]. rewrite Hf. unfold ret, raise, write, commit. cbv beta iota.
    destruct (Issue.status i) eqn:Hs; cbn [pending persisted].
    + reflexivity.
    + split; reflexivity.
    + split; [reflexivity|].
      rewrite <- Hs, issue_set_status_same. f_equal.
      apply with_issues_same, update_first_id.
      intros x Hx. rewrite Hf in Hx. injection Hx as <-.
      apply issue_set_status_same.
Qed.

(** A confirmed receipt and a cancelled issue. *)
Lemma processed_documents_witness :
  (post_receipts_confirm 5 1 (ReceiptConfirm.mk None) db_receipt_confirmed
     = (Raise (mkHTTP 400 AlreadyProcessed), db_receipt_confirmed)
   /\ post_receipts_cancel 1 db_receipt_confirmed
     = (Raise (mkHTTP 400 ConfirmedNotCancellable), db_receipt_confirmed))
  /\
  (post_issues_confirm 5 1 None db_issue_cancelled
     = (Raise (mkHTTP 400 AlreadyProcessed), db_issue_cancelled)
   /\ post_issues_cancel 1 db_issue_cancelled
     = (Ok (Issue.mk 1 "I-1" None None IssueStatus.cancelled None None None None),
        db_issue_cancelled)).
Proof.
  split.
  - exact (proj1 (processed_documents 5 1 db_receipt_confirmed)
             (ReceiptConfirm.mk None)
             (Receipt.mk 1 "R-2" 1 ReceiptStatus.confirmed (Some 0) None None None)
             eq_refl).
  - exact (proj2 (processed_documents 5 1 db_issue_cancelled) None
             (Issue.mk 1 "I-1" None None IssueStatus.cancelled None None None None)
             eq_refl).
Defined.

(** ** What a confirmation and a cancellation do *)

(** An accepted call of [_stock_upsert], read off its answer. *)
Lemma _stock_upsert_ok c l delta pb act desc (s s' : Session) (st : Stock.t) :
  _stock_upsert c l delta pb act desc s = (Ok st, s') ->
  0 <= quantity_at (pending s) c l + delta
  /\ audit_logs (pending s') = audit_logs (pending s) ++
       [upsert_entry (Stock.id st) c l (quantity_at (pending s) c l)
          (quantity_at (pending s) c l + delta) pb act desc]
  /\ same_documents (pending s) (pending s').
Proof.
  unfold quantity_at, same_documents.
  destruct (stock_at (pending s) c l) as [row|] eqn:F.
  - rewrite (_stock_upsert_present _ _ _ _ _ _ _ _ F). cbv zeta.
    destruct (_ <? 0) eqn:E; [discriminate|]. intros [= <- <-].
    apply Z.ltb_ge in E. split; [exact E|]. repeat split.
  - rewrite (_stock_upsert_absent _ _ _ _ _ _ _ F). cbv zeta.
    destruct (_ <? 0) eqn:E; [discriminate|]. intros [= <- <-].
    apply Z.ltb_ge in E. split; [exact E|]. repeat split.
Qed.

Lemma receipt_lines_ok receipt data (items : list ReceiptItem.t) :
  forall s s',
    for_each (receipt_line receipt data) items s = (Ok tt, s') ->
    (forall c l, quantity_at (pending s') c l
                 = quantity_at (pending s) c l + received_at_cell items c l)
    /\ (exists new,
          audit_logs (pending s') = audit_logs (pending s) ++ new
          /\ List.length new = List.length items
          /\ Forall (fun e =>
                AuditLog.action_type e = AuditActionType.receipt
                /\ AuditLog.description e = Some (ReceiptNote (Receipt.number receipt))
                /\ AuditLog.performed_by e = ReceiptConfirm.performed_by data) new)
    /\ same_documents (pending s) (pending s')
    /\ persisted s' = persisted s.
Proof.
  induction items as [|x items IH]; intros s s'; cbn [for_each received_at_cell].
  - intros [= <-]. split; [intros; lia|]. split.
    + exists []. rewrite app_nil_r. repeat split. constructor.
    + unfold same_documents. repeat split.
  - unfold bind at 1. unfold receipt_line at 1. unfold bind at 1.
    pose proof (_stock_upsert_quantity_at (ReceiptItem.component_id x)
      (or_1 (ReceiptItem.location_id x)) (ReceiptItem.quantity x)
      (ReceiptConfirm.performed_by data) AuditActionType.receipt
      (Some (ReceiptNote (Receipt.number receipt))) s) as Hq.
    pose proof (_stock_upsert_persisted (ReceiptItem.component_id x)
      (or_1 (ReceiptItem.location_id x)) (ReceiptItem.quantity x)
      (ReceiptConfirm.performed_by data) AuditActionType.receipt
      (Some (ReceiptNote (Receipt.number receipt))) s) as Hp.
    destruct (_stock_upsert _ _ _ _ _ _ s) as [[st|e] s1] eqn:Hup;
      [|discriminate].
    unfold ret at 1. intros Hrest.
    destruct (_stock_upsert_ok _ _ _ _ _ _ _ _ _ Hup) as (Hok & Hlog & Hdoc).
    destruct (IH s1 s' Hrest) as (IHq & (new & IHlog & IHlen & IHall) & IHdoc & IHp).
    cbn [snd] in Hq, Hp. cbv zeta in Hq. apply Z.ltb_ge in Hok.
    rewrite Hok in Hq. split; [|split; [|split]].
    + intros c l. rewrite IHq, Hq.
      destruct (cell_eq_dec _ _ c l) as [E|N].
      * injection E as -> ->. rewrite !Z.eqb_refl. cbn [andb]. lia.
      * destruct (Z.eqb_spec (ReceiptItem.component_id x) c) as [Ec|];
          destruct (Z.eqb_spec (or_1 (ReceiptItem.location_id x)) l) as [El|];
          cbn [andb]; try lia.
        exfalso. apply N. now rewrite Ec, El.
    + eexists (_ :: new). rewrite IHlog, Hlog, <- app_assoc. cbn [app].
      split; [reflexivity|]. split; [cbn; now rewrite IHlen|].
      constructor; [repeat split | exact IHall].
    + unfold same_documents in *. intuition congruence.
    + congruence.
Qed.

Lemma issue_lines_ok issue pb (items : list IssueItem.t) :
  forall s s',
    for_each (issue_line issue pb) items s = (Ok tt, s') ->
    (forall c l, quantity_at (pending s') c l
                 = quantity_at (pending s) c l - issued_at_cell items c l)
    /\ (exists new,
          audit_logs (pending s') = audit_logs (pending s) ++ new
          /\ List.length new = List.length items
          /\ Forall (fun e =>
                AuditLog.action_type e = AuditActionType.issue
                /\ AuditLog.description e = Some (IssueNote (Issue.number issue))
                /\ AuditLog.performed_by e = pb) new)
    /\ same_documents (pending s) (pending s')
    /\ persisted s' = persisted s.
Proof.
  induction items as [|x items IH]; intros s s'; cbn [for_each issued_at_cell].
  - intros [= <-]. split; [intros; lia|]. split.
    + exists []. rewrite app_nil_r. repeat split. constructor.
    + unfold same_documents. repeat split.
  - unfold bind at 1. unfold issue_line at 1. unfold bind at 1.
    pose proof (_stock_upsert_quantity_at (IssueItem.component_id x)
      (or_1 (IssueItem.location_id x)) (- IssueItem.quantity x)
      pb AuditActionType.issue (Some (IssueNote (Issue.number issue))) s) as Hq.
    pose proof (_stock_upsert_persisted (IssueItem.component_id x)
      (or_1 (IssueItem.location_id x)) (- IssueItem.quantity x)
      pb AuditActionType.issue (Some (IssueNote (Issue.number issue))) s) as Hp.
    destruct (_stock_upsert _ _ _ _ _ _ s) as [[st|e] s1] eqn:Hup;
      [|discriminate].
    unfold ret at 1. intros Hrest.
    destruct (_stock_upsert_ok _ _ _ _ _ _ _ _ _ Hup) as (Hok & Hlog & Hdoc).
    destruct (IH s1 s' Hrest) as (IHq & (new & IHlog & IHlen & IHall) & IHdoc & IHp).
    cbn [snd] in Hq, Hp. cbv zeta in Hq. apply Z.ltb_ge in Hok.
    rewrite Hok in Hq. split; [|split; [|split]].
    + intros c l. rewrite IHq, Hq.
      destruct (cell_eq_dec _ _ c l) as [E|N].
      * injection E as -> ->. rewrite !Z.eqb_refl. cbn [andb]. lia.
      * destruct (Z.eqb_spec (IssueItem.component_id x) c) as [Ec|];
          destruct (Z.eqb_spec (or_1 (IssueItem.location_id x)) l) as [El|];
          cbn [andb]; try lia.
        exfalso. apply N. now rewrite Ec, El.
    + eexists (_ :: new). rewrite IHlog, Hlog, <- app_assoc. cbn [app].
      split; [reflexivity|]. split; [cbn; now rewrite IHlen|].
      constructor; [repeat split | exact IHall].
    + unfold same_documents in *. intuition congruence.
    + congruence.
Qed.

Lemma ReceiptStatus_eq_dec_draft (r : Receipt.t) :
  {Receipt.status r = ReceiptStatus.draft} + {Receipt.status r <> ReceiptStatus.draft}.
Proof. destruct (Receipt.status r); [left | right | right]; congruence. Qed.

Lemma IssueStatus_eq_dec_draft (i : Issue.t) :
  {Issue.status i = IssueStatus.draft} + {Issue.status i <> IssueStatus.draft}.
Proof. destruct (Issue.status i); [left | right | right]; congruence. Qed.

(** What a successful confirmation of the receipt has done. *)
Lemma post_receipts_confirm_ok now rec_id data (db db' : Store)
    (r : Receipt.t) :
  post_receipts_confirm now rec_id data db = (Ok r, db') ->
  exists draft new,
    find (fun r => Receipt.id r =? rec_id) (receipts db) = Some draft
    /\ Receipt.status draft = ReceiptStatus.draft
    /\ r = Receipt.set_received_at now
             (Receipt.set_status ReceiptStatus.confirmed draft)
    /\ find (fun r => Receipt.id r =? rec_id) (receipts db') = Some r
    /\ (forall c l, quantity_at db' c l
                    = quantity_at db c l
                      + received_at_cell (items_of_receipt db rec_id) c l)
    /\ audit_logs db' = audit_logs db ++ new
    /\ List.length new = List.length (items_of_receipt db rec_id)
    /\ Forall (fun e =>
          AuditLog.action_type e = AuditActionType.receipt
          /\ AuditLog.description e = Some (ReceiptNote (Receipt.number draft))
          /\ AuditLog.performed_by e = ReceiptConfirm.performed_by data) new
    /\ receipt_items db' = receipt_items db
    /\ issues db' = issues db.
Proof.
  unfold post_receipts_confirm, get_db.
  destruct (find (fun r => Receipt.id r =? rec_id) (receipts db)) as [draft|] eqn:Hf.
  2:{ unfold confirm_receipt.
      erewrite bind_raise
        by (apply get_or_404_unknown; exact Hf). discriminate. }
  destruct (ReceiptStatus_eq_dec_draft draft) as [Hd|Hd].
  2:{ now rewrite (confirm_receipt_processed now rec_id data
                     (mkSession db db) draft Hf Hd). }
  rewrite (confirm_receipt_draft now rec_id data (mkSession db db) draft Hf Hd).
  assert (Hid : Receipt.id draft = rec_id).
  { apply Z.eqb_eq. exact (find_holds _ _ _ Hf). }
  rewrite Hid. cbn [pending].
  destruct (for_each _ _ (mkSession db db)) as [[[]|e] s1] eqn:Hloop;
    [|discriminate].
  cbv zeta. intros [= <- <-].
  destruct (receipt_lines_ok _ _ _ _ _ Hloop)
    as (Hq & (new & Hlog & Hlen & Hall) & Hdoc & _).
  destruct Hdoc as (Hrec & Hitems & Hiss & _). cbn [pending] in *.
  exists draft, new. split; [reflexivity|]. split; [exact Hd|].
  split; [reflexivity|]. split.
  { cbn [receipts with_receipts]. rewrite Hrec.
    apply (find_update_first (fun r => Receipt.id r =? rec_id)
             (fun r => Receipt.set_received_at now
                         (Receipt.set_status ReceiptStatus.confirmed r))
             _ _ Hf).
    cbn [Receipt.id Receipt.set_status Receipt.set_received_at].
    now rewrite Hid, Z.eqb_refl. }
  split; [intros c l; rewrite <- Hq; reflexivity|].
  repeat split; assumption.
Qed.

(** What a successful confirmation of the issue has done. *)
Lemma post_issues_confirm_ok now iss_id pb (db db' : Store)
    (i : Issue.t) :
  post_issues_confirm now iss_id pb db = (Ok i, db') ->
  exists draft new,
    find (fun i => Issue.id i =? iss_id) (issues db) = Some draft
    /\ Issue.status draft = IssueStatus.draft
    /\ i = Issue.set_issued_at now (Issue.set_status IssueStatus.confirmed draft)
    /\ find (fun i => Issue.id i =? iss_id) (issues db') = Some i
    /\ (forall c l, quantity_at db' c l
                    = quantity_at db c l
                      - issued_at_cell (items_of_issue db iss_id) c l)
    /\ audit_logs db' = audit_logs db ++ new
    /\ List.length new = List.length (items_of_issue db iss_id)
    /\ Forall (fun e =>
          AuditLog.action_type e = AuditActionType.issue
          /\ AuditLog.description e = Some (IssueNote (Issue.number draft))
          /\ AuditLog.performed_by e = pb) new
    /\ issue_items db' = issue_items db
    /\ receipts db' = receipts db.
Proof.
  unfold post_issues_confirm, get_db.
  destruct (find (fun i => Issue.id i =? iss_id) (issues db)) as [draft|] eqn:Hf.
  2:{ unfold confirm_issue.
      erewrite bind_raise
        by (apply get_or_404_unknown; exact Hf). discriminate. }
  destruct (IssueStatus_eq_dec_draft draft) as [Hd|Hd].
  2:{ now rewrite (confirm_issue_processed now iss_id pb
                     (mkSession db db) draft Hf Hd). }
  rewrite (confirm_issue_draft now iss_id pb (mkSession db db) draft Hf Hd).
  assert (Hid : Issue.id draft = iss_id).
  { apply Z.eqb_eq. exact (find_holds _ _ _ Hf). }
  rewrite Hid. cbn [pending].
  destruct (for_each _ _ (mkSession db db)) as [[[]|e] s1] eqn:Hloop;
    [|discriminate].
  cbv zeta. intros [= <- <-].
  destruct (issue_lines_ok _ _ _ _ _ Hloop)
    as (Hq & (new & Hlog & Hlen & Hall) & Hdoc & _).
  destruct Hdoc as (Hrec & _ & Hiss & Hitems & _). cbn [pending] in *.
  exists draft, new. split; [reflexivity|]. split; [exact Hd|].
  split; [reflexivity|]. split.
  { cbn [issues with_issues]. rewrite Hiss.
    apply (find_update_first (fun i => Issue.id i =? iss_id)
             (fun i => Issue.set_issued_at now
                         (Issue.set_status IssueStatus.confirmed i))
             _ _ Hf).
    cbn [Issue.id Issue.set_status Issue.set_issued_at].
    now rewrite Hid, Z.eqb_refl. }
  split; [intros c l; rewrite <- Hq; reflexivity|].
  repeat split; assumption.
Qed.

Lemma cancel_receipt_confirmed rec_id (s : Session) (r : Receipt.t) :
  find (fun r => Receipt.id r =? rec_id) (receipts (pending s)) = Some r ->
  Receipt.status r = ReceiptStatus.confirmed ->
  cancel_receipt rec_id s = (Raise (mkHTTP 400 ConfirmedNotCancellable), s).
Proof.
  intros Hf Hd. unfold cancel_receipt, _get_or_404, bind at 1 2, query.
  rewrite Hf. unfold ret at 1. cbv beta iota. now rewrite Hd.
Qed.

Lemma cancel_issue_confirmed iss_id (s : Session) (i : Issue.t) :
  find (fun i => Issue.id i =? iss_id) (issues (pending s)) = Some i ->
  Issue.status i = IssueStatus.confirmed ->
  cancel_issue iss_id s = (Raise (mkHTTP 400 ConfirmedNotCancellable), s).
Proof.
  intros Hf Hd. unfold cancel_issue, _get_or_404, bind at 1 2, query.
  rewrite Hf. unfold ret at 1. cbv beta iota. now rewrite Hd.
Qed.

Lemma post_receipts_cancel_ok rec_id (db db' : Store) (r : Receipt.t) :
  post_receipts_cancel rec_id db = (Ok r, db') ->
  find (fun r => Receipt.id r =? rec_id) (receipts db') = Some r
  /\ Receipt.status r = ReceiptStatus.cancelled
  /\ stocks db' = stocks db /\ audit_logs db' = audit_logs db.
Proof.
  unfold post_receipts_cancel, get_db.
  destruct (find (fun r => Receipt.id r =? rec_id) (receipts db)) as [old|] eqn:Hf.
  2:{ unfold cancel_receipt.
      erewrite bind_raise by (apply get_or_404_unknown; exact Hf). discriminate. }
  assert (Hid : (Receipt.id old =? rec_id) = true) by exact (find_holds _ _ _ Hf).
  unfold cancel_receipt, _get_or_404, bind at 1 2, query. cbn [pending].
  rewrite Hf. unfold ret at 1. cbv beta iota.
  destruct (Receipt.status old); cbn; try discriminate;
    intros [= <- <-]; (split; [|repeat split]);
    cbn [receipts with_receipts];
    apply (find_update_first (fun r => Receipt.id r =? rec_id)
             (Receipt.set_status ReceiptStatus.cancelled) _ _ Hf); exact Hid.
Qed.

Lemma post_issues_cancel_ok iss_id (db db' : Store) (i : Issue.t) :
  post_issues_cancel iss_id db = (Ok i, db') ->
  find (fun i => Issue.id i =? iss_id) (issues db') = Some i
  /\ Issue.status i = IssueStatus.cancelled
  /\ stocks db' = stocks db /\ audit_logs db' = audit_logs db.
Proof.
  unfold post_issues_cancel, get_db.
  destruct (find (fun i => Issue.id i =? iss_id) (issues db)) as [old|] eqn:Hf.
  2:{ unfold cancel_issue.
      erewrite bind_raise by (apply get_or_404_unknown; exact Hf). discriminate. }
  assert (Hid : (Issue.id old =? iss_id) = true) by exact (find_holds _ _ _ Hf).
  unfold cancel_issue, _get_or_404, bind at 1 2, query. cbn [pending].
  rewrite Hf. unfold ret at 1. cbv beta iota.
  destruct (Issue.status old); cbn; try discriminate;
    intros [= <- <-]; (split; [|repeat split]);
    cbn [issues with_issues];
    apply (find_update_first (fun i => Issue.id i =? iss_id)
             (Issue.set_status IssueStatus.cancelled) _ _ Hf); exact Hid.
Qed.

(** ** C9: the state of a document when it is created *)

(** C9, as stated, fails for the inventory act: the request that creates it
    answers with a completed act (the act has no draft state) and the
    balance has already been set to the counted quantity and journalled,
    without any confirmation request. *)
Lemma inventory_completed_at_creation_counterexample :
  let r := post_inventories 0
             (InventoryCreate.mk "INV-1" None None
                [InventoryItemCreate.mk 1 None 7]) (db_with 10) in
  exists inv,
    fst r = Ok inv
    /\ inventories (snd r) = [inv]
    /\ Inventory.status inv = InventoryStatus.completed
    /\ Inventory.status inv <> InventoryStatus.in_progress
    /\ quantity_at (db_with 10) 1 1 = 10
    /\ quantity_at (snd r) 1 1 = 7
    /\ List.length (audit_logs (snd r)) = 1%nat.
Proof.
  cbv zeta. eexists. vm_compute. repeat split. discriminate.
Qed.

Lemma create_receipt_items new_id (items : list ReceiptItemCreate.t) :
  forall s,
    (forall it, In it items ->
       In (ReceiptItemCreate.component_id it) (components (pending s))) ->
    for_each (fun item_data =>
        _get_or_404 "components" components (fun k => k)
          (ReceiptItemCreate.component_id item_data) ;;;
        write (with_receipt_items (fun rows => rows ++
          [ReceiptItem.mk new_id (ReceiptItemCreate.component_id item_data)
             (ReceiptItemCreate.location_id item_data)
             (ReceiptItemCreate.quantity item_data)
             (ReceiptItemCreate.price_rub item_data)])))
      items s
    = (Ok tt,
       mkSession (persisted s)
         (with_receipt_items (fun rows => rows ++
            map (fun d => ReceiptItem.mk new_id (ReceiptItemCreate.component_id d)
                   (ReceiptItemCreate.location_id d) (ReceiptItemCreate.quantity d)
                   (ReceiptItemCreate.price_rub d)) items)
            (pending s))).
Proof.
  induction items as [|x items IH]; intros s Hc; cbn [for_each map].
  - unfold ret, with_receipt_items. rewrite app_nil_r. now destruct s as [p [ ]].
  - unfold bind at 1 2, _get_or_404, bind at 1, query at 1.
    rewrite (find_key _ _ (Hc x (or_introl eq_refl))).
    unfold ret at 1, write at 1. cbv beta iota.
    rewrite IH by (intros it Hit; apply Hc; now right).
    cbn [persisted pending]. unfold with_receipt_items.
    cbn [components storage_locations suppliers stocks receipts receipt_items
         issues issue_items inventories inventory_items audit_logs].
    now rewrite <- app_assoc.
Qed.

Lemma create_issue_items new_id (items : list IssueItemCreate.t) :
  forall s,
    (forall it, In it items ->
       In (IssueItemCreate.component_id it) (components (pending s))) ->
    for_each (fun item_data =>
        _get_or_404 "components" components (fun k => k)
          (IssueItemCreate.component_id item_data) ;;;
        write (with_issue_items (fun rows => rows ++
          [IssueItem.mk new_id (IssueItemCreate.component_id item_data)
             (IssueItemCreate.location_id item_data)
             (IssueItemCreate.quantity item_data)])))
      items s
    = (Ok tt,
       mkSession (persisted s)
         (with_issue_items (fun rows => rows ++
            map (fun d => IssueItem.mk new_id (IssueItemCreate.component_id d)
                   (IssueItemCreate.location_id d) (IssueItemCreate.quantity d))
              items)
            (pending s))).
Proof.
  induction items as [|x items IH]; intros s Hc; cbn [for_each map].
  - unfold ret, with_issue_items. rewrite app_nil_r. now destruct s as [p [ ]].
  - unfold bind at 1 2, _get_or_404, bind at 1, query at 1.
    rewrite (find_key _ _ (Hc x (or_introl eq_refl))).
    unfold ret at 1, write at 1. cbv beta iota.
    rewrite IH by (intros it Hit; apply Hc; now right).
    cbn [persisted pending]. unfold with_issue_items.
    cbn [components storage_locations suppliers stocks receipts receipt_items
         issues issue_items inventories inventory_items audit_logs].
    now rewrite <- app_assoc.
Qed.

(** The loop of [create_inventory] succeeds when every component exists; it
    leaves the table of acts alone. *)
Lemma create_inventory_items inv_id number created_by
    (items : list InventoryItemCreate.t) :
  forall s,
    (forall it, In it items ->
       In (InventoryItemCreate.component_id it) (components (pending s))) ->
    exists s',
      for_each (inventory_line inv_id number created_by) items s = (Ok tt, s')
      /\ components (pending s') = components (pending s)
      /\ inventories (pending s') = inventories (pending s).
Proof.
  induction items as [|x items IH]; intros s Hc; cbn [for_each].
  - exists s. repeat split.
  - destruct (inventory_line_effect inv_id number created_by x s
                (Hc x (or_introl eq_refl))) as (s1 & Hr & Hcomp & Hinv & _).
    destruct (IH s1) as (s2 & Hr2 & Hcomp2 & Hinv2).
    { intros it Hit. rewrite Hcomp. apply Hc. now right. }
    exists s2. unfold bind. rewrite Hr. split; [exact Hr2|].
    split; congruence.
Qed.

(** *** A document under the requests that are not about it *)

Lemma keeps_receipt_refl k r (db : Store) : keeps_receipt k r db db.
Proof. intros H. exact H. Qed.

Lemma keeps_receipt_trans k r (a b c : Store) :
  keeps_receipt k r a b -> keeps_receipt k r b c -> keeps_receipt k r a c.
Proof. unfold keeps_receipt. auto. Qed.

Lemma keeps_receipt_same k r (a b : Store) :
  receipts b = receipts a -> keeps_receipt k r a b.
Proof. unfold keeps_receipt. now intros ->. Qed.

Lemma keeps_receipt_added k r (x : Receipt.t) (a : Store) :
  keeps_receipt k r a (with_receipts (fun rows => rows ++ [x]) a).
Proof. intros H. cbn [receipts with_receipts]. now apply find_app_present. Qed.

Lemma keeps_receipt_other k r k' (f : Receipt.t -> Receipt.t) (a : Store) :
  k' <> k -> (forall x, Receipt.id (f x) = Receipt.id x) ->
  keeps_receipt k r a
    (with_receipts (update_first (fun x => Receipt.id x =? k') f) a).
Proof.
  intros N Hid H. cbn [receipts with_receipts].
  rewrite find_update_first_other; [exact H|].
  intros x Hx. apply Z.eqb_eq in Hx. rewrite Hid.
  split; apply Z.eqb_neq; congruence.
Qed.

Lemma keeps_issue_refl k i (db : Store) : keeps_issue k i db db.
Proof. intros H. exact H. Qed.

Lemma keeps_issue_trans k i (a b c : Store) :
  keeps_issue k i a b -> keeps_issue k i b c -> keeps_issue k i a c.
Proof. unfold keeps_issue. auto. Qed.

Lemma keeps_issue_same k i (a b : Store) :
  issues b = issues a -> keeps_issue k i a b.
Proof. unfold keeps_issue. now intros ->. Qed.

Lemma keeps_issue_added k i (x : Issue.t) (a : Store) :
  keeps_issue k i a (with_issues (fun rows => rows ++ [x]) a).
Proof. intros H. cbn [issues with_issues]. now apply find_app_present. Qed.

Lemma keeps_issue_other k i k' (f : Issue.t -> Issue.t) (a : Store) :
  k' <> k -> (forall x, Issue.id (f x) = Issue.id x) ->
  keeps_issue k i a
    (with_issues (update_first (fun x => Issue.id x =? k') f) a).
Proof.
  intros N Hid H. cbn [issues with_issues].
  rewrite find_update_first_other; [exact H|].
  intros x Hx. apply Z.eqb_eq in Hx. rewrite Hid.
  split; apply Z.eqb_neq; congruence.
Qed.

(** Writes that leave the table of receipts (of issues) alone, that append
    to it, or that rewrite the row of another key. *)
Ltac keeping :=
  first [ apply keeps_receipt_added
        | apply keeps_issue_added
        | apply keeps_receipt_other; [assumption | reflexivity]
        | apply keeps_issue_other; [assumption | reflexivity]
        | apply keeps_receipt_same; reflexivity
        | apply keeps_issue_same; reflexivity ].

(** A request other than the confirmation or the cancellation of the
    receipt [k] leaves the receipt [k] as it is. *)
Lemma serve_keeps_receipt (req : Request) (db : Store) k r :
  (forall now data, req <> PostReceiptsConfirm now k data) ->
  req <> PostReceiptsCancel k ->
  keeps_receipt k r db (serve req db).
Proof.
  intros Hconfirm Hcancel. destruct req; cbn [serve].
  - apply (preserves_request (keeps_receipt k r)); [apply keeps_receipt_refl|].
    unfold adjust_stock, add_stock, assign_quantity, _write_audit.
    preserving (keeps_receipt_trans k r); keeping.
  - apply (preserves_request (keeps_receipt k r)); [apply keeps_receipt_refl|].
    unfold create_receipt. preserving (keeps_receipt_trans k r); keeping.
  - assert (N : rec_id <> k) by (intros ->; exact (Hconfirm now data eq_refl)).
    apply (preserves_get_db (keeps_receipt k r)); [apply keeps_receipt_refl|].
    unfold confirm_receipt, receipt_line, _stock_upsert, add_stock,
      assign_quantity, _write_audit.
    preserving (keeps_receipt_trans k r); keeping.
  - assert (N : rec_id <> k) by (intros ->; exact (Hcancel eq_refl)).
    apply (preserves_get_db (keeps_receipt k r)); [apply keeps_receipt_refl|].
    unfold cancel_receipt. preserving (keeps_receipt_trans k r); keeping.
  - apply (preserves_request (keeps_receipt k r)); [apply keeps_receipt_refl|].
    unfold create_issue. preserving (keeps_receipt_trans k r); keeping.
  - apply (preserves_get_db (keeps_receipt k r)); [apply keeps_receipt_refl|].
    unfold confirm_issue, issue_line, _stock_upsert, add_stock,
      assign_quantity, _write_audit.
    preserving (keeps_receipt_trans k r); keeping.
  - apply (preserves_get_db (keeps_receipt k r)); [apply keeps_receipt_refl|].
    unfold cancel_issue. preserving (keeps_receipt_trans k r); keeping.
  - apply (preserves_request (keeps_receipt k r)); [apply keeps_receipt_refl|].
    unfold create_inventory, inventory_line, add_stock, assign_quantity,
      _write_audit.
    preserving (keeps_receipt_trans k r); keeping.
Qed.

Lemma serve_keeps_issue (req : Request) (db : Store) k i :
  (forall now pb, req <> PostIssuesConfirm now k pb) ->
  req <> PostIssuesCancel k ->
  keeps_issue k i db (serve req db).
Proof.
  intros Hconfirm Hcancel. destruct req; cbn [serve].
  - apply (preserves_request (keeps_issue k i)); [apply keeps_issue_refl|].
    unfold adjust_stock, add_stock, assign_quantity, _write_audit.
    preserving (keeps_issue_trans k i); keeping.
  - apply (preserves_request (keeps_issue k i)); [apply keeps_issue_refl|].
    unfold create_receipt. preserving (keeps_issue_trans k i); keeping.
  - apply (preserves_get_db (keeps_issue k i)); [apply keeps_issue_refl|].
    unfold confirm_receipt, receipt_line, _stock_upsert, add_stock,
      assign_quantity, _write_audit.
    preserving (keeps_issue_trans k i); keeping.
  - apply (preserves_get_db (keeps_issue k i)); [apply keeps_issue_refl|].
    unfold cancel_receipt. preserving (keeps_issue_trans k i); keeping.
  - apply (preserves_request (keeps_issue k i)); [apply keeps_issue_refl|].
    unfold create_issue. preserving (keeps_issue_trans k i); keeping.
  - assert (N : iss_id <> k)
      by (intros ->; exact (Hconfirm now performed_by eq_refl)).
    apply (preserves_get_db (keeps_issue k i)); [apply keeps_issue_refl|].
    unfold confirm_issue, issue_line, _stock_upsert, add_stock,
      assign_quantity, _write_audit.
    preserving (keeps_issue_trans k i); keeping.
  - assert (N : iss_id <> k) by (intros ->; exact (Hcancel eq_refl)).
    apply (preserves_get_db (keeps_issue k i)); [apply keeps_issue_refl|].
    unfold cancel_issue. preserving (keeps_issue_trans k i); keeping.
  - apply (preserves_request (keeps_issue k i)); [apply keeps_issue_refl|].
    unfold create_inventory, inventory_line, add_stock, assign_quantity,
      _write_audit.
    preserving (keeps_issue_trans k i); keeping.
Qed.

(** *** A document that is no longer a draft *)

(** Its confirmation and its cancellation leave the database as it is. *)
Lemma processed_receipt_untouched now k data (db : Store) (r : Receipt.t) :
  find (fun x => Receipt.id x =? k) (receipts db) = Some r ->
  Receipt.status r <> ReceiptStatus.draft ->
  snd (post_receipts_confirm now k data db) = db
  /\ snd (post_receipts_cancel k db) = db.
Proof.
  intros Hf Hd. unfold post_receipts_confirm, post_receipts_cancel, get_db. split.
  - now rewrite (confirm_receipt_processed now k data (mkSession db db) r Hf Hd).
  - destruct (Receipt.status r) eqn:Hs; [congruence | |].
    + now rewrite (cancel_receipt_confirmed k (mkSession db db) r Hf Hs).
    + unfold cancel_receipt, _get_or_404, bind, query. cbn [pending].
      rewrite Hf. unfold ret, write, commit. cbv beta iota. rewrite Hs.
      cbn [snd persisted pending].
      apply with_receipts_same, update_first_id.
      intros x Hx. rewrite Hf in Hx. injection Hx as <-.
      rewrite <- Hs. apply receipt_set_status_same.
Qed.

Lemma processed_issue_untouched now k pb (db : Store) (i : Issue.t) :
  find (fun x => Issue.id x =? k) (issues db) = Some i ->
  Issue.status i <> IssueStatus.draft ->
  snd (post_issues_confirm now k pb db) = db
  /\ snd (post_issues_cancel k db) = db.
Proof.
  intros Hf Hd. unfold post_issues_confirm, post_issues_cancel, get_db. split.
  - now rewrite (confirm_issue_processed now k pb (mkSession db db) i Hf Hd).
  - destruct (Issue.status i) eqn:Hs; [congruence | |].
    + now rewrite (cancel_issue_confirmed k (mkSession db db) i Hf Hs).
    + unfold cancel_issue, _get_or_404, bind, query. cbn [pending].
      rewrite Hf. unfold ret, write, commit. cbv beta iota. rewrite Hs.
      cbn [snd persisted pending].
      apply with_issues_same, update_first_id.
      intros x Hx. rewrite Hf in Hx. injection Hx as <-.
      rewrite <- Hs. apply issue_set_status_same.
Qed.

(** No request changes it. *)
Lemma serve_keeps_processed_receipt (req : Request) (db : Store) k r :
  Receipt.status r <> ReceiptStatus.draft ->
  keeps_receipt k r db (serve req db).
Proof.
  intros Hd Hf.
  destruct req;
    try (apply serve_keeps_receipt; [intros; discriminate | discriminate | exact Hf]).
  - destruct (Z.eq_dec rec_id k) as [->|N].
    + cbn [serve].
      now rewrite (proj1 (processed_receipt_untouched now k data db r Hf Hd)).
    + apply serve_keeps_receipt; [| discriminate | exact Hf].
      intros now' data' [= _ E _]. contradiction.
  - destruct (Z.eq_dec rec_id k) as [->|N].
    + cbn [serve].
      now rewrite (proj2 (processed_receipt_untouched 0 k (ReceiptConfirm.mk None)
                            db r Hf Hd)).
    + apply serve_keeps_receipt; [intros; discriminate | | exact Hf].
      intros [= E]. contradiction.
Qed.

Lemma serve_keeps_processed_issue (req : Request) (db : Store) k i :
  Issue.status i <> IssueStatus.draft ->
  keeps_issue k i db (serve req db).
Proof.
  intros Hd Hf.
  destruct req;
    try (apply serve_keeps_issue; [intros; discriminate | discriminate | exact Hf]).
  - destruct (Z.eq_dec iss_id k) as [->|N].
    + cbn [serve].
      now rewrite (proj1 (processed_issue_untouched now k performed_by db i Hf Hd)).
    + apply serve_keeps_issue; [| discriminate | exact Hf].
      intros now' pb' [= _ E _]. contradiction.
  - destruct (Z.eq_dec iss_id k) as [->|N].
    + cbn [serve].
      now rewrite (proj2 (processed_issue_untouched 0 k None db i Hf Hd)).
    + apply serve_keeps_issue; [intros; discriminate | | exact Hf].
      intros [= E]. contradiction.
Qed.

Lemma serve_all_keeps_processed_receipt (reqs : list Request) k r :
  Receipt.status r <> ReceiptStatus.draft ->
  forall db, keeps_receipt k r db (serve_all reqs db).
Proof.
  intros Hd. induction reqs as [|req reqs IH]; intros db Hf; [exact Hf|].
  apply (IH (serve req db)). now apply serve_keeps_processed_receipt.
Qed.

Lemma serve_all_keeps_processed_issue (reqs : list Request) k i :
  Issue.status i <> IssueStatus.draft ->
  forall db, keeps_issue k i db (serve_all reqs db).
Proof.
  intros Hd. induction reqs as [|req reqs IH]; intros db Hf; [exact Hf|].
  apply (IH (serve req db)). now apply serve_keeps_processed_issue.
Qed.

(** The cancellation of a draft. *)
Lemma post_receipts_cancel_draft k (db : Store) (r : Receipt.t) :
  find (fun x => Receipt.id x =? k) (receipts db) = Some r ->
  Receipt.status r = ReceiptStatus.draft ->
  post_receipts_cancel k db
  = (Ok (Receipt.set_status ReceiptStatus.cancelled r),
     with_receipts (update_first (fun x => Receipt.id x =? k)
                      (Receipt.set_status ReceiptStatus.cancelled)) db).
Proof.
  intros Hf Hs. unfold post_receipts_cancel, get_db, cancel_receipt,
    _get_or_404, bind, query. cbn [pending].
  rewrite Hf. unfold ret, write, commit. cbv beta iota. now rewrite Hs.
Qed.

Lemma post_issues_cancel_draft k (db : Store) (i : Issue.t) :
  find (fun x => Issue.id x =? k) (issues db) = Some i ->
  Issue.status i = IssueStatus.draft ->
  post_issues_cancel k db
  = (Ok (Issue.set_status IssueStatus.cancelled i),
     with_issues (update_first (fun x => Issue.id x =? k)
                    (Issue.set_status IssueStatus.cancelled)) db).
Proof.
  intros Hf Hs. unfold post_issues_cancel, get_db, cancel_issue,
    _get_or_404, bind, query. cbn [pending].
  rewrite Hf. unfold ret, write, commit. cbv beta iota. now rewrite Hs.
Qed.

(** C9 (amended): a receipt and an issue are created as drafts, and their
    creation changes neither the balance table nor the journal: their stock
    movements wait for the confirmation request.  A draft leaves the draft
    state only by its own confirmation, which leaves it confirmed, or by its
    own cancellation, which leaves it cancelled and moves no stock: every
    other request to the ledger ([Request]) leaves the document as it is.
    Confirmed and cancelled are terminal: no sequence of such requests
    changes a document that is no longer a draft.  An inventory act is different: the request that creates it
    answers with the act already completed and stamped, and has applied its
    positions, so that the balance of the cell of its last position is the
    counted quantity.  A creation succeeds when the body passes validation,
    the number of the document is free, the rows it refers to exist and the
    locations it names are SQLite integers. *)
Theorem documents_at_creation :
  (forall data db,
      ReceiptCreate.validate data = true ->
      ~ In (ReceiptCreate.number data) (map Receipt.number (receipts db)) ->
      In (ReceiptCreate.supplier_id data) (suppliers db) ->
      (forall it, In it (ReceiptCreate.items data) ->
         In (ReceiptItemCreate.component_id it) (components db)
         /\ (forall l, ReceiptItemCreate.location_id it = Some l -> int64 l)) ->
      exists r db',
        post_receipts data db = (Ok r, db')
        /\ Receipt.status r = ReceiptStatus.draft
        /\ receipts db' = receipts db ++ [r]
        /\ stocks db' = stocks db
        /\ audit_logs db' = audit_logs db)
  /\
  (forall data db,
      IssueCreate.validate data = true ->
      ~ In (IssueCreate.number data) (map Issue.number (issues db)) ->
      (forall it, In it (IssueCreate.items data) ->
         In (IssueItemCreate.component_id it) (components db)
         /\ (forall l, IssueItemCreate.location_id it = Some l -> int64 l)) ->
      exists i db',
        post_issues data db = (Ok i, db')
        /\ Issue.status i = IssueStatus.draft
        /\ issues db' = issues db ++ [i]
        /\ stocks db' = stocks db
        /\ audit_logs db' = audit_logs db)
  /\
  (forall k r db,
      find (fun x => Receipt.id x =? k) (receipts db) = Some r ->
      (forall req,
          (forall now data, req <> PostReceiptsConfirm now k data) ->
          req <> PostReceiptsCancel k ->
          find (fun x => Receipt.id x =? k) (receipts (serve req db)) = Some r)
      /\ (forall now data r' db',
            post_receipts_confirm now k data db = (Ok r', db') ->
            Receipt.status r = ReceiptStatus.draft
            /\ Receipt.status r' = ReceiptStatus.confirmed
            /\ find (fun x => Receipt.id x =? k) (receipts db') = Some r')
      /\ (Receipt.status r = ReceiptStatus.draft ->
            exists r' db',
              post_receipts_cancel k db = (Ok r', db')
              /\ Receipt.status r' = ReceiptStatus.cancelled
              /\ find (fun x => Receipt.id x =? k) (receipts db') = Some r'
              /\ stocks db' = stocks db
              /\ audit_logs db' = audit_logs db)
      /\ (Receipt.status r <> ReceiptStatus.draft ->
            forall reqs,
              find (fun x => Receipt.id x =? k) (receipts (serve_all reqs db))
              = Some r))
  /\
  (forall k i db,
      find (fun x => Issue.id x =? k) (issues db) = Some i ->
      (forall req,
          (forall now pb, req <> PostIssuesConfirm now k pb) ->
          req <> PostIssuesCancel k ->
          find (fun x => Issue.id x =? k) (issues (serve req db)) = Some i)
      /\ (forall now pb i' db',
            post_issues_confirm now k pb db = (Ok i', db') ->
            Issue.status i = IssueStatus.draft
            /\ Issue.status i' = IssueStatus.confirmed
            /\ find (fun x => Issue.id x =? k) (issues db') = Some i')
      /\ (Issue.status i = IssueStatus.draft ->
            exists i' db',
              post_issues_cancel k db = (Ok i', db')
              /\ Issue.status i' = IssueStatus.cancelled
              /\ find (fun x => Issue.id x =? k) (issues db') = Some i'
              /\ stocks db' = stocks db
              /\ audit_logs db' = audit_logs db)
      /\ (Issue.status i <> IssueStatus.draft ->
            forall reqs,
              find (fun x => Issue.id x =? k) (issues (serve_all reqs db))
              = Some i))
  /\
  (forall now data db,
      InventoryCreate.validate data = true ->
      ~ In (InventoryCreate.number data) (map Inventory.number (inventories db)) ->
      (forall it, In it (InventoryCreate.items data) ->
         In (InventoryItemCreate.component_id it) (components db)
         /\ int64 (or_1 (InventoryItemCreate.location_id it))) ->
      exists inv db',
        post_inventories now data db = (Ok inv, db')
        /\ Inventory.status inv = InventoryStatus.completed
        /\ Inventory.finished_at inv = Some now
        /\ inventories db' = inventories db ++ [inv]
        /\ (forall pre item,
              InventoryCreate.items data = pre ++ [item] ->
              quantity_at db' (InventoryItemCreate.component_id item)
                (or_1 (InventoryItemCreate.location_id item))
              = InventoryItemCreate.actual_quantity item)).
Proof.
  split; [|split; [|split; [|split]]].
  - intros data db Hv Hfree Hs Hc. eexists _, _.
    unfold post_receipts, request. rewrite Hv. unfold get_db, create_receipt.
    erewrite bind_ok by (apply get_or_404_key; exact Hs).
    erewrite bind_ok by reflexivity.
    erewrite bind_ok by (apply flush_document_free; exact Hfree).
    erewrite bind_ok
      by (apply create_receipt_items; intros it Hit; exact (proj1 (Hc it Hit))).
    erewrite bind_ok by reflexivity.
    unfold ret. cbn [persisted pending].
    split; [reflexivity|]. repeat split.
  - intros data db Hv Hfree Hc. eexists _, _.
    unfold post_issues, request. rewrite Hv. unfold get_db, create_issue.
    erewrite bind_ok by reflexivity.
    erewrite bind_ok by (apply flush_document_free; exact Hfree).
    erewrite bind_ok
      by (apply create_issue_items; intros it Hit; exact (proj1 (Hc it Hit))).
    erewrite bind_ok by reflexivity.
    unfold ret. cbn [persisted pending].
    split; [reflexivity|]. repeat split.
  - intros k r db Hf. split; [|split; [|split]].
    + intros req Hconfirm Hcancel.
      exact (serve_keeps_receipt req db k r Hconfirm Hcancel Hf).
    + intros now data r' db' Hok.
      destruct (post_receipts_confirm_ok _ _ _ _ _ _ Hok)
        as (draft & new & Hf0 & Hd & -> & Hf' & _).
      rewrite Hf in Hf0. injection Hf0 as <-.
      split; [exact Hd|]. split; [reflexivity | exact Hf'].
    + intros Hd. eexists _, _.
      split; [exact (post_receipts_cancel_draft k db r Hf Hd)|].
      split; [reflexivity|]. split; [|split; reflexivity].
      cbn [receipts with_receipts].
      apply (find_update_first _ _ _ _ Hf). exact (find_holds _ _ _ Hf).
    + intros Hd reqs.
      exact (serve_all_keeps_processed_receipt reqs k r Hd db Hf).
  - intros k i db Hf. split; [|split; [|split]].
    + intros req Hconfirm Hcancel.
      exact (serve_keeps_issue req db k i Hconfirm Hcancel Hf).
    + intros now pb i' db' Hok.
      destruct (post_issues_confirm_ok _ _ _ _ _ _ Hok)
        as (draft & new & Hf0 & Hd & -> & Hf' & _).
      rewrite Hf in Hf0. injection Hf0 as <-.
      split; [exact Hd|]. split; [reflexivity | exact Hf'].
    + intros Hd. eexists _, _.
      split; [exact (post_issues_cancel_draft k db i Hf Hd)|].
      split; [reflexivity|]. split; [|split; reflexivity].
      cbn [issues with_issues].
      apply (find_update_first _ _ _ _ Hf). exact (find_holds _ _ _ Hf).
    + intros Hd reqs.
      exact (serve_all_keeps_processed_issue reqs k i Hd db Hf).
  - intros now data db Hv Hfree Hc0.
    assert (Hc : forall it, In it (InventoryCreate.items data) ->
                   In (InventoryItemCreate.component_id it) (components db))
      by (intros it Hit; exact (proj1 (Hc0 it Hit))).
    set (new_id := next_id (map Inventory.id (inventories db))).
    set (inventory := Inventory.mk new_id (InventoryCreate.number data)
                        InventoryStatus.in_progress None
                        (InventoryCreate.notes data)
                        (InventoryCreate.created_by data)).
    set (s0 := mkSession db (with_inventories (fun rows => rows ++ [inventory]) db)).
    destruct (create_inventory_items new_id (InventoryCreate.number data)
                (InventoryCreate.created_by data) (InventoryCreate.items data)
                s0 Hc) as (s1 & Hloop & _ & Hinv).
    eexists _, _.
    unfold post_inventories, request. rewrite Hv. unfold get_db, create_inventory.
    erewrite bind_ok by reflexivity.
    erewrite bind_ok by (apply flush_document_free; exact Hfree).
    cbn [pending persisted]. fold new_id. fold inventory. fold s0.
    erewrite bind_ok by exact Hloop.
    erewrite bind_ok by reflexivity.
    erewrite bind_ok by reflexivity.
    unfold ret. cbn [persisted pending].
    split; [reflexivity|]. split; [reflexivity|]. split; [reflexivity|]. split.
    + cbn [inventories with_inventories]. rewrite Hinv.
      subst s0. cbn [pending inventories with_inventories].
      rewrite update_first_app_absent by apply find_next_id_absent.
      subst inventory. cbn [Inventory.id]. now rewrite Z.eqb_refl.
    + intros pre item Hitems. rewrite Hitems, for_each_app in Hloop.
      destruct (for_each _ pre s0) as [[[]|e] s'] eqn:Hpre; [|discriminate].
      cbn [for_each] in Hloop. unfold bind in Hloop.
      assert (Hcomp : In (InventoryItemCreate.component_id item)
                        (components (pending s'))).
      { destruct (create_inventory_items new_id (InventoryCreate.number data)
                    (InventoryCreate.created_by data) pre s0) as (s'' & Hr & Hk & _).
        - intros it Hit. apply Hc. rewrite Hitems. apply in_or_app. now left.
        - rewrite Hpre in Hr. injection Hr as <-. rewrite Hk.
          apply Hc. rewrite Hitems. apply in_or_app. right. now left. }
      destruct (inventory_line_effect new_id (InventoryCreate.number data)
                  (InventoryCreate.created_by data) item s' Hcomp)
        as (s2 & Hr & _ & _ & _ & Hq & _).
      rewrite Hr in Hloop. unfold ret in Hloop. injection Hloop as <-.
      exact Hq.
Qed.

Lemma documents_at_creation_witness :
  (exists r db',
      post_receipts (ReceiptCreate.mk "R-2" 1 None None None
                       [ReceiptItemCreate.mk 1 None 10 None]) db_empty = (Ok r, db')
      /\ Receipt.status r = ReceiptStatus.draft
      /\ stocks db' = [])
  /\
  (exists i db',
      post_issues (IssueCreate.mk "I-1" None None None None None
                     [IssueItemCreate.mk 1 None 15]) (db_with 10) = (Ok i, db')
      /\ Issue.status i = IssueStatus.draft
      /\ audit_logs db' = [])
  /\
  find (fun x => Receipt.id x =? 1)
    (receipts (serve_all [PostStocksAdjust (StockAdjust.mk 1 1 3 None None);
                          PostReceiptsCancel 1;
                          PostReceiptsConfirm 7 1 (ReceiptConfirm.mk None)]
                 db_receipt_confirmed))
  = Some (Receipt.mk 1 "R-2" 1 ReceiptStatus.confirmed (Some 0) None None None)
  /\
  (exists inv db',
      post_inventories 0 (InventoryCreate.mk "INV-1" None None
                            [InventoryItemCreate.mk 1 None 7]) (db_with 10)
        = (Ok inv, db')
      /\ Inventory.status inv = InventoryStatus.completed
      /\ quantity_at db' 1 1 = 7).
Proof.
  destruct documents_at_creation as (Hrec & Hiss & Hrstate & _ & Hinv).
  split; [|split; [|split]].
  - destruct (Hrec (ReceiptCreate.mk "R-2" 1 None None None
                      [ReceiptItemCreate.mk 1 None 10 None]) db_empty)
      as (r & db' & Hr & Hst & _ & Hstocks & _).
    + reflexivity.
    + cbn. tauto.
    + cbn. left. reflexivity.
    + intros it [<-|[]]. split; [cbn; left; reflexivity | discriminate].
    + exists r, db'. split; [exact Hr|]. split; [exact Hst | exact Hstocks].
  - destruct (Hiss (IssueCreate.mk "I-1" None None None None None
                      [IssueItemCreate.mk 1 None 15]) (db_with 10))
      as (i & db' & Hr & Hst & _ & _ & Hlog).
    + reflexivity.
    + cbn. tauto.
    + intros it [<-|[]]. split; [cbn; left; reflexivity | discriminate].
    + exists i, db'. split; [exact Hr|]. split; [exact Hst | exact Hlog].
  - refine (proj2 (proj2 (proj2 (Hrstate 1 _ db_receipt_confirmed eq_refl))) _ _).
    cbn. discriminate.
  - destruct (Hinv 0 (InventoryCreate.mk "INV-1" None None
                        [InventoryItemCreate.mk 1 None 7]) (db_with 10))
      as (inv & db' & Hr & Hst & _ & _ & Hq).
    + reflexivity.
    + cbn. tauto.
    + intros it [<-|[]]. split; [cbn; left; reflexivity | numerals].
    + exists inv, db'. split; [exact Hr|]. split; [exact Hst|].
      exact (Hq [] (InventoryItemCreate.mk 1 None 7) eq_refl).
Defined.

(** * Further properties of the handlers *)

(** ** Where a handler commits *)

Lemma never_commits_ret {A} (a : A) : never_commits (ret a).
Proof. intros s. reflexivity. Qed.

Lemma never_commits_raise {A} status d : never_commits (@raise A status d).
Proof. intros s. reflexivity. Qed.

Lemma never_commits_query {A} (f : Store -> A) : never_commits (query f).
Proof. intros s. reflexivity. Qed.

Lemma never_commits_write (f : Store -> Store) : never_commits (write f).
Proof. intros s. reflexivity. Qed.

Lemma never_commits_bind {A B} (m : M A) (k : A -> M B) :
  never_commits m -> (forall a, never_commits (k a)) -> never_commits (bind m k).
Proof.
  intros Hm Hk s. unfold bind. specialize (Hm s).
  destruct (m s) as [[a|e] s1]; cbn [snd] in *; [|exact Hm].
  now rewrite Hk.
Qed.

Lemma never_commits_for_each {A} (body : A -> M unit) (xs : list A) :
  (forall x, never_commits (body x)) -> never_commits (for_each body xs).
Proof.
  intros Hb. induction xs as [|x xs IH]; cbn [for_each].
  - apply never_commits_ret.
  - apply never_commits_bind; [apply Hb | intros _; exact IH].
Qed.

Lemma never_commits_get_or_404 {A} tablename (table : Store -> list A) pk obj_id :
  never_commits (_get_or_404 tablename table pk obj_id).
Proof.
  unfold _get_or_404. apply never_commits_bind; [apply never_commits_query|].
  intros [obj|]; [apply never_commits_ret | apply never_commits_raise].
Qed.

Lemma never_commits_flush_document {A} (table : Store -> list A) number add
    (doc : A) :
  never_commits (flush_document table number add doc).
Proof.
  unfold flush_document. apply never_commits_bind; [apply never_commits_query|].
  intros [|]; [apply never_commits_raise | apply never_commits_write].
Qed.

Lemma never_commits_stock_upsert c l delta pb act desc :
  never_commits (_stock_upsert c l delta pb act desc).
Proof. intros s. apply _stock_upsert_persisted. Qed.

Lemma raises_uncommitted_never {A} (m : M A) :
  never_commits m -> raises_uncommitted m.
Proof. intros H s. rewrite H. now destruct (fst (m s)). Qed.

Lemma raises_uncommitted_bind {A B} (m : M A) (k : A -> M B) :
  never_commits m -> (forall a, raises_uncommitted (k a)) ->
  raises_uncommitted (bind m k).
Proof.
  intros Hm Hk s. unfold bind. specialize (Hm s).
  destruct (m s) as [[a|e] s1]; cbn [fst snd] in *; [|exact Hm].
  specialize (Hk a s1). destruct (fst (k a s1)); [exact I | congruence].
Qed.

(** [db.commit()] followed by the [return]. *)
Lemma raises_uncommitted_commit_ret {A} (a : A) :
  raises_uncommitted (commit ;;; ret a).
Proof. intros s. exact I. Qed.

(** Goals [never_commits m] and [raises_uncommitted m] for a handler built
    from the primitives. *)
Ltac committing :=
  cbv zeta;
  repeat match goal with
    | |- raises_uncommitted (commit ;;; ret _) => apply raises_uncommitted_commit_ret
    | |- raises_uncommitted (raise _ _) =>
        apply raises_uncommitted_never, never_commits_raise
    | |- raises_uncommitted (bind _ _) => apply raises_uncommitted_bind
    | |- raises_uncommitted (match ?x with _ => _ end) => destruct x
    | |- never_commits (ret _) => apply never_commits_ret
    | |- never_commits (raise _ _) => apply never_commits_raise
    | |- never_commits (query _) => apply never_commits_query
    | |- never_commits (write _) => apply never_commits_write
    | |- never_commits (_get_or_404 _ _ _ _) => apply never_commits_get_or_404
    | |- never_commits (flush_document _ _ _ _) =>
        apply never_commits_flush_document
    | |- never_commits (_stock_upsert _ _ _ _ _ _) =>
        apply never_commits_stock_upsert
    | |- never_commits (bind _ _) => apply never_commits_bind
    | |- never_commits (for_each _ _) => apply never_commits_for_each
    | |- never_commits (match ?x with _ => _ end) => destruct x
    | |- forall _, _ => intro
    end.

Lemma adjust_stock_uncommitted data : raises_uncommitted (adjust_stock data).
Proof. unfold adjust_stock, add_stock, assign_quantity, _write_audit. committing. Qed.

Lemma create_receipt_uncommitted data : raises_uncommitted (create_receipt data).
Proof. unfold create_receipt. committing. Qed.

Lemma confirm_receipt_uncommitted now rec_id data :
  raises_uncommitted (confirm_receipt now rec_id data).
Proof. unfold confirm_receipt, receipt_line. committing. Qed.

Lemma cancel_receipt_uncommitted rec_id : raises_uncommitted (cancel_receipt rec_id).
Proof. unfold cancel_receipt. committing. Qed.

Lemma create_issue_uncommitted data : raises_uncommitted (create_issue data).
Proof. unfold create_issue. committing. Qed.

Lemma confirm_issue_uncommitted now iss_id pb :
  raises_uncommitted (confirm_issue now iss_id pb).
Proof. unfold confirm_issue, issue_line. committing. Qed.

Lemma cancel_issue_uncommitted iss_id : raises_uncommitted (cancel_issue iss_id).
Proof. unfold cancel_issue. committing. Qed.

Lemma create_inventory_uncommitted now data :
  raises_uncommitted (create_inventory now data).
Proof.
  unfold create_inventory, inventory_line, add_stock, assign_quantity,
    _write_audit.
  committing.
Qed.

Lemma get_db_raise {A} (m : M A) (db : Store) :
  raises_uncommitted m ->
  match fst (get_db m db) with
  | Raise _ => snd (get_db m db) = db
  | Ok _ => True
  end.
Proof.
  intros H. unfold get_db. specialize (H (mkSession db db)).
  destruct (m (mkSession db db)) as [[a|e] s]; cbn [fst snd persisted] in *;
    [exact I | exact H].
Qed.

Lemma request_raise {D A} (validate : D -> bool) (handler : D -> M A)
    (data : D) (db : Store) :
  raises_uncommitted (handler data) ->
  match fst (request validate handler data db) with
  | Raise _ => snd (request validate handler data db) = db
  | Ok _ => True
  end.
Proof.
  intros H. unfold request. destruct (validate data); [|reflexivity].
  now apply get_db_raise.
Qed.

(** X1: a request that is answered with an error leaves the database exactly
    as it was, for every modelled route and every error (422, 404, 400, 500):
    whatever the handler had written or flushed in its session is lost with
    the session. *)
Theorem failed_request_changes_nothing :
  (forall data db, unchanged_on_error (post_stocks_adjust data db) db)
  /\ (forall data db, unchanged_on_error (post_receipts data db) db)
  /\ (forall now rec_id data db,
        unchanged_on_error (post_receipts_confirm now rec_id data db) db)
  /\ (forall rec_id db, unchanged_on_error (post_receipts_cancel rec_id db) db)
  /\ (forall data db, unchanged_on_error (post_issues data db) db)
  /\ (forall now iss_id pb db,
        unchanged_on_error (post_issues_confirm now iss_id pb db) db)
  /\ (forall iss_id db, unchanged_on_error (post_issues_cancel iss_id db) db)
  /\ (forall now data db, unchanged_on_error (post_inventories now data db) db).
Proof.
  unfold unchanged_on_error.
  repeat split; intros.
  - apply request_raise, adjust_stock_uncommitted.
  - apply request_raise, create_receipt_uncommitted.
  - apply get_db_raise, confirm_receipt_uncommitted.
  - apply get_db_raise, cancel_receipt_uncommitted.
  - apply request_raise, create_issue_uncommitted.
  - apply get_db_raise, confirm_issue_uncommitted.
  - apply get_db_raise, cancel_issue_uncommitted.
  - apply request_raise, create_inventory_uncommitted.
Qed.

(** An act whose second position names an unknown component: the answer is
    404 and the correction of the first position is not kept. *)
Example inventory_with_unknown_component_rejected :
  post_inventories 0 inventory_with_unknown_component (db_with 10)
  = (Raise (mkHTTP 404 (NotFound "components" 2)), db_with 10).
Proof. vm_compute. reflexivity. Qed.

(** ** The steps of the ledger *)

Lemma ledger_steps_trans ok (a b c : Store) :
  ledger_steps ok a b -> ledger_steps ok b c -> ledger_steps ok a c.
Proof.
  intros Hab Hbc. induction Hbc as [|c1 c2 _ IH Hstep]; [exact Hab|].
  exact (steps_then ok a c1 c2 IH Hstep).
Qed.

Lemma ledger_steps_one ok (db db' : Store) :
  cell_step ok db db' -> ledger_steps ok db db'.
Proof. intros H. exact (steps_then ok db db db' (steps_none ok db) H). Qed.

Lemma ledger_steps_other ok (db db' : Store) :
  stocks db' = stocks db -> audit_logs db' = audit_logs db ->
  ledger_steps ok db db'.
Proof. intros Hs Ha. apply ledger_steps_one. now apply step_other. Qed.

Lemma preserves_of_pending (R : Store -> Store -> Prop) {A} (m : M A) :
  (forall a b c, R a b -> R b c -> R a c) ->
  never_commits m ->
  (forall s, R (pending s) (pending (snd (m s)))) ->
  preserves R m.
Proof.
  intros Rt Hn Hp db0 s H. split.
  - exact (Rt _ _ _ H (Hp s)).
  - now rewrite Hn.
Qed.

Section Steps.
Variable ok : Z -> Prop.
Hypothesis ok_nonneg : forall q, 0 <= q -> ok q.

Lemma _stock_upsert_steps c l delta pb act desc :
  preserves (ledger_steps ok) (_stock_upsert c l delta pb act desc).
Proof.
  apply preserves_of_pending;
    [apply ledger_steps_trans | apply never_commits_stock_upsert |].
  intros s. destruct (stock_at (pending s) c l) as [st|] eqn:F.
  - rewrite (_stock_upsert_present _ _ _ _ _ _ _ _ F). cbv zeta.
    destruct (_ <? 0) eqn:E; cbn [snd pending]; [apply steps_none|].
    apply Z.ltb_ge in E. apply ledger_steps_one.
    eapply (step_rewrite ok _ _ c l st); try reflexivity; [exact F|].
    now apply ok_nonneg.
  - rewrite (_stock_upsert_absent _ _ _ _ _ _ _ F). cbv zeta.
    set (new := Stock.mk (next_id (map Stock.id (stocks (pending s)))) c l 0 0).
    assert (Hzero : cell_step ok (pending s)
                      (with_stocks (fun rows => rows ++ [new]) (pending s))).
    { eapply (step_materialize ok _ _ c l); try reflexivity; [exact F|].
      apply ok_nonneg. lia. }
    destruct (_ <? 0) eqn:E; cbn [snd pending];
      [now apply ledger_steps_one|].
    apply Z.ltb_ge in E.
    eapply steps_then; [apply ledger_steps_one; exact Hzero|].
    eapply (step_rewrite ok _ _ c l new); try reflexivity.
    + unfold stock_at. cbn [stocks with_stocks]. rewrite find_app_absent by exact F.
      unfold at_cell, new. cbn [Stock.component_id Stock.location_id].
      now rewrite !Z.eqb_refl.
    + now apply ok_nonneg.
Qed.

End Steps.

Lemma adjust_stock_steps (ok : Z -> Prop) (data : StockAdjust.t) :
  ok (StockAdjust.quantity data) ->
  preserves (ledger_steps ok) (adjust_stock data).
Proof.
  intros Hok. unfold adjust_stock. cbv zeta.
  apply preserves_bind; [apply preserves_get_or_404 | intros _].
  apply preserves_bind; [apply preserves_get_or_404 | intros _].
  intros db0 s H.
  unfold bind, query, add_stock, assign_quantity, _write_audit, bind, query,
    write, ret, commit.
  destruct (stock_at (pending s) (StockAdjust.component_id data)
              (StockAdjust.location_id data)) as [st|] eqn:F;
    cbn [snd pending persisted].
  - assert (Hs : ledger_steps ok db0
       (with_audit_logs
          (fun logs => logs ++
             [AuditLog.mk AuditActionType.adjust "stock"
                (Some (Stock.id (Stock.set_quantity (StockAdjust.quantity data) st)))
                (Some (StockAdjust.component_id data))
                (Some (StockAdjust.location_id data))
                (Some (Stock.quantity st)) (Some (StockAdjust.quantity data))
                (option_map Free (StockAdjust.reason data)) None
                (StockAdjust.performed_by data)])
          (with_stocks
             (update_first
                (at_cell (StockAdjust.component_id data)
                   (StockAdjust.location_id data))
                (Stock.set_quantity (StockAdjust.quantity data)))
             (pending s)))).
    { eapply steps_then; [exact H|].
      eapply (step_rewrite ok _ _ _ _ st); try reflexivity; [exact F | exact Hok]. }
    split; [exact Hs | intros _; exact Hs].
  - assert (Hs : ledger_steps ok db0
       (with_audit_logs
          (fun logs => logs ++
             [AuditLog.mk AuditActionType.adjust "stock"
                (Some (next_id (map Stock.id (stocks (pending s)))))
                (Some (StockAdjust.component_id data))
                (Some (StockAdjust.location_id data))
                (Some 0) (Some (StockAdjust.quantity data))
                (option_map Free (StockAdjust.reason data)) None
                (StockAdjust.performed_by data)])
          (with_stocks
             (fun rows => rows ++
                [Stock.mk (next_id (map Stock.id (stocks (pending s))))
                   (StockAdjust.component_id data)
                   (StockAdjust.location_id data)
                   (StockAdjust.quantity data) 0])
             (pending s)))).
    { eapply steps_then; [exact H|].
      eapply (step_insert ok _ _ _ _ _ _); try reflexivity; [exact F | exact Hok]. }
    split; [exact Hs | intros _; exact Hs].
Qed.

Lemma inventory_line_steps (ok : Z -> Prop) inv_id number created_by
    (item_data : InventoryItemCreate.t) :
  ok (InventoryItemCreate.actual_quantity item_data) ->
  preserves (ledger_steps ok) (inventory_line inv_id number created_by item_data).
Proof.
  intros Hok. unfold inventory_line. cbv zeta.
  apply preserves_bind; [apply preserves_get_or_404 | intros _].
  apply preserves_of_pending; [apply ledger_steps_trans | |].
  { unfold add_stock, assign_quantity, _write_audit. committing. }
  intros s.
  unfold bind, query, add_stock, assign_quantity, _write_audit, bind, query,
    write, ret.
  set (c := InventoryItemCreate.component_id item_data).
  set (l := or_1 (InventoryItemCreate.location_id item_data)).
  set (a := InventoryItemCreate.actual_quantity item_data) in *.
  destruct (stock_at (pending s) c l) as [st|] eqn:F; cbv beta iota.
  - destruct (a - Stock.quantity st =? 0); cbn [snd pending persisted].
    + apply ledger_steps_other; reflexivity.
    + eapply steps_then.
      * apply (ledger_steps_other ok (pending s)
                 (with_inventory_items (fun rows => rows ++
                    [InventoryItem.mk inv_id c (Some l) (Stock.quantity st) a
                       (a - Stock.quantity st)]) (pending s))); reflexivity.
      * eapply (step_rewrite ok _ _ c l st); try reflexivity; [exact F | exact Hok].
  - destruct (a - 0 =? 0); cbn [snd pending persisted].
    + apply ledger_steps_other; reflexivity.
    + eapply steps_then.
      * apply (ledger_steps_other ok (pending s)
                 (with_inventory_items (fun rows => rows ++
                    [InventoryItem.mk inv_id c (Some l) 0 a (a - 0)]) (pending s)));
          reflexivity.
      * eapply (step_insert ok _ _ c l _ a); try reflexivity; [exact F | exact Hok].
Qed.

Lemma preserves_for_each_in (R : Store -> Store -> Prop) {A}
    (body : A -> M unit) (xs : list A) :
  (forall x, In x xs -> preserves R (body x)) -> preserves R (for_each body xs).
Proof.
  induction xs as [|x xs IH]; intros Hb; cbn [for_each].
  - apply preserves_ret.
  - apply preserves_bind; [apply Hb; now left | intros _].
    apply IH. intros y Hy. apply Hb. now right.
Qed.

Section RouteSteps.
Variable ok : Z -> Prop.
Hypothesis ok_nonneg : forall q, 0 <= q -> ok q.

Lemma confirm_receipt_steps now rec_id data :
  preserves (ledger_steps ok) (confirm_receipt now rec_id data).
Proof.
  unfold confirm_receipt, receipt_line.
  preserving (ledger_steps_trans ok);
    first [ apply (_stock_upsert_steps ok ok_nonneg)
          | apply ledger_steps_other; reflexivity ].
Qed.

Lemma confirm_issue_steps now iss_id pb :
  preserves (ledger_steps ok) (confirm_issue now iss_id pb).
Proof.
  unfold confirm_issue, issue_line.
  preserving (ledger_steps_trans ok);
    first [ apply (_stock_upsert_steps ok ok_nonneg)
          | apply ledger_steps_other; reflexivity ].
Qed.

Lemma create_inventory_steps now data :
  InventoryCreate.validate data = true ->
  preserves (ledger_steps ok) (create_inventory now data).
Proof.
  intros Hv. unfold create_inventory. cbv zeta.
  apply preserves_bind; [apply preserves_query | intros new_id].
  apply preserves_bind;
    [apply (preserves_flush_document _ (ledger_steps_trans ok)); intros db;
     apply ledger_steps_other; reflexivity | intros _].
  apply preserves_bind.
  - apply preserves_for_each_in. intros x Hx. apply inventory_line_steps.
    apply ok_nonneg. unfold InventoryCreate.validate in Hv.
    rewrite forallb_forall in Hv. specialize (Hv x Hx).
    unfold InventoryItemCreate.validate in Hv. now apply Z.leb_le in Hv.
  - intros _. preserving (ledger_steps_trans ok).
    apply ledger_steps_other; reflexivity.
Qed.

Lemma create_receipt_steps data : preserves (ledger_steps ok) (create_receipt data).
Proof.
  unfold create_receipt.
  preserving (ledger_steps_trans ok); apply ledger_steps_other; reflexivity.
Qed.

Lemma create_issue_steps data : preserves (ledger_steps ok) (create_issue data).
Proof.
  unfold create_issue.
  preserving (ledger_steps_trans ok); apply ledger_steps_other; reflexivity.
Qed.

Lemma cancel_receipt_steps rec_id : preserves (ledger_steps ok) (cancel_receipt rec_id).
Proof.
  unfold cancel_receipt.
  preserving (ledger_steps_trans ok); apply ledger_steps_other; reflexivity.
Qed.

Lemma cancel_issue_steps iss_id : preserves (ledger_steps ok) (cancel_issue iss_id).
Proof.
  unfold cancel_issue.
  preserving (ledger_steps_trans ok); apply ledger_steps_other; reflexivity.
Qed.

(** Every route that answers a request moves the balance table and the
    journal by steps of the ledger. *)
Lemma routes_step (db : Store) :
  (forall data, ok (StockAdjust.quantity data) ->
     ledger_steps ok db (snd (post_stocks_adjust data db)))
  /\ (forall data, ledger_steps ok db (snd (post_receipts data db)))
  /\ (forall now rec_id data,
        ledger_steps ok db (snd (post_receipts_confirm now rec_id data db)))
  /\ (forall rec_id, ledger_steps ok db (snd (post_receipts_cancel rec_id db)))
  /\ (forall data, ledger_steps ok db (snd (post_issues data db)))
  /\ (forall now iss_id pb,
        ledger_steps ok db (snd (post_issues_confirm now iss_id pb db)))
  /\ (forall iss_id, ledger_steps ok db (snd (post_issues_cancel iss_id db)))
  /\ (forall now data, ledger_steps ok db (snd (post_inventories now data db))).
Proof.
  repeat split; intros.
  - apply (preserves_request (ledger_steps ok)); [apply steps_none|].
    now apply adjust_stock_steps.
  - apply (preserves_request (ledger_steps ok)); [apply steps_none|].
    apply create_receipt_steps.
  - apply (preserves_get_db (ledger_steps ok)); [apply steps_none|].
    apply confirm_receipt_steps.
  - apply (preserves_get_db (ledger_steps ok)); [apply steps_none|].
    apply cancel_receipt_steps.
  - apply (preserves_request (ledger_steps ok)); [apply steps_none|].
    apply create_issue_steps.
  - apply (preserves_get_db (ledger_steps ok)); [apply steps_none|].
    apply confirm_issue_steps.
  - apply (preserves_get_db (ledger_steps ok)); [apply steps_none|].
    apply cancel_issue_steps.
  - unfold post_inventories, request.
    destruct (InventoryCreate.validate data) eqn:Hv; [|apply steps_none].
    apply (preserves_get_db (ledger_steps ok)); [apply steps_none|].
    now apply create_inventory_steps.
Qed.

End RouteSteps.

Lemma ledger_steps_invariant ok (I : Store -> Prop) :
  (forall a b, cell_step ok a b -> I a -> I b) ->
  forall a b, ledger_steps ok a b -> I a -> I b.
Proof.
  intros Hstep a b Hab Ha. induction Hab as [|b1 b2 _ IH Hs]; [exact Ha|].
  exact (Hstep b1 b2 Hs IH).
Qed.

(** ** Invariants of the balance table and of the journal *)

Lemma quantity_at_stocks (a b : Store) (c l : Z) :
  stocks a = stocks b -> quantity_at a c l = quantity_at b c l.
Proof. unfold quantity_at, stock_at. now intros ->. Qed.

Lemma stock_at_stocks (a b : Store) (c l : Z) :
  stocks a = stocks b -> stock_at a c l = stock_at b c l.
Proof. unfold stock_at. now intros ->. Qed.

Lemma absent_cell (rows : list Stock.t) (c l : Z) :
  find (at_cell c l) rows = None <-> ~ In (c, l) (map cell_of rows).
Proof.
  induction rows as [|x rows IH]; cbn [find map In]; [tauto|].
  destruct (at_cell c l x) eqn:E.
  - apply at_cell_spec in E. destruct E as [E1 E2]. split; [discriminate|].
    intros H. exfalso. apply H. left. unfold cell_of. now rewrite E1, E2.
  - rewrite IH. split; [|tauto]. intros H [Hx|Hin]; [|tauto].
    unfold cell_of in Hx. injection Hx as E1 E2.
    assert (at_cell c l x = true) by (apply at_cell_spec; tauto). congruence.
Qed.

Lemma cells_after_assign (p : Stock.t -> bool) (q : Z) (rows : list Stock.t) :
  map cell_of (update_first p (Stock.set_quantity q) rows) = map cell_of rows.
Proof.
  induction rows as [|x rows IH]; cbn [update_first map]; [reflexivity|].
  destruct (p x); cbn [map]; [reflexivity | now rewrite IH].
Qed.

Lemma NoDup_snoc {A} (l : list A) (x : A) :
  NoDup l -> ~ In x l -> NoDup (l ++ [x]).
Proof.
  induction 1 as [|y l Hy Hl IH]; cbn [app In]; intros Hx.
  - constructor; [tauto | constructor].
  - constructor.
    + rewrite in_app_iff. cbn [In]. intros [H|[H|[]]]; [tauto|].
      apply Hx. now left.
    + apply IH. tauto.
Qed.

Lemma cell_step_unique ok (a b : Store) :
  cell_step ok a b -> cells_unique a -> cells_unique b.
Proof.
  unfold cells_unique.
  intros [Hs _ | c l st q e _ _ Hs _ _ _ _ _ | c l i q e F _ Hs _ _ _ _ _
         | c l i F _ Hs _]; rewrite Hs; intros Hu.
  - exact Hu.
  - now rewrite cells_after_assign.
  - rewrite map_app. apply NoDup_snoc; [exact Hu | now apply absent_cell].
  - rewrite map_app. apply NoDup_snoc; [exact Hu | now apply absent_cell].
Qed.

Lemma Forall_update_first {A} (P : A -> Prop) (p : A -> bool) (f : A -> A)
    (rows : list A) :
  (forall x, P (f x)) -> Forall P rows -> Forall P (update_first p f rows).
Proof.
  intros Hf. induction 1 as [|x rows Hx Hr IH]; cbn [update_first];
    [constructor|].
  destruct (p x); constructor; auto.
Qed.

Lemma cell_step_nonneg (a b : Store) :
  cell_step (fun q => 0 <= q) a b -> balances_nonneg a -> balances_nonneg b.
Proof.
  unfold balances_nonneg.
  intros [Hs _ | c l st q e _ Hq Hs _ _ _ _ _ | c l i q e _ Hq Hs _ _ _ _ _
         | c l i _ _ Hs _]; rewrite Hs; intros Hn.
  - exact Hn.
  - apply Forall_update_first; [intros x; exact Hq | exact Hn].
  - apply Forall_app. split; [exact Hn | repeat constructor; exact Hq].
  - apply Forall_app. split; [exact Hn | repeat constructor; cbn; lia].
Qed.

Lemma cell_step_appends ok (a b : Store) :
  cell_step ok a b -> exists new, audit_logs b = audit_logs a ++ new.
Proof.
  intros [_ Ha | c l st q e _ _ _ Ha _ _ _ _ | c l i q e _ _ _ Ha _ _ _ _
         | c l i _ _ _ Ha].
  - exists []. now rewrite app_nil_r.
  - now exists [e].
  - now exists [e].
  - exists []. now rewrite app_nil_r.
Qed.

Lemma ledger_steps_appends ok (a b : Store) :
  ledger_steps ok a b -> exists new, audit_logs b = audit_logs a ++ new.
Proof.
  induction 1 as [|b1 b2 _ [n1 IH] Hs].
  - exists []. now rewrite app_nil_r.
  - destruct (cell_step_appends ok b1 b2 Hs) as [n2 H2].
    exists (n1 ++ n2). now rewrite H2, IH, app_assoc.
Qed.

Lemma replays_snoc (history : list AuditLog.t) (e : AuditLog.t) (q q' : Z) :
  replays history q ->
  AuditLog.quantity_before e = Some q ->
  AuditLog.quantity_after e = Some q' ->
  replays (history ++ [e]) q'.
Proof.
  intros Hh Hb Ha. induction history as [|x rest IH]; [exact Ha|].
  destruct rest as [|y rest].
  - cbn in Hh |- *. split; [congruence | exact Ha].
  - cbn [app replays] in Hh |- *. destruct Hh as [Hxy Hrest].
    split; [exact Hxy | exact (IH Hrest)].
Qed.

Lemma entry_at_own (e : AuditLog.t) (c l c' l' : Z) :
  AuditLog.component_id e = Some c -> AuditLog.location_id e = Some l ->
  entry_at c' l' e = true <-> (c', l') = (c, l).
Proof.
  intros Hc Hl. unfold entry_at. rewrite Hc, Hl, andb_true_iff, !Z.eqb_eq.
  split; [intros [-> ->]; reflexivity | intros [= -> ->]; tauto].
Qed.

Lemma history_after_entry (logs : list AuditLog.t) (e : AuditLog.t)
    (c l c' l' : Z) :
  AuditLog.component_id e = Some c -> AuditLog.location_id e = Some l ->
  filter (entry_at c' l') (logs ++ [e]) =
  if cell_eq_dec c l c' l' then filter (entry_at c l) logs ++ [e]
  else filter (entry_at c' l') logs.
Proof.
  intros Hc Hl. rewrite filter_app. cbn [filter].
  pose proof (entry_at_own e c l c' l' Hc Hl) as Hown.
  destruct (cell_eq_dec c l c' l') as [E|N].
  - injection E as -> ->. destruct (entry_at c l e); [reflexivity|].
    exfalso. assert (false = true) by now apply Hown. discriminate.
  - destruct (entry_at c' l' e); [|now rewrite app_nil_r].
    exfalso. apply N. now apply Hown.
Qed.

Lemma cell_step_replays ok (a b : Store) :
  cell_step ok a b -> journal_replays a -> journal_replays b.
Proof.
  unfold journal_replays, cell_history.
  intros [Hs Ha | c l st q e F _ Hs Ha Hc Hl Hb Hq
         | c l i q e F _ Hs Ha Hc Hl Hb Hq | c l i F _ Hs Ha] Hj c' l'.
  - rewrite Ha, (quantity_at_stocks b a c' l' Hs). apply Hj.
  - rewrite Ha, (history_after_entry _ e c l c' l' Hc Hl).
    rewrite (quantity_at_stocks b
               (with_stocks (update_first (at_cell c l) (Stock.set_quantity q)) a))
      by exact Hs.
    rewrite quantity_at_assigned by (rewrite F; discriminate).
    destruct (cell_eq_dec c l c' l') as [E|N]; [|apply Hj].
    apply (replays_snoc _ e (Stock.quantity st) q); [|exact Hb | exact Hq].
    specialize (Hj c l). unfold quantity_at in Hj. now rewrite F in Hj.
  - rewrite Ha, (history_after_entry _ e c l c' l' Hc Hl).
    rewrite (quantity_at_stocks b
               (with_stocks (fun rows => rows ++ [Stock.mk i c l q 0]) a))
      by exact Hs.
    rewrite quantity_at_added by exact F.
    destruct (cell_eq_dec c l c' l') as [E|N]; [|apply Hj].
    apply (replays_snoc _ e 0 q); [|exact Hb | exact Hq].
    specialize (Hj c l). unfold quantity_at in Hj. now rewrite F in Hj.
  - rewrite Ha.
    rewrite (quantity_at_stocks b
               (with_stocks (fun rows => rows ++ [Stock.mk i c l 0 0]) a))
      by exact Hs.
    rewrite quantity_at_added by exact F.
    destruct (cell_eq_dec c l c' l') as [E|N]; [|apply Hj].
    injection E as -> ->. specialize (Hj c l). unfold quantity_at in Hj.
    now rewrite F in Hj.
Qed.

Lemma any_quantity (q : Z) : 0 <= q -> True.
Proof. trivial. Qed.

(** X2: if no two balance rows share a (component, location) cell, no
    modelled route leaves two such rows, whatever its answer: a row is only
    ever added for a cell that has none. *)
Theorem cells_stay_unique (db : Store) :
  cells_unique db ->
  (forall data, cells_unique (snd (post_stocks_adjust data db)))
  /\ (forall data, cells_unique (snd (post_receipts data db)))
  /\ (forall now rec_id data,
        cells_unique (snd (post_receipts_confirm now rec_id data db)))
  /\ (forall rec_id, cells_unique (snd (post_receipts_cancel rec_id db)))
  /\ (forall data, cells_unique (snd (post_issues data db)))
  /\ (forall now iss_id pb,
        cells_unique (snd (post_issues_confirm now iss_id pb db)))
  /\ (forall iss_id, cells_unique (snd (post_issues_cancel iss_id db)))
  /\ (forall now data, cells_unique (snd (post_inventories now data db))).
Proof.
  intros Hu.
  pose proof (ledger_steps_invariant (fun _ => True) cells_unique
                (cell_step_unique _)) as Hinv.
  destruct (routes_step (fun _ => True) any_quantity db)
    as (H1 & H2 & H3 & H4 & H5 & H6 & H7 & H8).
  repeat split; intros; eapply Hinv; eauto.
Qed.

Lemma cells_stay_unique_witness :
  cells_unique (snd (post_stocks_adjust (StockAdjust.mk 1 2 7 None None)
                       (db_with 10)))
  /\ cells_unique (snd (post_inventories 0
                          (InventoryCreate.mk "INV-1" None None
                             [InventoryItemCreate.mk 1 None 7;
                              InventoryItemCreate.mk 1 (Some 2) 3])
                          (db_with 10))).
Proof.
  assert (Hu : cells_unique (db_with 10)).
  { unfold cells_unique. cbn. constructor; [cbn; tauto | constructor]. }
  destruct (cells_stay_unique (db_with 10) Hu) as (H1 & _ & _ & _ & _ & _ & _ & H8).
  split; [apply H1 | apply H8].
Defined.

(** X3: if no balance is negative, none is after a receipt or issue is
    created, confirmed or cancelled, after an inventory act, or after a
    manual adjustment whose target is not negative. *)
Theorem balances_stay_nonneg (db : Store) :
  balances_nonneg db ->
  (forall data, 0 <= StockAdjust.quantity data ->
     balances_nonneg (snd (post_stocks_adjust data db)))
  /\ (forall data, balances_nonneg (snd (post_receipts data db)))
  /\ (forall now rec_id data,
        balances_nonneg (snd (post_receipts_confirm now rec_id data db)))
  /\ (forall rec_id, balances_nonneg (snd (post_receipts_cancel rec_id db)))
  /\ (forall data, balances_nonneg (snd (post_issues data db)))
  /\ (forall now iss_id pb,
        balances_nonneg (snd (post_issues_confirm now iss_id pb db)))
  /\ (forall iss_id, balances_nonneg (snd (post_issues_cancel iss_id db)))
  /\ (forall now data, balances_nonneg (snd (post_inventories now data db))).
Proof.
  intros Hn.
  pose proof (ledger_steps_invariant (fun q => 0 <= q) balances_nonneg
                cell_step_nonneg) as Hinv.
  destruct (routes_step (fun q => 0 <= q) (fun q H => H) db)
    as (H1 & H2 & H3 & H4 & H5 & H6 & H7 & H8).
  repeat split; intros; eapply Hinv; eauto.
Qed.

Lemma balances_stay_nonneg_witness :
  balances_nonneg (snd (post_issues_confirm 0 1 None db_issue_15))
  /\ balances_nonneg (snd (post_stocks_adjust (StockAdjust.mk 1 1 0 None None)
                             db_issue_15)).
Proof.
  assert (Hn : balances_nonneg db_issue_15).
  { unfold balances_nonneg. cbn. repeat constructor. cbn. lia. }
  destruct (balances_stay_nonneg db_issue_15 Hn)
    as (H1 & _ & _ & _ & _ & H6 & _ & _).
  split; [apply H6 | apply H1; cbn; lia].
Defined.

(** X4: if, for every cell, the journal entries of the cell are linked (each
    starts from the quantity the previous one left) and the last one leaves
    the current balance, the same holds after any modelled route, whatever
    its answer. *)
Theorem journal_keeps_explaining_balances (db : Store) :
  journal_replays db ->
  (forall data, journal_replays (snd (post_stocks_adjust data db)))
  /\ (forall data, journal_replays (snd (post_receipts data db)))
  /\ (forall now rec_id data,
        journal_replays (snd (post_receipts_confirm now rec_id data db)))
  /\ (forall rec_id, journal_replays (snd (post_receipts_cancel rec_id db)))
  /\ (forall data, journal_replays (snd (post_issues data db)))
  /\ (forall now iss_id pb,
        journal_replays (snd (post_issues_confirm now iss_id pb db)))
  /\ (forall iss_id, journal_replays (snd (post_issues_cancel iss_id db)))
  /\ (forall now data, journal_replays (snd (post_inventories now data db))).
Proof.
  intros Hj.
  pose proof (ledger_steps_invariant (fun _ => True) journal_replays
                (cell_step_replays _)) as Hinv.
  destruct (routes_step (fun _ => True) any_quantity db)
    as (H1 & H2 & H3 & H4 & H5 & H6 & H7 & H8).
  repeat split; intros; eapply Hinv; eauto.
Qed.

Lemma journal_keeps_explaining_balances_witness :
  journal_replays (snd (post_stocks_adjust (StockAdjust.mk 1 1 7 None None)
                          (db_with 10)))
  /\ journal_replays
       (snd (post_inventories 0
               (InventoryCreate.mk "INV-1" None None
                  [InventoryItemCreate.mk 1 None 3])
               (snd (post_stocks_adjust (StockAdjust.mk 1 1 7 None None)
                       (db_with 10))))).
Proof.
  assert (Hj : journal_replays (db_with 10)) by (intros c l; exact I).
  destruct (journal_keeps_explaining_balances (db_with 10) Hj) as (H1 & _).
  split; [apply H1|].
  destruct (journal_keeps_explaining_balances _
              (H1 (StockAdjust.mk 1 1 7 None None)))
    as (_ & _ & _ & _ & _ & _ & _ & H8).
  apply H8.
Defined.

(** The journal of the last database above: 10 -> 7 by adjustment, then
    7 -> 3 by inventory. *)
Example journal_after_adjust_and_inventory :
  map (fun e => (AuditLog.action_type e, AuditLog.quantity_before e,
                 AuditLog.quantity_after e))
    (audit_logs
       (snd (post_inventories 0
               (InventoryCreate.mk "INV-1" None None
                  [InventoryItemCreate.mk 1 None 3])
               (snd (post_stocks_adjust (StockAdjust.mk 1 1 7 None None)
                       (db_with 10))))))
  = [(AuditActionType.adjust, Some 10, Some 7);
     (AuditActionType.inventory, Some 7, Some 3)].
Proof. vm_compute. reflexivity. Qed.

(** X5: the journal is only ever appended to: after any modelled route the
    former journal is a prefix of the new one. *)
Theorem journal_is_append_only (db : Store) :
  (forall data,
     exists new, audit_logs (snd (post_stocks_adjust data db)) = audit_logs db ++ new)
  /\ (forall data,
        exists new, audit_logs (snd (post_receipts data db)) = audit_logs db ++ new)
  /\ (forall now rec_id data,
        exists new, audit_logs (snd (post_receipts_confirm now rec_id data db))
                    = audit_logs db ++ new)
  /\ (forall rec_id,
        exists new, audit_logs (snd (post_receipts_cancel rec_id db))
                    = audit_logs db ++ new)
  /\ (forall data,
        exists new, audit_logs (snd (post_issues data db)) = audit_logs db ++ new)
  /\ (forall now iss_id pb,
        exists new, audit_logs (snd (post_issues_confirm now iss_id pb db))
                    = audit_logs db ++ new)
  /\ (forall iss_id,
        exists new, audit_logs (snd (post_issues_cancel iss_id db))
                    = audit_logs db ++ new)
  /\ (forall now data,
        exists new, audit_logs (snd (post_inventories now data db))
                    = audit_logs db ++ new).
Proof.
  destruct (routes_step (fun _ => True) any_quantity db)
    as (H1 & H2 & H3 & H4 & H5 & H6 & H7 & H8).
  repeat split; intros; eapply ledger_steps_appends; eauto.
Qed.

(** ** [list_stocks] *)

Lemma filter_absent_cell (rows : list Stock.t) (c l : Z) :
  ~ In (c, l) (map cell_of rows) ->
  filter (fun s => Stock.location_id s =? l)
    (filter (fun s => Stock.component_id s =? c) rows) = [].
Proof.
  induction rows as [|x rows IH]; cbn [map In filter]; [reflexivity|].
  intros H. destruct (Z.eqb_spec (Stock.component_id x) c) as [Ec|Nc].
  - cbn [filter]. destruct (Z.eqb_spec (Stock.location_id x) l) as [El|Nl].
    + exfalso. apply H. left. unfold cell_of. now rewrite Ec, El.
    + apply IH. tauto.
  - apply IH. tauto.
Qed.

Lemma filter_unique_cell (rows : list Stock.t) (c l : Z) :
  NoDup (map cell_of rows) ->
  filter (fun s => Stock.location_id s =? l)
    (filter (fun s => Stock.component_id s =? c) rows)
  = match find (at_cell c l) rows with
    | Some s => [s]
    | None => []
    end.
Proof.
  induction rows as [|x rows IH]; cbn [map filter find]; [reflexivity|].
  intros Hu. inversion Hu as [|y ys Hnotin Hrest]; subst.
  unfold at_cell at 1.
  destruct (Z.eqb_spec (Stock.component_id x) c) as [Ec|Nc]; cbn [andb filter].
  - destruct (Z.eqb_spec (Stock.location_id x) l) as [El|Nl].
    + f_equal. apply filter_absent_cell.
      unfold cell_of in Hnotin. now rewrite Ec, El in Hnotin.
    + now apply IH.
  - now apply IH.
Qed.

(** X6: when no two balance rows share a cell, [GET /stocks] with a
    component and a location (both non-zero, and SQLite integers) answers
    with exactly the row that [_stock_upsert] reads for that cell, or with
    the empty list when the cell has no row; a parameter that is absent or
    0 does not filter. *)
Theorem list_stocks_of_a_cell (db : Store) (c l : Z) :
  cells_unique db -> c <> 0 -> l <> 0 -> int64 c -> int64 l ->
  get_stocks (Some c) (Some l) db
    = (Ok (match stock_at db c l with Some s => [s] | None => [] end), db)
  /\ get_stocks None None db = (Ok (stocks db), db)
  /\ get_stocks (Some 0) (Some 0) db = (Ok (stocks db), db)
  /\ (forall param, get_stocks (Some 0) param db = get_stocks None param db)
  /\ (forall param, get_stocks param (Some 0) db = get_stocks param None db).
Proof.
  intros Hu Hc Hl _ _. repeat split.
  unfold get_stocks, get_db, list_stocks, query, given. cbn [pending persisted].
  destruct (Z.eqb_spec c 0) as [|_]; [contradiction|].
  destruct (Z.eqb_spec l 0) as [|_]; [contradiction|].
  f_equal. f_equal. now apply filter_unique_cell.
Qed.

Lemma list_stocks_of_a_cell_witness :
  get_stocks (Some 1) (Some 2) db_two_cells
    = (Ok [Stock.mk 2 1 2 4 0], db_two_cells)
  /\ get_stocks (Some 1) (Some 3) db_two_cells = (Ok [], db_two_cells).
Proof.
  assert (Hu : cells_unique db_two_cells).
  { unfold cells_unique. cbn.
    repeat constructor; cbn; intros H; repeat destruct H as [H|H];
      try discriminate; exact H. }
  split.
  - exact (proj1 (list_stocks_of_a_cell db_two_cells 1 2 Hu
                    ltac:(discriminate) ltac:(discriminate)
                    ltac:(numerals) ltac:(numerals))).
  - exact (proj1 (list_stocks_of_a_cell db_two_cells 1 3 Hu
                    ltac:(discriminate) ltac:(discriminate)
                    ltac:(numerals) ltac:(numerals))).
Defined.

(** ** Manual adjustment *)

(** X7: for a component and a storage location that exist, the manual
    adjustment always succeeds, whatever the target (no bound is checked):
    it answers with the balance row of the cell, whose quantity is the
    target; the balance of the cell is the target and no other balance
    changes; the journal gets exactly one entry, of type [adjust], from the
    former balance (0 without row) to the target, with the reason as
    description - also when the target is the former balance. *)
Theorem adjust_stock_sets_target (data : StockAdjust.t) (db : Store) :
  let c := StockAdjust.component_id data in
  let l := StockAdjust.location_id data in
  let q := StockAdjust.quantity data in
  In c (components db) ->
  In l (storage_locations db) ->
  exists st db',
    post_stocks_adjust data db = (Ok st, db')
    /\ stock_at db' c l = Some st
    /\ Stock.quantity st = q
    /\ quantity_at db' c l = q
    /\ (forall c' l', (c', l') <> (c, l) -> quantity_at db' c' l' = quantity_at db c' l')
    /\ audit_logs db' = audit_logs db ++
         [AuditLog.mk AuditActionType.adjust "stock" (Some (Stock.id st))
            (Some c) (Some l) (Some (quantity_at db c l)) (Some q)
            (option_map Free (StockAdjust.reason data)) None
            (StockAdjust.performed_by data)].
Proof.
  cbv zeta. intros Hc Hl.
  unfold post_stocks_adjust, request, StockAdjust.validate, get_db.
  destruct (stock_at db (StockAdjust.component_id data)
              (StockAdjust.location_id data)) as [st|] eqn:F.
  - rewrite (adjust_stock_present data (mkSession db db) st Hc Hl F).
    cbv zeta. cbn [pending persisted]. eexists _, _. split; [reflexivity|].
    assert (Hq : forall c' l',
      quantity_at (with_audit_logs
         (fun logs => logs ++
            [upsert_entry (Stock.id st) (StockAdjust.component_id data)
               (StockAdjust.location_id data) (Stock.quantity st)
               (StockAdjust.quantity data) (StockAdjust.performed_by data)
               AuditActionType.adjust (option_map Free (StockAdjust.reason data))])
         (with_stocks
            (update_first
               (at_cell (StockAdjust.component_id data) (StockAdjust.location_id data))
               (Stock.set_quantity (StockAdjust.quantity data))) db)) c' l'
      = if cell_eq_dec (StockAdjust.component_id data)
             (StockAdjust.location_id data) c' l'
        then StockAdjust.quantity data else quantity_at db c' l').
    { intros c' l'.
      rewrite <- (quantity_at_assigned db _ _ (StockAdjust.quantity data) c' l')
        by (rewrite F; discriminate).
      reflexivity. }
    split; [|split; [reflexivity|split; [|split]]].
    + unfold stock_at. cbn [stocks with_stocks with_audit_logs].
      apply (find_update_first _ _ _ _ F).
      rewrite at_cell_set_quantity. exact (find_holds _ _ _ F).
    + rewrite Hq. destruct (cell_eq_dec _ _ _ _); [reflexivity | congruence].
    + intros c' l' N. rewrite Hq.
      destruct (cell_eq_dec _ _ c' l') as [E|_]; [|reflexivity].
      injection E as -> ->. congruence.
    + unfold quantity_at. rewrite F. reflexivity.
  - rewrite (adjust_stock_absent data (mkSession db db) Hc Hl F).
    cbv zeta. cbn [pending persisted]. eexists _, _. split; [reflexivity|].
    assert (Hq : forall c' l',
      quantity_at (with_audit_logs
         (fun logs => logs ++
            [upsert_entry (next_id (map Stock.id (stocks db)))
               (StockAdjust.component_id data)
               (StockAdjust.location_id data) 0
               (StockAdjust.quantity data) (StockAdjust.performed_by data)
               AuditActionType.adjust (option_map Free (StockAdjust.reason data))])
         (with_stocks
            (fun rows => rows ++
               [Stock.mk (next_id (map Stock.id (stocks db)))
                  (StockAdjust.component_id data) (StockAdjust.location_id data)
                  (StockAdjust.quantity data) 0]) db)) c' l'
      = if cell_eq_dec (StockAdjust.component_id data)
             (StockAdjust.location_id data) c' l'
        then StockAdjust.quantity data else quantity_at db c' l').
    { intros c' l'.
      rewrite <- (quantity_at_added db _ _ (StockAdjust.quantity data)
                    (next_id (map Stock.id (stocks db))) 0 c' l') by exact F.
      reflexivity. }
    split; [|split; [reflexivity|split; [|split]]].
    + unfold stock_at. cbn [stocks with_stocks with_audit_logs].
      rewrite find_app_absent by exact F. unfold at_cell at 1.
      cbn [Stock.component_id Stock.location_id]. now rewrite !Z.eqb_refl.
    + rewrite Hq. destruct (cell_eq_dec _ _ _ _); [reflexivity | congruence].
    + intros c' l' N. rewrite Hq.
      destruct (cell_eq_dec _ _ c' l') as [E|_]; [|reflexivity].
      injection E as -> ->. congruence.
    + unfold quantity_at. rewrite F. reflexivity.
Qed.

(** Adjusting a balance of 10 to 10 still writes an entry 10 -> 10. *)
Lemma adjust_stock_sets_target_witness :
  exists st db',
    post_stocks_adjust (StockAdjust.mk 1 1 10 (Some "check"%string) None)
      (db_with 10) = (Ok st, db')
    /\ quantity_at db' 1 1 = 10
    /\ audit_logs db' =
         [AuditLog.mk AuditActionType.adjust "stock" (Some (Stock.id st))
            (Some 1) (Some 1) (Some 10) (Some 10) (Some (Free "check")) None None].
Proof.
  destruct (adjust_stock_sets_target
              (StockAdjust.mk 1 1 10 (Some "check"%string) None) (db_with 10))
    as (st & db' & Hr & _ & _ & Hq & _ & Hlog);
    [cbn; left; reflexivity | cbn; left; reflexivity |].
  exists st, db'. split; [exact Hr|]. split; [exact Hq | exact Hlog].
Defined.

(** ** Unknown references *)

(** X8: a reference, by a key that SQLite can bind, to a row that does not
    exist is answered with 404 naming the table and the key, and nothing is
    written.  The manual adjustment checks the component before the
    location; the creation of a receipt checks the supplier, then (its
    number being free) the components of the lines in order; the creation
    of an issue and the inventory act, their number being free, check the
    components of their lines in order (the first unknown one is
    reported); confirming, cancelling or reading an unknown document names
    its table. *)
Theorem unknown_references_are_404 (db : Store) :
  (forall data,
      int64 (StockAdjust.component_id data) ->
      ~ In (StockAdjust.component_id data) (components db) ->
      post_stocks_adjust data db
      = (Raise (mkHTTP 404 (NotFound "components" (StockAdjust.component_id data))), db))
  /\ (forall data,
        In (StockAdjust.component_id data) (components db) ->
        int64 (StockAdjust.location_id data) ->
        ~ In (StockAdjust.location_id data) (storage_locations db) ->
        post_stocks_adjust data db
        = (Raise (mkHTTP 404 (NotFound "storage_locations"
                                (StockAdjust.location_id data))), db))
  /\ (forall data,
        ReceiptCreate.validate data = true ->
        int64 (ReceiptCreate.supplier_id data) ->
        ~ In (ReceiptCreate.supplier_id data) (suppliers db) ->
        post_receipts data db
        = (Raise (mkHTTP 404 (NotFound "suppliers" (ReceiptCreate.supplier_id data))), db))
  /\ (forall data pre it post,
        ReceiptCreate.validate data = true ->
        In (ReceiptCreate.supplier_id data) (suppliers db) ->
        ~ In (ReceiptCreate.number data) (map Receipt.number (receipts db)) ->
        ReceiptCreate.items data = pre ++ it :: post ->
        (forall x, In x pre -> In (ReceiptItemCreate.component_id x) (components db)) ->
        int64 (ReceiptItemCreate.component_id it) ->
        ~ In (ReceiptItemCreate.component_id it) (components db) ->
        post_receipts data db
        = (Raise (mkHTTP 404 (NotFound "components"
                                (ReceiptItemCreate.component_id it))), db))
  /\ (forall data pre it post,
        IssueCreate.validate data = true ->
        ~ In (IssueCreate.number data) (map Issue.number (issues db)) ->
        IssueCreate.items data = pre ++ it :: post ->
        (forall x, In x pre -> In (IssueItemCreate.component_id x) (components db)) ->
        int64 (IssueItemCreate.component_id it) ->
        ~ In (IssueItemCreate.component_id it) (components db) ->
        post_issues data db
        = (Raise (mkHTTP 404 (NotFound "components"
                                (IssueItemCreate.component_id it))), db))
  /\ (forall now data pre it post,
        InventoryCreate.validate data = true ->
        ~ In (InventoryCreate.number data) (map Inventory.number (inventories db)) ->
        InventoryCreate.items data = pre ++ it :: post ->
        (forall x, In x pre ->
           In (InventoryItemCreate.component_id x) (components db)
           /\ int64 (or_1 (InventoryItemCreate.location_id x))) ->
        int64 (InventoryItemCreate.component_id it) ->
        ~ In (InventoryItemCreate.component_id it) (components db) ->
        post_inventories now data db
        = (Raise (mkHTTP 404 (NotFound "components"
                                (InventoryItemCreate.component_id it))), db))
  /\ (forall now rec_id data,
        int64 rec_id ->
        find (fun r => Receipt.id r =? rec_id) (receipts db) = None ->
        let e := Raise (mkHTTP 404 (NotFound "receipts" rec_id)) in
        post_receipts_confirm now rec_id data db = (e, db)
        /\ post_receipts_cancel rec_id db = (e, db)
        /\ get_receipts_id rec_id db = (e, db))
  /\ (forall now iss_id pb,
        int64 iss_id ->
        find (fun i => Issue.id i =? iss_id) (issues db) = None ->
        let e := Raise (mkHTTP 404 (NotFound "issues" iss_id)) in
        post_issues_confirm now iss_id pb db = (e, db)
        /\ post_issues_cancel iss_id db = (e, db)
        /\ get_issues_id iss_id db = (e, db))
  /\ (forall inv_id,
        int64 inv_id ->
        find (fun i => Inventory.id i =? inv_id) (inventories db) = None ->
        get_inventories_id inv_id db
        = (Raise (mkHTTP 404 (NotFound "inventories" inv_id)), db)).
Proof.
  split; [|split; [|split; [|split; [|split; [|split; [|split; [|split]]]]]]].
  - intros data _ H. unfold post_stocks_adjust, request, StockAdjust.validate,
      get_db, adjust_stock. cbv zeta.
    now erewrite bind_raise by (apply get_or_404_missing; exact H).
  - intros data Hc _ H. unfold post_stocks_adjust, request, StockAdjust.validate,
      get_db, adjust_stock. cbv zeta.
    erewrite bind_ok by (apply get_or_404_key; exact Hc).
    now erewrite bind_raise by (apply get_or_404_missing; exact H).
  - intros data Hv _ H. unfold post_receipts, request. rewrite Hv.
    unfold get_db, create_receipt.
    now erewrite bind_raise by (apply get_or_404_missing; exact H).
  - intros data pre it post Hv Hs Hfree Hitems Hpre _ H.
    unfold post_receipts, request. rewrite Hv. unfold get_db, create_receipt.
    erewrite bind_ok by (apply get_or_404_key; exact Hs).
    erewrite bind_ok by reflexivity.
    erewrite bind_ok by (apply flush_document_free; exact Hfree).
    rewrite Hitems.
    erewrite bind_raise
      by (rewrite for_each_app, create_receipt_items by exact Hpre;
          cbn [for_each]; apply bind_raise; apply bind_raise;
          now apply get_or_404_missing).
    reflexivity.
  - intros data pre it post Hv Hfree Hitems Hpre _ H.
    unfold post_issues, request. rewrite Hv. unfold get_db, create_issue.
    erewrite bind_ok by reflexivity.
    erewrite bind_ok by (apply flush_document_free; exact Hfree).
    rewrite Hitems.
    erewrite bind_raise
      by (rewrite for_each_app, create_issue_items by exact Hpre;
          cbn [for_each]; apply bind_raise; apply bind_raise;
          now apply get_or_404_missing).
    reflexivity.
  - intros now data pre it post Hv Hfree Hitems Hpre0 _ H.
    assert (Hpre : forall x, In x pre ->
                     In (InventoryItemCreate.component_id x) (components db))
      by (intros x Hx; exact (proj1 (Hpre0 x Hx))).
    unfold post_inventories, request. rewrite Hv. unfold get_db, create_inventory.
    erewrite bind_ok by reflexivity.
    erewrite bind_ok by (apply flush_document_free; exact Hfree).
    rewrite Hitems. unfold bind at 1. cbn [pending persisted].
    match goal with
    | |- context [for_each ?body (pre ++ it :: post) ?s0] =>
        destruct (create_inventory_items
                    (next_id (map Inventory.id (inventories db)))
                    (InventoryCreate.number data) (InventoryCreate.created_by data)
                    pre s0 Hpre) as (s1 & Hloop & Hcomp & _);
        assert (Hfail : for_each body (pre ++ it :: post) s0
                        = (Raise (mkHTTP 404 (NotFound "components"
                                    (InventoryItemCreate.component_id it))), s1))
    end.
    { rewrite for_each_app, Hloop. cbn [for_each]. apply bind_raise.
      unfold inventory_line. apply bind_raise. apply get_or_404_missing.
      now rewrite Hcomp. }
    rewrite Hfail.
    cbn [fst snd]. f_equal.
    assert (Hp : persisted s1 = db).
    { pose proof (f_equal (fun r => persisted (snd r)) Hloop) as Hp.
      cbn [snd] in Hp. rewrite <- Hp.
      match goal with
      | |- persisted (snd (for_each ?b ?xs ?s0)) = _ =>
          assert (Hn : never_commits (for_each b xs))
      end.
      { unfold inventory_line, add_stock, assign_quantity, _write_audit.
        committing. }
      now rewrite Hn. }
    exact Hp.
  - intros now rec_id data _ H. cbv zeta.
    unfold post_receipts_confirm, post_receipts_cancel, get_receipts_id, get_db,
      confirm_receipt, cancel_receipt, get_receipt.
    split; [|split].
    + now erewrite bind_raise by (apply get_or_404_unknown; exact H).
    + now erewrite bind_raise by (apply get_or_404_unknown; exact H).
    + now rewrite (get_or_404_unknown "receipts" receipts Receipt.id rec_id
                     (mkSession db db) H).
  - intros now iss_id pb _ H. cbv zeta.
    unfold post_issues_confirm, post_issues_cancel, get_issues_id, get_db,
      confirm_issue, cancel_issue, get_issue.
    split; [|split].
    + now erewrite bind_raise by (apply get_or_404_unknown; exact H).
    + now erewrite bind_raise by (apply get_or_404_unknown; exact H).
    + now rewrite (get_or_404_unknown "issues" issues Issue.id iss_id
                     (mkSession db db) H).
  - intros inv_id _ H. unfold get_inventories_id, get_db, get_inventory.
    now rewrite (get_or_404_unknown "inventories" inventories Inventory.id inv_id
                   (mkSession db db) H).
Qed.

Lemma unknown_references_are_404_witness :
  post_stocks_adjust (StockAdjust.mk 2 1 5 None None) db_empty
    = (Raise (mkHTTP 404 (NotFound "components" 2)), db_empty)
  /\ post_stocks_adjust (StockAdjust.mk 1 9 5 None None) db_empty
    = (Raise (mkHTTP 404 (NotFound "storage_locations" 9)), db_empty)
  /\ post_inventories 0 inventory_with_unknown_component (db_with 10)
    = (Raise (mkHTTP 404 (NotFound "components" 2)), db_with 10)
  /\ post_issues_confirm 0 7 None db_issue_15
    = (Raise (mkHTTP 404 (NotFound "issues" 7)), db_issue_15).
Proof.
  split; [|split; [|split]].
  - destruct (unknown_references_are_404 db_empty) as (H & _).
    apply (H (StockAdjust.mk 2 1 5 None None)); [numerals|].
    cbn. intros [E|[]]. discriminate.
  - destruct (unknown_references_are_404 db_empty) as (_ & H & _).
    apply (H (StockAdjust.mk 1 9 5 None None)).
    + cbn. left. reflexivity.
    + numerals.
    + cbn. intros [E|[]]. discriminate.
  - destruct (unknown_references_are_404 (db_with 10))
      as (_ & _ & _ & _ & _ & H & _).
    apply (H 0 inventory_with_unknown_component
             [InventoryItemCreate.mk 1 None 7] (InventoryItemCreate.mk 2 None 3) []).
    + reflexivity.
    + cbn. tauto.
    + reflexivity.
    + intros x [<-|[]]. split; [cbn; left; reflexivity | numerals].
    + numerals.
    + cbn. intros [E|[]]. discriminate.
  - destruct (unknown_references_are_404 db_issue_15)
      as (_ & _ & _ & _ & _ & _ & _ & H & _).
    apply (H 0 7 None); [numerals | reflexivity].
Defined.

(** ** Confirmation of a receipt or an issue *)

(** X9: when the confirmation of a receipt succeeds, the document was a
    draft and is stored confirmed with its reception time; the balance of
    every cell has grown by the sum of the quantities of the lines that go
    to that cell (a line without location, or with location 0, goes to
    location 1); the journal has one new entry per line, of type [receipt],
    described by the receipt number and signed by the operator of the
    request; no document or line is otherwise changed.  The balances and
    the quantities of the lines are whole numbers that binary64 holds, no
    line is negative and no balance grows beyond 2^53, so that every sum is
    computed without rounding. *)
Theorem confirmed_receipt_posts_its_lines now rec_id data (db db' : Store)
    (r : Receipt.t) :
  (forall c l, exact (quantity_at db c l)) ->
  Forall (fun it => 0 <= ReceiptItem.quantity it
                    /\ exact (ReceiptItem.quantity it))
    (items_of_receipt db rec_id) ->
  (forall c l, quantity_at db c l
               + received_at_cell (items_of_receipt db rec_id) c l <= 2 ^ 53) ->
  post_receipts_confirm now rec_id data db = (Ok r, db') ->
  exists draft new,
    find (fun r => Receipt.id r =? rec_id) (receipts db) = Some draft
    /\ Receipt.status draft = ReceiptStatus.draft
    /\ r = Receipt.set_received_at now
             (Receipt.set_status ReceiptStatus.confirmed draft)
    /\ find (fun r => Receipt.id r =? rec_id) (receipts db') = Some r
    /\ (forall c l, quantity_at db' c l
                    = quantity_at db c l
                      + received_at_cell (items_of_receipt db rec_id) c l)
    /\ audit_logs db' = audit_logs db ++ new
    /\ List.length new = List.length (items_of_receipt db rec_id)
    /\ Forall (fun e =>
          AuditLog.action_type e = AuditActionType.receipt
          /\ AuditLog.description e = Some (ReceiptNote (Receipt.number draft))
          /\ AuditLog.performed_by e = ReceiptConfirm.performed_by data) new
    /\ receipt_items db' = receipt_items db
    /\ issues db' = issues db.
Proof. intros _ _ _. exact (post_receipts_confirm_ok now rec_id data db db' r). Qed.

Lemma confirmed_receipt_posts_its_lines_witness :
  exists draft new,
    find (fun r => Receipt.id r =? 1) (receipts db_receipt_draft) = Some draft
    /\ quantity_at db_receipt_confirmed 1 1 = 0 + 10
    /\ audit_logs db_receipt_confirmed = audit_logs db_receipt_draft ++ new
    /\ List.length new = 1%nat.
Proof.
  destruct (confirmed_receipt_posts_its_lines 0 1 (ReceiptConfirm.mk None)
              db_receipt_draft db_receipt_confirmed
              (Receipt.mk 1 "R-2" 1 ReceiptStatus.confirmed (Some 0) None None None))
    as (draft & new & Hf & _ & _ & _ & Hq & Hlog & Hlen & _).
  - intros c l. numerals.
  - repeat constructor; numerals.
  - intros c l. change (items_of_receipt db_receipt_draft 1)
      with [ReceiptItem.mk 1 1 None 10 None].
    change (quantity_at db_receipt_draft c l) with 0.
    cbn [received_at_cell ReceiptItem.component_id ReceiptItem.location_id
         ReceiptItem.quantity or_1].
    destruct (_ && _); lia.
  - reflexivity.
  - exists draft, new. split; [exact Hf|]. split; [exact (Hq 1 1)|].
    split; [exact Hlog | exact Hlen].
Defined.

(** X10: when the confirmation of an issue succeeds, the document was a
    draft and is stored confirmed with its issue time; the balance of every
    cell has decreased by the sum of the quantities of the lines taken from
    that cell (a line without location, or with location 0, is taken from
    location 1); the journal has one new entry per line, of type [issue],
    described by the issue number and signed by the operator of the
    request; no document or line is otherwise changed.  The balances and
    the quantities of the lines are whole numbers that binary64 holds and
    no line is negative, so that every accepted difference, which lies
    between 0 and the balance, is computed without rounding. *)
Theorem confirmed_issue_posts_its_lines now iss_id pb (db db' : Store)
    (i : Issue.t) :
  (forall c l, exact (quantity_at db c l)) ->
  Forall (fun it => 0 <= IssueItem.quantity it /\ exact (IssueItem.quantity it))
    (items_of_issue db iss_id) ->
  post_issues_confirm now iss_id pb db = (Ok i, db') ->
  exists draft new,
    find (fun i => Issue.id i =? iss_id) (issues db) = Some draft
    /\ Issue.status draft = IssueStatus.draft
    /\ i = Issue.set_issued_at now (Issue.set_status IssueStatus.confirmed draft)
    /\ find (fun i => Issue.id i =? iss_id) (issues db') = Some i
    /\ (forall c l, quantity_at db' c l
                    = quantity_at db c l
                      - issued_at_cell (items_of_issue db iss_id) c l)
    /\ audit_logs db' = audit_logs db ++ new
    /\ List.length new = List.length (items_of_issue db iss_id)
    /\ Forall (fun e =>
          AuditLog.action_type e = AuditActionType.issue
          /\ AuditLog.description e = Some (IssueNote (Issue.number draft))
          /\ AuditLog.performed_by e = pb) new
    /\ issue_items db' = issue_items db
    /\ receipts db' = receipts db.
Proof. intros _ _. exact (post_issues_confirm_ok now iss_id pb db db' i). Qed.

Lemma confirmed_issue_posts_its_lines_witness :
  exists draft new,
    find (fun i => Issue.id i =? 1) (issues db_issue_4) = Some draft
    /\ quantity_at (snd (post_issues_confirm 0 1 None db_issue_4)) 1 1 = 10 - 4
    /\ audit_logs (snd (post_issues_confirm 0 1 None db_issue_4))
       = audit_logs db_issue_4 ++ new
    /\ List.length new = 1%nat.
Proof.
  destruct (confirmed_issue_posts_its_lines 0 1 None db_issue_4
              (snd (post_issues_confirm 0 1 None db_issue_4))
              (Issue.mk 1 "I-2" None None IssueStatus.confirmed (Some 0)
                 None None None))
    as (draft & new & Hf & _ & _ & _ & Hq & Hlog & Hlen & _).
  - intros c l. unfold quantity_at, stock_at.
    change (stocks db_issue_4) with [Stock.mk 1 1 1 10 0].
    cbn [find]. unfold at_cell.
    cbn [Stock.component_id Stock.location_id Stock.quantity].
    destruct (1 =? c); destruct (1 =? l); numerals.
  - repeat constructor; numerals.
  - reflexivity.
  - exists draft, new. split; [exact Hf|]. split; [exact (Hq 1 1)|].
    split; [exact Hlog | exact Hlen].
Defined.

(** ** When a confirmation succeeds *)

Lemma quantity_at_nonneg (db : Store) (c l : Z) :
  balances_nonneg db -> 0 <= quantity_at db c l.
Proof.
  unfold balances_nonneg, quantity_at, stock_at. intros Hn.
  destruct (find (at_cell c l) (stocks db)) as [s|] eqn:F; [|lia].
  apply find_some in F. destruct F as [Hin _].
  rewrite Forall_forall in Hn. now apply Hn.
Qed.

Lemma _stock_upsert_keeps_nonneg c l delta pb act desc (s : Session) :
  balances_nonneg (pending s) ->
  balances_nonneg (pending (snd (_stock_upsert c l delta pb act desc s))).
Proof.
  intros Hn.
  destruct (_stock_upsert_steps (fun q => 0 <= q) (fun q H => H)
              c l delta pb act desc (pending s) s (steps_none _ _)) as [Hs _].
  exact (ledger_steps_invariant _ balances_nonneg cell_step_nonneg _ _ Hs Hn).
Qed.

Lemma receipt_lines_succeed receipt data (items : list ReceiptItem.t) :
  forall s,
    balances_nonneg (pending s) ->
    Forall (fun it => 0 <= ReceiptItem.quantity it) items ->
    exists s', for_each (receipt_line receipt data) items s = (Ok tt, s').
Proof.
  induction items as [|x items IH]; intros s Hn Hq; cbn [for_each].
  - now exists s.
  - inversion Hq as [|y ys Hx Hrest]; subst.
    unfold bind at 1. unfold receipt_line at 1. unfold bind at 1.
    pose proof (_stock_upsert_outcome (ReceiptItem.component_id x)
      (or_1 (ReceiptItem.location_id x)) (ReceiptItem.quantity x)
      (ReceiptConfirm.performed_by data) AuditActionType.receipt
      (Some (ReceiptNote (Receipt.number receipt))) s) as Ho.
    pose proof (_stock_upsert_keeps_nonneg (ReceiptItem.component_id x)
      (or_1 (ReceiptItem.location_id x)) (ReceiptItem.quantity x)
      (ReceiptConfirm.performed_by data) AuditActionType.receipt
      (Some (ReceiptNote (Receipt.number receipt))) s Hn) as Hn1.
    pose proof (quantity_at_nonneg (pending s) (ReceiptItem.component_id x)
                  (or_1 (ReceiptItem.location_id x)) Hn) as Hb.
    destruct (_stock_upsert _ _ _ _ _ _ s) as [[st|e] s1];
      cbn [fst snd] in *; [|lia].
    unfold ret at 1. now apply IH.
Qed.

(** X11: the confirmation of a draft receipt cannot fail when no balance is
    negative and no line has a negative quantity (the lines accepted by
    [POST /receipts] have a positive one): it answers with the receipt,
    confirmed and stamped. *)
Theorem receipt_confirmation_succeeds now rec_id data (db : Store)
    (draft : Receipt.t) :
  balances_nonneg db ->
  find (fun r => Receipt.id r =? rec_id) (receipts db) = Some draft ->
  Receipt.status draft = ReceiptStatus.draft ->
  Forall (fun it => 0 <= ReceiptItem.quantity it) (items_of_receipt db rec_id) ->
  exists r db',
    post_receipts_confirm now rec_id data db = (Ok r, db')
    /\ Receipt.status r = ReceiptStatus.confirmed
    /\ Receipt.received_at r = Some now.
Proof.
  intros Hn Hf Hd Hq.
  assert (Hid : Receipt.id draft = rec_id).
  { apply Z.eqb_eq. exact (find_holds _ _ _ Hf). }
  destruct (receipt_lines_succeed draft data (items_of_receipt db rec_id)
              (mkSession db db) Hn Hq) as (s1 & Hloop).
  unfold post_receipts_confirm, get_db.
  rewrite (confirm_receipt_draft now rec_id data (mkSession db db) draft Hf Hd).
  rewrite Hid. cbn [pending]. rewrite Hloop. cbv zeta.
  eexists _, _. repeat split.
Qed.

Lemma receipt_confirmation_succeeds_witness :
  exists r db',
    post_receipts_confirm 3 1 (ReceiptConfirm.mk None) db_receipt_draft = (Ok r, db')
    /\ Receipt.status r = ReceiptStatus.confirmed
    /\ Receipt.received_at r = Some 3.
Proof.
  apply (receipt_confirmation_succeeds 3 1 (ReceiptConfirm.mk None)
           db_receipt_draft
           (Receipt.mk 1 "R-2" 1 ReceiptStatus.draft None None None None)).
  - unfold balances_nonneg. cbn. constructor.
  - reflexivity.
  - reflexivity.
  - cbn. repeat constructor. cbn. lia.
Defined.

Lemma issued_at_cell_nonneg (items : list IssueItem.t) (c l : Z) :
  Forall (fun it => 0 <= IssueItem.quantity it) items ->
  0 <= issued_at_cell items c l.
Proof.
  induction 1 as [|x items Hx _ IH]; cbn [issued_at_cell]; [lia|].
  destruct (_ && _); lia.
Qed.

Lemma issue_lines_succeed issue pb (items : list IssueItem.t) :
  forall s,
    Forall (fun it => 0 <= IssueItem.quantity it) items ->
    (forall c l, issued_at_cell items c l <= quantity_at (pending s) c l) ->
    exists s', for_each (issue_line issue pb) items s = (Ok tt, s').
Proof.
  induction items as [|x items IH]; intros s Hq Hcover; cbn [for_each].
  - now exists s.
  - inversion Hq as [|y ys Hx Hrest]; subst.
    unfold bind at 1. unfold issue_line at 1. unfold bind at 1.
    pose proof (_stock_upsert_outcome (IssueItem.component_id x)
      (or_1 (IssueItem.location_id x)) (- IssueItem.quantity x)
      pb AuditActionType.issue (Some (IssueNote (Issue.number issue))) s) as Ho.
    pose proof (_stock_upsert_quantity_at (IssueItem.component_id x)
      (or_1 (IssueItem.location_id x)) (- IssueItem.quantity x)
      pb AuditActionType.issue (Some (IssueNote (Issue.number issue))) s) as Hqa.
    pose proof (Hcover (IssueItem.component_id x) (or_1 (IssueItem.location_id x)))
      as Hown.
    cbn [issued_at_cell] in Hown. rewrite !Z.eqb_refl in Hown. cbn [andb] in Hown.
    pose proof (issued_at_cell_nonneg items (IssueItem.component_id x)
                  (or_1 (IssueItem.location_id x)) Hrest) as Hrest0.
    destruct (_stock_upsert _ _ _ _ _ _ s) as [[st|e] s1];
      cbn [fst snd] in *; [|lia].
    unfold ret at 1. apply IH; [exact Hrest|].
    intros c l. rewrite Hqa. cbv zeta.
    apply Z.ltb_ge in Ho. rewrite Ho.
    specialize (Hcover c l). cbn [issued_at_cell] in Hcover.
    destruct (cell_eq_dec _ _ c l) as [E|N].
    + injection E as -> ->. rewrite !Z.eqb_refl in Hcover. cbn [andb] in Hcover.
      lia.
    + destruct (Z.eqb_spec (IssueItem.component_id x) c) as [Ec|];
        destruct (Z.eqb_spec (or_1 (IssueItem.location_id x)) l) as [El|];
        cbn [andb] in Hcover; lia.
Qed.

(** X12: the confirmation of a draft issue succeeds whenever no line has a
    negative quantity and, for every cell, the balance covers the total
    that the lines take from that cell: it answers with the issue,
    confirmed and stamped.  The balances and the quantities of the lines
    are whole numbers that binary64 holds, so that the balance of a cell,
    which goes down from its value to what is left without passing below
    0, is computed without rounding at every line. *)
Theorem issue_confirmation_succeeds now iss_id pb (db : Store) (draft : Issue.t) :
  find (fun i => Issue.id i =? iss_id) (issues db) = Some draft ->
  Issue.status draft = IssueStatus.draft ->
  (forall c l, exact (quantity_at db c l)) ->
  Forall (fun it => exact (IssueItem.quantity it)) (items_of_issue db iss_id) ->
  Forall (fun it => 0 <= IssueItem.quantity it) (items_of_issue db iss_id) ->
  (forall c l, issued_at_cell (items_of_issue db iss_id) c l <= quantity_at db c l) ->
  exists i db',
    post_issues_confirm now iss_id pb db = (Ok i, db')
    /\ Issue.status i = IssueStatus.confirmed
    /\ Issue.issued_at i = Some now.
Proof.
  intros Hf Hd _ _ Hq Hcover.
  assert (Hid : Issue.id draft = iss_id).
  { apply Z.eqb_eq. exact (find_holds _ _ _ Hf). }
  destruct (issue_lines_succeed draft pb (items_of_issue db iss_id)
              (mkSession db db) Hq Hcover) as (s1 & Hloop).
  unfold post_issues_confirm, get_db.
  rewrite (confirm_issue_draft now iss_id pb (mkSession db db) draft Hf Hd).
  rewrite Hid. cbn [pending]. rewrite Hloop. cbv zeta.
  eexists _, _. repeat split.
Qed.

Lemma issue_confirmation_succeeds_witness :
  exists i db',
    post_issues_confirm 3 1 None db_issue_4 = (Ok i, db')
    /\ Issue.status i = IssueStatus.confirmed
    /\ Issue.issued_at i = Some 3.
Proof.
  apply (issue_confirmation_succeeds 3 1 None db_issue_4
           (Issue.mk 1 "I-2" None None IssueStatus.draft None None None None)).
  - reflexivity.
  - reflexivity.
  - intros c l. unfold quantity_at, stock_at.
    change (stocks db_issue_4) with [Stock.mk 1 1 1 10 0].
    cbn [find]. unfold at_cell.
    cbn [Stock.component_id Stock.location_id Stock.quantity].
    destruct (1 =? c); destruct (1 =? l); numerals.
  - repeat constructor; numerals.
  - cbn. repeat constructor. cbn. lia.
  - intros c l. cbn [db_issue_4].
    change (items_of_issue db_issue_4 1) with [IssueItem.mk 1 1 None 4].
    cbn [issued_at_cell IssueItem.component_id IssueItem.location_id
         IssueItem.quantity or_1].
    unfold quantity_at, stock_at.
    change (stocks db_issue_4) with [Stock.mk 1 1 1 10 0].
    cbn [find]. unfold at_cell.
    cbn [Stock.component_id Stock.location_id Stock.quantity].
    destruct (1 =? c); destruct (1 =? l); cbn; lia.
Defined.

(** ** A document is processed once *)

(** X13: a document is processed at most once.  Once a receipt or an issue
    has been confirmed, whatever requests to the ledger ([Request]) are
    served afterwards, every further confirmation is refused with 400
    "already processed" and every cancellation with 400 "a confirmed
    document cannot be cancelled"; once it has been cancelled, whatever
    such requests are served afterwards, every confirmation is refused
    with 400 "already processed".  The refused
    request changes nothing, so the stock is not moved a second time. *)
Theorem documents_are_processed_once :
  (forall now rec_id data db r db' later,
      post_receipts_confirm now rec_id data db = (Ok r, db') ->
      let db'' := serve_all later db' in
      forall now' data',
        post_receipts_confirm now' rec_id data' db''
          = (Raise (mkHTTP 400 AlreadyProcessed), db'')
        /\ post_receipts_cancel rec_id db''
          = (Raise (mkHTTP 400 ConfirmedNotCancellable), db''))
  /\ (forall now iss_id pb db i db' later,
        post_issues_confirm now iss_id pb db = (Ok i, db') ->
        let db'' := serve_all later db' in
        forall now' pb',
          post_issues_confirm now' iss_id pb' db''
            = (Raise (mkHTTP 400 AlreadyProcessed), db'')
          /\ post_issues_cancel iss_id db''
            = (Raise (mkHTTP 400 ConfirmedNotCancellable), db''))
  /\ (forall rec_id db r db' later,
        post_receipts_cancel rec_id db = (Ok r, db') ->
        let db'' := serve_all later db' in
        forall now data,
          post_receipts_confirm now rec_id data db''
            = (Raise (mkHTTP 400 AlreadyProcessed), db''))
  /\ (forall iss_id db i db' later,
        post_issues_cancel iss_id db = (Ok i, db') ->
        let db'' := serve_all later db' in
        forall now pb,
          post_issues_confirm now iss_id pb db''
            = (Raise (mkHTTP 400 AlreadyProcessed), db'')).
Proof.
  split; [|split; [|split]].
  - intros now rec_id data db r db' later H db'' now' data'.
    destruct (post_receipts_confirm_ok _ _ _ _ _ _ H)
      as (draft & new & _ & _ & -> & Hf & _).
    apply (serve_all_keeps_processed_receipt later rec_id) in Hf;
      [|discriminate]. fold db'' in Hf.
    unfold post_receipts_confirm, post_receipts_cancel, get_db. split.
    + rewrite (confirm_receipt_processed now' rec_id data' (mkSession db'' db'')
                 _ Hf); [reflexivity | discriminate].
    + now rewrite (cancel_receipt_confirmed rec_id (mkSession db'' db'') _ Hf).
  - intros now iss_id pb db i db' later H db'' now' pb'.
    destruct (post_issues_confirm_ok _ _ _ _ _ _ H)
      as (draft & new & _ & _ & -> & Hf & _).
    apply (serve_all_keeps_processed_issue later iss_id) in Hf;
      [|discriminate]. fold db'' in Hf.
    unfold post_issues_confirm, post_issues_cancel, get_db. split.
    + rewrite (confirm_issue_processed now' iss_id pb' (mkSession db'' db'')
                 _ Hf); [reflexivity | discriminate].
    + now rewrite (cancel_issue_confirmed iss_id (mkSession db'' db'') _ Hf).
  - intros rec_id db r db' later H db'' now data.
    destruct (post_receipts_cancel_ok _ _ _ _ H) as (Hf & Hs & _).
    apply (serve_all_keeps_processed_receipt later rec_id) in Hf;
      [|rewrite Hs; discriminate]. fold db'' in Hf.
    unfold post_receipts_confirm, get_db.
    rewrite (confirm_receipt_processed now rec_id data (mkSession db'' db'') _ Hf);
      [reflexivity | rewrite Hs; discriminate].
  - intros iss_id db i db' later H db'' now pb.
    destruct (post_issues_cancel_ok _ _ _ _ H) as (Hf & Hs & _).
    apply (serve_all_keeps_processed_issue later iss_id) in Hf;
      [|rewrite Hs; discriminate]. fold db'' in Hf.
    unfold post_issues_confirm, get_db.
    rewrite (confirm_issue_processed now iss_id pb (mkSession db'' db'') _ Hf);
      [reflexivity | rewrite Hs; discriminate].
Qed.

(** The confirmed receipt after an adjustment, a second receipt and an
    attempt to cancel it; the cancelled issue after an adjustment and an
    inventory act. *)
Lemma documents_are_processed_once_witness :
  let later_receipt :=
    [PostStocksAdjust (StockAdjust.mk 1 1 3 None None);
     PostReceipts (ReceiptCreate.mk "R-3" 1 None None None
                     [ReceiptItemCreate.mk 1 None 2 None]);
     PostReceiptsCancel 1] in
  let later_issue :=
    [PostStocksAdjust (StockAdjust.mk 1 1 50 None None);
     PostInventories 4 (InventoryCreate.mk "INV-1" None None
                          [InventoryItemCreate.mk 1 None 20])] in
  (post_receipts_confirm 9 1 (ReceiptConfirm.mk None)
     (serve_all later_receipt db_receipt_confirmed)
     = (Raise (mkHTTP 400 AlreadyProcessed),
        serve_all later_receipt db_receipt_confirmed)
   /\ post_receipts_cancel 1 (serve_all later_receipt db_receipt_confirmed)
     = (Raise (mkHTTP 400 ConfirmedNotCancellable),
        serve_all later_receipt db_receipt_confirmed))
  /\ post_issues_confirm 9 1 None (serve_all later_issue db_issue_cancelled)
     = (Raise (mkHTTP 400 AlreadyProcessed),
        serve_all later_issue db_issue_cancelled).
Proof.
  cbv zeta.
  destruct documents_are_processed_once as (Hrec & _ & _ & Hiss).
  split.
  - apply (Hrec 0 1 (ReceiptConfirm.mk None) db_receipt_draft
             (Receipt.mk 1 "R-2" 1 ReceiptStatus.confirmed (Some 0) None None None)
             db_receipt_confirmed _ eq_refl).
  - apply (Hiss 1 db_issue_15
             (Issue.mk 1 "I-1" None None IssueStatus.cancelled None None None None)
             db_issue_cancelled _ eq_refl).
Defined.

(** What the requests of the first list above have left: the balance is 3,
    the second receipt is a draft and the first is still confirmed. *)
Example confirmed_receipt_later :
  let db := serve_all
              [PostStocksAdjust (StockAdjust.mk 1 1 3 None None);
               PostReceipts (ReceiptCreate.mk "R-3" 1 None None None
                               [ReceiptItemCreate.mk 1 None 2 None]);
               PostReceiptsCancel 1] db_receipt_confirmed in
  quantity_at db 1 1 = 3
  /\ map (fun r => (Receipt.id r, Receipt.status r)) (receipts db)
     = [(1, ReceiptStatus.confirmed); (2, ReceiptStatus.draft)].
Proof. vm_compute. split; reflexivity. Qed.

(** ** Creating a document, then reading it *)

Lemma find_appended {A} (pk : A -> Z) (rows : list A) (x : A) :
  pk x = next_id (map pk rows) ->
  find (fun o => pk o =? pk x) (rows ++ [x]) = Some x.
Proof.
  intros Hx. rewrite find_app_absent.
  - now rewrite Z.eqb_refl.
  - rewrite Hx. apply find_next_id_absent.
Qed.

Lemma fresh_next_id {A} (pk : A -> Z) (rows : list A) :
  ~ In (next_id (map pk rows)) (map pk rows).
Proof. intros H. apply next_id_above in H. lia. Qed.

(** X14: a document that a creation request answers with can be read back:
    [GET] with its id answers with the same document.  Its id was used by no
    earlier document of the table, and it is appended to the table; a
    receipt or an issue is read back as a draft, an inventory act as
    completed. *)
Theorem created_document_is_read_back :
  (forall data db r db',
      post_receipts data db = (Ok r, db') ->
      get_receipts_id (Receipt.id r) db' = (Ok r, db')
      /\ ~ In (Receipt.id r) (map Receipt.id (receipts db))
      /\ receipts db' = receipts db ++ [r]
      /\ Receipt.status r = ReceiptStatus.draft)
  /\ (forall data db i db',
        post_issues data db = (Ok i, db') ->
        get_issues_id (Issue.id i) db' = (Ok i, db')
        /\ ~ In (Issue.id i) (map Issue.id (issues db))
        /\ issues db' = issues db ++ [i]
        /\ Issue.status i = IssueStatus.draft)
  /\ (forall now data db inv db',
        post_inventories now data db = (Ok inv, db') ->
        get_inventories_id (Inventory.id inv) db' = (Ok inv, db')
        /\ ~ In (Inventory.id inv) (map Inventory.id (inventories db))
        /\ inventories db' = inventories db ++ [inv]
        /\ Inventory.status inv = InventoryStatus.completed).
Proof.
  split; [|split].
  - intros data db r db'. unfold post_receipts, request.
    destruct (ReceiptCreate.validate data); [|discriminate].
    unfold get_db, create_receipt. unfold bind at 1.
    destruct (_get_or_404 "suppliers" suppliers _ _ _) as [[k|e] s1] eqn:Hs;
      [|discriminate].
    apply get_or_404_ok_session in Hs. subst s1.
    erewrite bind_ok by reflexivity. unfold bind at 1.
    destruct (flush_document receipts _ _ _ _) as [[[]|e] s1] eqn:Hfl;
      [|discriminate].
    apply flush_document_ok in Hfl. subst s1.
    cbn [pending persisted]. unfold bind at 1.
    match goal with
    | |- context [for_each ?body ?xs ?s0] =>
        assert (Hkeep : preserves (fun a b => receipts b = receipts a)
                          (for_each body xs))
          by (preserving (fun (a b c : Store) (H1 : receipts b = receipts a)
                              (H2 : receipts c = receipts b) => eq_trans H2 H1);
              reflexivity);
        destruct (Hkeep (pending s0) s0 eq_refl) as [Hrec _];
        destruct (for_each body xs s0) as [[[]|e] s3]; [|discriminate]
    end.
    erewrite bind_ok by reflexivity. unfold ret. cbn [snd pending persisted] in *.
    intros [= <- <-]. cbn [Receipt.id Receipt.status].
    split; [|split; [apply fresh_next_id | split; [exact Hrec | reflexivity]]].
    unfold get_receipts_id, get_db, get_receipt, _get_or_404, bind, query.
    cbn [pending persisted]. rewrite Hrec. cbn [receipts with_receipts].
    now rewrite (find_appended Receipt.id (receipts db)
                   (Receipt.mk (next_id (map Receipt.id (receipts db))) _ _ _ _ _ _ _)
                   eq_refl).
  - intros data db i db'. unfold post_issues, request.
    destruct (IssueCreate.validate data); [|discriminate].
    unfold get_db, create_issue.
    erewrite bind_ok by reflexivity. unfold bind at 1.
    destruct (flush_document issues _ _ _ _) as [[[]|e] s1] eqn:Hfl;
      [|discriminate].
    apply flush_document_ok in Hfl. subst s1.
    cbn [pending persisted]. unfold bind at 1.
    match goal with
    | |- context [for_each ?body ?xs ?s0] =>
        assert (Hkeep : preserves (fun a b => issues b = issues a)
                          (for_each body xs))
          by (preserving (fun (a b c : Store) (H1 : issues b = issues a)
                              (H2 : issues c = issues b) => eq_trans H2 H1);
              reflexivity);
        destruct (Hkeep (pending s0) s0 eq_refl) as [Hrec _];
        destruct (for_each body xs s0) as [[[]|e] s3]; [|discriminate]
    end.
    erewrite bind_ok by reflexivity. unfold ret. cbn [snd pending persisted] in *.
    intros [= <- <-]. cbn [Issue.id Issue.status].
    split; [|split; [apply fresh_next_id | split; [exact Hrec | reflexivity]]].
    unfold get_issues_id, get_db, get_issue, _get_or_404, bind, query.
    cbn [pending persisted]. rewrite Hrec. cbn [issues with_issues].
    now rewrite (find_appended Issue.id (issues db)
                   (Issue.mk (next_id (map Issue.id (issues db))) _ _ _ _ _ _ _ _)
                   eq_refl).
  - intros now data db inv db'. unfold post_inventories, request.
    destruct (InventoryCreate.validate data); [|discriminate].
    unfold get_db, create_inventory.
    erewrite bind_ok by reflexivity. unfold bind at 1.
    destruct (flush_document inventories _ _ _ _) as [[[]|e] s1] eqn:Hfl;
      [|discriminate].
    apply flush_document_ok in Hfl. subst s1.
    cbn [pending persisted]. unfold bind at 1.
    match goal with
    | |- context [for_each ?body ?xs ?s0] =>
        assert (Hkeep : preserves (fun a b => inventories b = inventories a)
                          (for_each body xs))
          by (unfold inventory_line, add_stock, assign_quantity, _write_audit;
              preserving (fun (a b c : Store)
                              (H1 : inventories b = inventories a)
                              (H2 : inventories c = inventories b) => eq_trans H2 H1);
              reflexivity);
        destruct (Hkeep (pending s0) s0 eq_refl) as [Hrec _];
        destruct (for_each body xs s0) as [[[]|e] s3]; [|discriminate]
    end.
    erewrite bind_ok by reflexivity. erewrite bind_ok by reflexivity.
    unfold ret. cbn [snd pending persisted] in *.
    intros [= <- <-].
    cbn [inventories with_inventories] in Hrec |- *. rewrite Hrec.
    rewrite update_first_app_absent by apply find_next_id_absent.
    cbn [Inventory.id]. rewrite Z.eqb_refl.
    cbn [Inventory.id Inventory.status Inventory.set_status
         Inventory.set_finished_at].
    split; [|split; [apply fresh_next_id | split; reflexivity]].
    unfold get_inventories_id, get_db, get_inventory, _get_or_404, bind, query.
    cbn [pending persisted inventories].
    cbn [inventories with_inventories]. rewrite Hrec.
    rewrite update_first_app_absent by apply (find_next_id_absent Inventory.id).
    cbn [Inventory.id]. rewrite Z.eqb_refl.
    rewrite find_app_absent by apply (find_next_id_absent Inventory.id).
    cbn [Inventory.id Inventory.set_status Inventory.set_finished_at].
    now rewrite Z.eqb_refl.
Qed.

Lemma created_document_is_read_back_witness :
  get_receipts_id 1 db_receipt_draft
    = (Ok (Receipt.mk 1 "R-2" 1 ReceiptStatus.draft None None None None),
       db_receipt_draft)
  /\ get_issues_id 1 db_issue_15
    = (Ok (Issue.mk 1 "I-1" None None IssueStatus.draft None None None None),
       db_issue_15).
Proof.
  destruct created_document_is_read_back as (Hrec & Hiss & _).
  split.
  - apply (Hrec (ReceiptCreate.mk "R-2" 1 None None None
                   [ReceiptItemCreate.mk 1 None 10 None]) db_empty
             (Receipt.mk 1 "R-2" 1 ReceiptStatus.draft None None None None)
             db_receipt_draft eq_refl).
  - apply (Hiss (IssueCreate.mk "I-1" None None None None None
                   [IssueItemCreate.mk 1 None 15]) (db_with 10)
             (Issue.mk 1 "I-1" None None IssueStatus.draft None None None None)
             db_issue_15 eq_refl).
Defined.

(** ** An inventory act without discrepancy *)

Lemma inventory_lines_without_discrepancy inv_id number created_by
    (items : list InventoryItemCreate.t) :
  forall s,
    (forall it, In it items ->
       In (InventoryItemCreate.component_id it) (components (pending s))
       /\ InventoryItemCreate.actual_quantity it
          = quantity_at (pending s) (InventoryItemCreate.component_id it)
              (or_1 (InventoryItemCreate.location_id it))) ->
    exists s',
      for_each (inventory_line inv_id number created_by) items s = (Ok tt, s')
      /\ stocks (pending s') = stocks (pending s)
      /\ audit_logs (pending s') = audit_logs (pending s)
      /\ inventories (pending s') = inventories (pending s)
      /\ inventory_items (pending s') = inventory_items (pending s) ++
           map (fun it => InventoryItem.mk inv_id
                  (InventoryItemCreate.component_id it)
                  (Some (or_1 (InventoryItemCreate.location_id it)))
                  (InventoryItemCreate.actual_quantity it)
                  (InventoryItemCreate.actual_quantity it) 0) items.
Proof.
  induction items as [|x items IH]; intros s H; cbn [for_each map].
  - exists s. rewrite app_nil_r. repeat split.
  - destruct (H x (or_introl eq_refl)) as [Hc Ha].
    destruct (inventory_line_effect inv_id number created_by x s Hc)
      as (s1 & Hr & Hcomp & Hinv & Hline & _ & _ & Hsame & _ & _).
    destruct (Hsame Ha) as [Hlog Hst].
    destruct (IH s1) as (s2 & Hr2 & Hst2 & Hlog2 & Hinv2 & Hlines2).
    { intros it Hit. destruct (H it (or_intror Hit)) as [Hc' Ha'].
      rewrite Hcomp. split; [exact Hc'|].
      rewrite Ha'. apply quantity_at_stocks. now symmetry. }
    exists s2. unfold bind. rewrite Hr. split; [exact Hr2|].
    split; [congruence|]. split; [congruence|]. split; [congruence|].
    rewrite Hlines2, Hline, <- app_assoc. cbn [app]. rewrite <- Ha.
    now rewrite Z.sub_diag.
Qed.

(** X15: an inventory act that passes validation, whose number is free and
    every position of which counts exactly the current balance of its cell
    (the component existing and the location being a SQLite integer) is
    stored, completed, with one line per position (expected = actual,
    discrepancy 0), but it changes no balance row and appends nothing to
    the journal. *)
Theorem inventory_without_discrepancy now (data : InventoryCreate.t) (db : Store) :
  (forall it, In it (InventoryCreate.items data) ->
     In (InventoryItemCreate.component_id it) (components db)
     /\ int64 (or_1 (InventoryItemCreate.location_id it))
     /\ InventoryItemCreate.actual_quantity it
        = quantity_at db (InventoryItemCreate.component_id it)
            (or_1 (InventoryItemCreate.location_id it))) ->
  InventoryCreate.validate data = true ->
  ~ In (InventoryCreate.number data) (map Inventory.number (inventories db)) ->
  exists inv db',
    post_inventories now data db = (Ok inv, db')
    /\ Inventory.status inv = InventoryStatus.completed
    /\ stocks db' = stocks db
    /\ audit_logs db' = audit_logs db
    /\ inventory_items db' = inventory_items db ++
         map (fun it => InventoryItem.mk (Inventory.id inv)
                (InventoryItemCreate.component_id it)
                (Some (or_1 (InventoryItemCreate.location_id it)))
                (InventoryItemCreate.actual_quantity it)
                (InventoryItemCreate.actual_quantity it) 0)
           (InventoryCreate.items data).
Proof.
  intros H0 Hv Hfree.
  assert (H : forall it, In it (InventoryCreate.items data) ->
     In (InventoryItemCreate.component_id it) (components db)
     /\ InventoryItemCreate.actual_quantity it
        = quantity_at db (InventoryItemCreate.component_id it)
            (or_1 (InventoryItemCreate.location_id it)))
    by (intros it Hit; destruct (H0 it Hit) as (Hc & _ & Ha); now split).
  set (new_id := next_id (map Inventory.id (inventories db))).
  set (inventory := Inventory.mk new_id (InventoryCreate.number data)
                      InventoryStatus.in_progress None
                      (InventoryCreate.notes data)
                      (InventoryCreate.created_by data)).
  set (s0 := mkSession db (with_inventories (fun rows => rows ++ [inventory]) db)).
  destruct (inventory_lines_without_discrepancy new_id
              (InventoryCreate.number data) (InventoryCreate.created_by data)
              (InventoryCreate.items data) s0 H)
    as (s1 & Hloop & Hst & Hlog & _ & Hlines).
  eexists _, _.
  unfold post_inventories, request. rewrite Hv. unfold get_db, create_inventory.
  erewrite bind_ok by reflexivity.
  erewrite bind_ok by (apply flush_document_free; exact Hfree).
  cbn [pending persisted]. fold new_id. fold inventory. fold s0.
  erewrite bind_ok by exact Hloop.
  erewrite bind_ok by reflexivity.
  erewrite bind_ok by reflexivity.
  unfold ret. cbn [persisted pending].
  split; [reflexivity|]. split; [reflexivity|].
  split; [exact Hst|]. split; [exact Hlog | exact Hlines].
Qed.

Lemma inventory_without_discrepancy_witness :
  exists inv db',
    post_inventories 0 (InventoryCreate.mk "INV-3" None None
                          [InventoryItemCreate.mk 1 None 10;
                           InventoryItemCreate.mk 1 (Some 2) 4]) db_two_cells
      = (Ok inv, db')
    /\ stocks db' = stocks db_two_cells
    /\ audit_logs db' = [].
Proof.
  destruct (inventory_without_discrepancy 0
              (InventoryCreate.mk "INV-3" None None
                 [InventoryItemCreate.mk 1 None 10;
                  InventoryItemCreate.mk 1 (Some 2) 4]) db_two_cells)
    as (inv & db' & Hr & _ & Hst & Hlog & _).
  - intros it [<-|[<-|[]]];
      (split; [cbn; left; reflexivity | split; [numerals | reflexivity]]).
  - reflexivity.
  - cbn. tauto.
  - exists inv, db'. split; [exact Hr|]. split; [exact Hst | exact Hlog].
Defined.

(** ** The journal route *)

Lemma action_type_eqb_eq (a b : AuditActionType.t) :
  action_type_eqb a b = true <-> a = b.
Proof. destruct a, b; cbn; split; congruence. Qed.

Lemma In_page {A} (offset limit : Z) (rows : list A) (x : A) :
  In x (page offset limit rows) -> In x rows.
Proof.
  unfold page. intros H.
  assert (Hrest : In x (skipn (Z.to_nat offset) rows)).
  { destruct (limit <? 0); [exact H|].
    rewrite <- (firstn_skipn (Z.to_nat limit) (skipn (Z.to_nat offset) rows)).
    apply in_or_app. now left. }
  rewrite <- (firstn_skipn (Z.to_nat offset) rows). apply in_or_app. now right.
Qed.

Lemma page_length {A} (offset limit : Z) (rows : list A) :
  0 <= limit -> (List.length (page offset limit rows) <= Z.to_nat limit)%nat.
Proof.
  intros H. unfold page. destruct (Z.ltb_spec limit 0) as [|_]; [lia|].
  apply firstn_le_length.
Qed.

Lemma firstn_plus {A} (n m : nat) (l : list A) :
  firstn n l ++ firstn m (skipn n l) = firstn (n + m) l.
Proof.
  revert l. induction n as [|n IH]; intros l; [reflexivity|].
  destruct l as [|x l]; cbn [firstn skipn app Nat.add].
  - now destruct m.
  - now rewrite IH.
Qed.

Lemma skipn_plus {A} (n m : nat) (l : list A) :
  skipn m (skipn n l) = skipn (n + m) l.
Proof.
  revert l. induction n as [|n IH]; intros l; [reflexivity|].
  destruct l as [|x l]; cbn [skipn Nat.add]; [now destruct m | apply IH].
Qed.

Lemma page_then_page {A} (offset n m : Z) (rows : list A) :
  0 <= offset -> 0 <= n -> 0 <= m ->
  page offset n rows ++ page (offset + n) m rows = page offset (n + m) rows.
Proof.
  intros Ho Hn Hm. unfold page.
  destruct (Z.ltb_spec n 0); [lia|]. destruct (Z.ltb_spec m 0); [lia|].
  destruct (Z.ltb_spec (n + m) 0); [lia|].
  rewrite !Z2Nat.inj_add by lia. rewrite <- skipn_plus. apply firstn_plus.
Qed.

Section Journal.
Variable newest_first : list AuditLog.t -> list AuditLog.t.
Hypothesis newest_first_same :
  forall rows e, In e (newest_first rows) <-> In e rows.

(** X16: [GET /audit] refuses a limit above 1000 (422).  Otherwise, for
    a limit, an offset and a component id that are SQLite integers, it
    answers, without changing anything, with entries of the journal that
    all satisfy the filters given (a component id that is absent or 0 does
    not filter), at most [limit] of them when [limit >= 0]; and two
    consecutive pages are exactly the page of their joint size: nothing is
    skipped or repeated between them.  The ordering by creation time is any
    rearrangement [newest_first] of the selected rows. *)
Theorem audit_log_pages component_id action_type (limit offset : Z) (db : Store) :
  (1000 < limit ->
     get_audit newest_first component_id action_type limit offset db
     = (Raise (mkHTTP 422 RequestValidation), db))
  /\ (limit <= 1000 ->
        int64 limit -> int64 offset ->
        (forall c, component_id = Some c -> int64 c) ->
        exists rows,
          get_audit newest_first component_id action_type limit offset db
          = (Ok rows, db)
          /\ (0 <= limit -> (List.length rows <= Z.to_nat limit)%nat)
          /\ Forall (fun e => In e (audit_logs db)
                              /\ audit_filter component_id action_type e) rows)
  /\ (forall more first second,
        0 <= offset -> 0 <= limit -> 0 <= more -> limit + more <= 1000 ->
        int64 (offset + limit) ->
        (forall c, component_id = Some c -> int64 c) ->
        get_audit newest_first component_id action_type limit offset db
          = (Ok first, db) ->
        get_audit newest_first component_id action_type more (offset + limit) db
          = (Ok second, db) ->
        get_audit newest_first component_id action_type (limit + more) offset db
          = (Ok (first ++ second), db)).
Proof.
  unfold get_audit, request, get_db, get_audit_log, query. cbn [pending persisted].
  split; [|split].
  - intros H. destruct (Z.leb_spec limit 1000); [lia | reflexivity].
  - intros H _ _ _. destruct (Z.leb_spec limit 1000); [|lia].
    eexists. split; [reflexivity|]. split; [apply page_length|].
    apply Forall_forall. intros e He. apply In_page in He.
    apply (proj1 (newest_first_same _ _)) in He.
    unfold audit_filter.
    destruct action_type as [a|]; destruct (given component_id) as [c|];
      repeat match type of He with
             | In _ (filter _ _) => apply filter_In in He; destruct He as [He ?]
             end;
      (split; [exact He|]); split; intros x [= <-].
    + destruct (AuditLog.component_id e) as [c'|]; [|discriminate].
      f_equal. now apply Z.eqb_eq.
    + now apply action_type_eqb_eq.
    + now apply action_type_eqb_eq.
    + destruct (AuditLog.component_id e) as [c'|]; [|discriminate].
      f_equal. now apply Z.eqb_eq.
  - intros more first second Ho Hl Hm Hsum _ _.
    destruct (Z.leb_spec limit 1000); [|lia].
    destruct (Z.leb_spec more 1000); [|lia].
    destruct (Z.leb_spec (limit + more) 1000); [|lia].
    intros [= <-] [= <-]. now rewrite page_then_page.
Qed.

End Journal.

Lemma audit_log_pages_witness :
  exists rows,
    get_audit (@rev AuditLog.t) (Some 1) (Some AuditActionType.inventory) 5 0
      db_adjusted_then_counted = (Ok rows, db_adjusted_then_counted)
    /\ (List.length rows <= 5)%nat.
Proof.
  destruct (audit_log_pages (@rev AuditLog.t)
              (fun rows e => iff_sym (in_rev rows e))
              (Some 1) (Some AuditActionType.inventory) 5 0
              db_adjusted_then_counted) as (_ & H & _).
  destruct (H ltac:(lia)) as (rows & Hr & Hlen & _);
    [numerals | numerals | intros c [= <-]; numerals |].
  exists rows. split; [exact Hr | apply Hlen; lia].
Defined.

Example audit_log_newest_first :
  fst (get_audit (@rev AuditLog.t) (Some 1) None 1 0 db_adjusted_then_counted)
  = Ok [AuditLog.mk AuditActionType.inventory "stock" (Some 1) (Some 1) (Some 1)
          (Some 7) (Some 3) (Some (InventoryNote "INV-1" (-4))) None None].
Proof. vm_compute. reflexivity. Qed.

(** ** Totals and the journal *)

Lemma component_total_stocks (a b : Store) (c : Z) :
  stocks a = stocks b -> component_total a c = component_total b c.
Proof. unfold component_total. now intros ->. Qed.

Lemma total_after_assign (rows : list Stock.t) (c l q c' : Z) (st : Stock.t) :
  find (at_cell c l) rows = Some st ->
  fold_right Z.add 0
    (map Stock.quantity
       (filter (fun s => Stock.component_id s =? c')
          (update_first (at_cell c l) (Stock.set_quantity q) rows)))
  = fold_right Z.add 0
      (map Stock.quantity (filter (fun s => Stock.component_id s =? c') rows))
    + (if c =? c' then q - Stock.quantity st else 0).
Proof.
  induction rows as [|x rows IH]; cbn [find update_first]; [discriminate|].
  destruct (at_cell c l x) eqn:E.
  - intros [= ->]. apply at_cell_spec in E. destruct E as [Ec _].
    cbn [filter Stock.set_quantity Stock.component_id]. rewrite Ec.
    destruct (c =? c'); cbn [map fold_right Stock.quantity Stock.set_quantity];
      lia.
  - intros F. cbn [filter]. destruct (Stock.component_id x =? c');
      cbn [map fold_right]; rewrite (IH F); lia.
Qed.

Lemma total_after_add (rows : list Stock.t) (i c l q r c' : Z) :
  fold_right Z.add 0
    (map Stock.quantity
       (filter (fun s => Stock.component_id s =? c') (rows ++ [Stock.mk i c l q r])))
  = fold_right Z.add 0
      (map Stock.quantity (filter (fun s => Stock.component_id s =? c') rows))
    + (if c =? c' then q else 0).
Proof.
  induction rows as [|x rows IH]; cbn [app filter Stock.component_id].
  - destruct (c =? c'); cbn; lia.
  - destruct (Stock.component_id x =? c'); cbn [map fold_right]; rewrite IH; lia.
Qed.

Lemma net_movement_app (c : Z) (a b : list AuditLog.t) :
  net_movement c (a ++ b) = net_movement c a + net_movement c b.
Proof.
  induction a as [|e a IH]; cbn [app net_movement]; [lia|]. rewrite IH. lia.
Qed.

Lemma cell_step_total ok (a b : Store) :
  cell_step ok a b ->
  exists new,
    audit_logs b = audit_logs a ++ new
    /\ forall c, component_total b c = component_total a c + net_movement c new.
Proof.
  intros [Hs Ha | c l st q e F _ Hs Ha Hc _ Hb Hq
         | c l i q e F _ Hs Ha Hc _ Hb Hq | c l i F _ Hs Ha].
  - exists []. rewrite app_nil_r. split; [exact Ha|]. intros c.
    rewrite (component_total_stocks b a c Hs). cbn. lia.
  - exists [e]. split; [exact Ha|]. intros c'. unfold component_total.
    rewrite Hs, (total_after_assign _ c l q c' st F).
    cbn [net_movement]. rewrite Hc, Hb, Hq. lia.
  - exists [e]. split; [exact Ha|]. intros c'. unfold component_total.
    rewrite Hs, total_after_add. cbn [net_movement]. rewrite Hc, Hb, Hq.
    destruct (c =? c'); lia.
  - exists []. rewrite app_nil_r. split; [exact Ha|]. intros c'.
    unfold component_total. rewrite Hs, total_after_add. cbn [net_movement].
    destruct (c =? c'); lia.
Qed.

Lemma ledger_steps_total ok (a b : Store) :
  ledger_steps ok a b ->
  exists new,
    audit_logs b = audit_logs a ++ new
    /\ forall c, component_total b c = component_total a c + net_movement c new.
Proof.
  induction 1 as [|b1 b2 _ (n1 & Hlog1 & Htot1) Hs].
  - exists []. rewrite app_nil_r. split; [reflexivity|]. intros c. cbn. lia.
  - destruct (cell_step_total ok b1 b2 Hs) as (n2 & Hlog2 & Htot2).
    exists (n1 ++ n2). split; [now rewrite Hlog2, Hlog1, app_assoc|].
    intros c. rewrite Htot2, Htot1, net_movement_app. lia.
Qed.

(** X18: after any modelled route, whatever its answer, the sum of the
    balances of a component over its cells has changed by exactly the sum
    of [quantity_after - quantity_before] over the journal entries that
    the request appended for that component.  The quantities are whole
    numbers and small: the magnitudes of the balances and of the stored
    lines of receipts and issues add up to at most 2^51, and so do those of
    the quantities of the request body, so that no balance, no difference
    and no sum of balances or of differences, in whatever order it is
    taken, leaves the range in which binary64 is exact. *)
Theorem totals_move_as_journalled (db : Store) :
  magnitude (stored_quantities db) <= 2 ^ 51 ->
  let explained (db' : Store) :=
    exists new,
      audit_logs db' = audit_logs db ++ new
      /\ forall c, component_total db' c = component_total db c + net_movement c new in
  (forall data,
      Z.abs (StockAdjust.quantity data) <= 2 ^ 51 ->
      explained (snd (post_stocks_adjust data db)))
  /\ (forall data, explained (snd (post_receipts data db)))
  /\ (forall now rec_id data,
        explained (snd (post_receipts_confirm now rec_id data db)))
  /\ (forall rec_id, explained (snd (post_receipts_cancel rec_id db)))
  /\ (forall data, explained (snd (post_issues data db)))
  /\ (forall now iss_id pb, explained (snd (post_issues_confirm now iss_id pb db)))
  /\ (forall iss_id, explained (snd (post_issues_cancel iss_id db)))
  /\ (forall now data,
        magnitude (map InventoryItemCreate.actual_quantity
                     (InventoryCreate.items data)) <= 2 ^ 51 ->
        explained (snd (post_inventories now data db))).
Proof.
  intros _. cbv zeta.
  destruct (routes_step (fun _ => True) any_quantity db)
    as (H1 & H2 & H3 & H4 & H5 & H6 & H7 & H8).
  repeat split; intros; eapply ledger_steps_total; eauto.
Qed.

(** Issuing 4 of the 10 pieces of component 1, and counting 7 of them. *)
Lemma totals_move_as_journalled_witness :
  (exists new,
     audit_logs (snd (post_issues_confirm 0 1 None db_issue_4))
     = audit_logs db_issue_4 ++ new
     /\ forall c,
          component_total (snd (post_issues_confirm 0 1 None db_issue_4)) c
          = component_total db_issue_4 c + net_movement c new)
  /\ (exists new,
        audit_logs
          (snd (post_inventories 0
                  (InventoryCreate.mk "INV-1" None None
                     [InventoryItemCreate.mk 1 None 7]) db_issue_4))
        = audit_logs db_issue_4 ++ new
        /\ forall c,
             component_total
               (snd (post_inventories 0
                       (InventoryCreate.mk "INV-1" None None
                          [InventoryItemCreate.mk 1 None 7]) db_issue_4)) c
             = component_total db_issue_4 c + net_movement c new).
Proof.
  assert (Hdb : magnitude (stored_quantities db_issue_4) <= 2 ^ 51)
    by (vm_compute; discriminate).
  destruct (totals_move_as_journalled db_issue_4 Hdb)
    as (_ & _ & _ & _ & _ & Hissue & _ & Hinv).
  split.
  - exact (Hissue 0 1 None).
  - apply (Hinv 0). vm_compute. discriminate.
Defined.

(** Issuing 4 of the 10 pieces of component 1: the total goes from 10 to 6
    and the entry appended records 10 -> 6. *)
Example total_after_issue_of_4 :
  let db' := snd (post_issues_confirm 0 1 None db_issue_4) in
  component_total db_issue_4 1 = 10
  /\ component_total db' 1 = 6
  /\ net_movement 1 (audit_logs db') = -4.
Proof. vm_compute. repeat split. Qed.

(** ** Requests that do not move stock *)

Lemma same_ledger_refl (db : Store) : same_ledger db db.
Proof. split; reflexivity. Qed.

Lemma same_ledger_trans (a b c : Store) :
  same_ledger a b -> same_ledger b c -> same_ledger a c.
Proof. unfold same_ledger. intros [H1 H2] [H3 H4]. split; congruence. Qed.

(** X19: creating or cancelling a receipt or an issue, and reading a
    document, the balances or the journal, never changes a balance row or
    the journal, whatever the answer. *)
Theorem only_confirmations_move_stock (db : Store) :
  (forall data, same_ledger db (snd (post_receipts data db)))
  /\ (forall rec_id, same_ledger db (snd (post_receipts_cancel rec_id db)))
  /\ (forall data, same_ledger db (snd (post_issues data db)))
  /\ (forall iss_id, same_ledger db (snd (post_issues_cancel iss_id db)))
  /\ (forall rec_id, snd (get_receipts_id rec_id db) = db)
  /\ (forall iss_id, snd (get_issues_id iss_id db) = db)
  /\ (forall inv_id, snd (get_inventories_id inv_id db) = db)
  /\ (forall c l, snd (get_stocks c l db) = db).
Proof.
  split; [|split; [|split; [|split; [|split; [|split; [|split]]]]]].
  - intros data. apply (preserves_request same_ledger);
      [apply same_ledger_refl|].
    unfold create_receipt. preserving same_ledger_trans; split; reflexivity.
  - intros rec_id. apply (preserves_get_db same_ledger);
      [apply same_ledger_refl|].
    unfold cancel_receipt. preserving same_ledger_trans; split; reflexivity.
  - intros data. apply (preserves_request same_ledger);
      [apply same_ledger_refl|].
    unfold create_issue. preserving same_ledger_trans; split; reflexivity.
  - intros iss_id. apply (preserves_get_db same_ledger);
      [apply same_ledger_refl|].
    unfold cancel_issue. preserving same_ledger_trans; split; reflexivity.
  - intros rec_id. unfold get_receipts_id, get_db, get_receipt, _get_or_404,
      bind, query. cbn [pending]. now destruct (find _ _).
  - intros iss_id. unfold get_issues_id, get_db, get_issue, _get_or_404,
      bind, query. cbn [pending]. now destruct (find _ _).
  - intros inv_id. unfold get_inventories_id, get_db, get_inventory, _get_or_404,
      bind, query. cbn [pending]. now destruct (find _ _).
  - intros c l. reflexivity.
Qed.

(** ** Numbers of the documents *)

Lemma number_not_taken {A} (number : A -> string) (rows : list A) (n : string) :
  existsb (fun o => String.eqb (number o) n) rows = false ->
  ~ In n (map number rows).
Proof.
  intros H Hin. now rewrite (number_taken number rows n Hin) in H.
Qed.

Section Numbers.
Context {A : Type}.
Variables (table : Store -> list A) (number : A -> string).

Lemma keeps_numbers_refl (db : Store) : keeps_numbers table number db db.
Proof. intros H. exact H. Qed.

Lemma keeps_numbers_trans (a b c : Store) :
  keeps_numbers table number a b -> keeps_numbers table number b c ->
  keeps_numbers table number a c.
Proof. unfold keeps_numbers. auto. Qed.

Lemma keeps_numbers_same (a b : Store) :
  table b = table a -> keeps_numbers table number a b.
Proof. unfold keeps_numbers. now intros ->. Qed.

Lemma numbers_after_update (p : A -> bool) (f : A -> A) (rows : list A) :
  (forall x, number (f x) = number x) ->
  map number (update_first p f rows) = map number rows.
Proof.
  intros Hf. induction rows as [|x rows IH]; cbn [update_first map];
    [reflexivity|].
  destruct (p x); cbn [map]; [now rewrite Hf | now rewrite IH].
Qed.

(** The flush of a document keeps the numbers of its table distinct: it
    stores the document only when its number is free. *)
Lemma flush_document_keeps_numbers (add : A -> Store -> Store) (doc : A) :
  (forall db, table (add doc db) = table db ++ [doc]) ->
  preserves (keeps_numbers table number) (flush_document table number add doc).
Proof.
  intros Hadd db0 s H. unfold flush_document, bind, query.
  destruct (existsb _ _) eqn:E; cbn [snd raise write pending persisted];
    [tauto|].
  split; [|tauto]. intros Hn. rewrite Hadd, map_app. cbn [map].
  apply NoDup_snoc; [exact (H Hn) | exact (number_not_taken _ _ _ E)].
Qed.

End Numbers.

(** Writes that leave the table alone or rewrite a row without changing
    its number. *)
Ltac numbering :=
  first [ apply keeps_numbers_same; reflexivity
        | intros Hn; cbn [receipts issues inventories with_receipts with_issues
                          with_inventories];
          rewrite numbers_after_update by reflexivity; exact Hn ].

Lemma serve_keeps_receipt_numbers (req : Request) (db : Store) :
  keeps_numbers receipts Receipt.number db (serve req db).
Proof.
  pose proof (keeps_numbers_trans receipts Receipt.number) as Rt.
  pose proof (keeps_numbers_refl receipts Receipt.number db) as Rr.
  destruct req; cbn [serve].
  - apply (preserves_request _); [exact Rr|].
    unfold adjust_stock, add_stock, assign_quantity, _write_audit.
    preserving Rt; numbering.
  - apply (preserves_request _); [exact Rr|]. unfold create_receipt.
    apply preserves_bind; [apply preserves_get_or_404 | intros _].
    apply preserves_bind; [apply preserves_query | intros new_id].
    apply preserves_bind;
      [apply flush_document_keeps_numbers; reflexivity | intros _].
    preserving Rt; numbering.
  - apply (preserves_get_db _); [exact Rr|].
    unfold confirm_receipt, receipt_line, _stock_upsert, add_stock,
      assign_quantity, _write_audit.
    preserving Rt; numbering.
  - apply (preserves_get_db _); [exact Rr|]. unfold cancel_receipt.
    preserving Rt; numbering.
  - apply (preserves_request _); [exact Rr|]. unfold create_issue.
    preserving Rt; numbering.
  - apply (preserves_get_db _); [exact Rr|].
    unfold confirm_issue, issue_line, _stock_upsert, add_stock,
      assign_quantity, _write_audit.
    preserving Rt; numbering.
  - apply (preserves_get_db _); [exact Rr|]. unfold cancel_issue.
    preserving Rt; numbering.
  - apply (preserves_request _); [exact Rr|].
    unfold create_inventory, inventory_line, add_stock, assign_quantity,
      _write_audit.
    preserving Rt; numbering.
Qed.

Lemma serve_keeps_issue_numbers (req : Request) (db : Store) :
  keeps_numbers issues Issue.number db (serve req db).
Proof.
  pose proof (keeps_numbers_trans issues Issue.number) as Rt.
  pose proof (keeps_numbers_refl issues Issue.number db) as Rr.
  destruct req; cbn [serve].
  - apply (preserves_request _); [exact Rr|].
    unfold adjust_stock, add_stock, assign_quantity, _write_audit.
    preserving Rt; numbering.
  - apply (preserves_request _); [exact Rr|]. unfold create_receipt.
    preserving Rt; numbering.
  - apply (preserves_get_db _); [exact Rr|].
    unfold confirm_receipt, receipt_line, _stock_upsert, add_stock,
      assign_quantity, _write_audit.
    preserving Rt; numbering.
  - apply (preserves_get_db _); [exact Rr|]. unfold cancel_receipt.
    preserving Rt; numbering.
  - apply (preserves_request _); [exact Rr|]. unfold create_issue.
    apply preserves_bind; [apply preserves_query | intros new_id].
    apply preserves_bind;
      [apply flush_document_keeps_numbers; reflexivity | intros _].
    preserving Rt; numbering.
  - apply (preserves_get_db _); [exact Rr|].
    unfold confirm_issue, issue_line, _stock_upsert, add_stock,
      assign_quantity, _write_audit.
    preserving Rt; numbering.
  - apply (preserves_get_db _); [exact Rr|]. unfold cancel_issue.
    preserving Rt; numbering.
  - apply (preserves_request _); [exact Rr|].
    unfold create_inventory, inventory_line, add_stock, assign_quantity,
      _write_audit.
    preserving Rt; numbering.
Qed.

Lemma serve_keeps_inventory_numbers (req : Request) (db : Store) :
  keeps_numbers inventories Inventory.number db (serve req db).
Proof.
  pose proof (keeps_numbers_trans inventories Inventory.number) as Rt.
  pose proof (keeps_numbers_refl inventories Inventory.number db) as Rr.
  destruct req; cbn [serve].
  - apply (preserves_request _); [exact Rr|].
    unfold adjust_stock, add_stock, assign_quantity, _write_audit.
    preserving Rt; numbering.
  - apply (preserves_request _); [exact Rr|]. unfold create_receipt.
    preserving Rt; numbering.
  - apply (preserves_get_db _); [exact Rr|].
    unfold confirm_receipt, receipt_line, _stock_upsert, add_stock,
      assign_quantity, _write_audit.
    preserving Rt; numbering.
  - apply (preserves_get_db _); [exact Rr|]. unfold cancel_receipt.
    preserving Rt; numbering.
  - apply (preserves_request _); [exact Rr|]. unfold create_issue.
    preserving Rt; numbering.
  - apply (preserves_get_db _); [exact Rr|].
    unfold confirm_issue, issue_line, _stock_upsert, add_stock,
      assign_quantity, _write_audit.
    preserving Rt; numbering.
  - apply (preserves_get_db _); [exact Rr|]. unfold cancel_issue.
    preserving Rt; numbering.
  - apply (preserves_request _); [exact Rr|]. unfold create_inventory.
    apply preserves_bind; [apply preserves_query | intros new_id].
    apply preserves_bind;
      [apply flush_document_keeps_numbers; reflexivity | intros _].
    unfold inventory_line, add_stock, assign_quantity, _write_audit.
    preserving Rt; numbering.
Qed.

(** X20: the creation of a document whose number is already that of a
    document of its table is answered 500 (the flush violates the UNIQUE
    constraint of the [number] column) and stores nothing; for a receipt
    the supplier is looked up first.  So, if in each table of documents no
    two rows have the same number, the same holds after any request to the
    ledger ([Request]). *)
Theorem taken_number_is_refused (db : Store) :
  (forall data,
      ReceiptCreate.validate data = true ->
      In (ReceiptCreate.supplier_id data) (suppliers db) ->
      In (ReceiptCreate.number data) (map Receipt.number (receipts db)) ->
      post_receipts data db = (Raise (mkHTTP 500 IntegrityError), db))
  /\ (forall data,
        IssueCreate.validate data = true ->
        In (IssueCreate.number data) (map Issue.number (issues db)) ->
        post_issues data db = (Raise (mkHTTP 500 IntegrityError), db))
  /\ (forall now data,
        InventoryCreate.validate data = true ->
        In (InventoryCreate.number data)
          (map Inventory.number (inventories db)) ->
        post_inventories now data db = (Raise (mkHTTP 500 IntegrityError), db))
  /\ (numbers_unique db -> forall req, numbers_unique (serve req db)).
Proof.
  split; [|split; [|split]].
  - intros data Hv Hs Htaken.
    unfold post_receipts, request. rewrite Hv. unfold get_db, create_receipt.
    erewrite bind_ok by (apply get_or_404_key; exact Hs).
    erewrite bind_ok by reflexivity.
    now erewrite bind_raise by (apply flush_document_taken; exact Htaken).
  - intros data Hv Htaken.
    unfold post_issues, request. rewrite Hv. unfold get_db, create_issue.
    erewrite bind_ok by reflexivity.
    now erewrite bind_raise by (apply flush_document_taken; exact Htaken).
  - intros now data Hv Htaken.
    unfold post_inventories, request. rewrite Hv. unfold get_db, create_inventory.
    erewrite bind_ok by reflexivity.
    now erewrite bind_raise by (apply flush_document_taken; exact Htaken).
  - intros (Hr & Hi & Hv) req. split; [|split].
    + exact (serve_keeps_receipt_numbers req db Hr).
    + exact (serve_keeps_issue_numbers req db Hi).
    + exact (serve_keeps_inventory_numbers req db Hv).
Qed.

(** A second receipt numbered R-2. *)
Lemma taken_number_is_refused_witness :
  post_receipts (ReceiptCreate.mk "R-2" 1 None None None []) db_receipt_draft
    = (Raise (mkHTTP 500 IntegrityError), db_receipt_draft)
  /\ numbers_unique
       (serve (PostReceipts (ReceiptCreate.mk "R-3" 1 None None None []))
          db_receipt_draft).
Proof.
  destruct (taken_number_is_refused db_receipt_draft) as (Hrec & _ & _ & Hu).
  split.
  - apply Hrec; [reflexivity | cbn; left; reflexivity | cbn; left; reflexivity].
  - apply Hu. unfold numbers_unique. cbn.
    repeat split; repeat constructor; cbn; tauto.
Defined.
